(** * Bitcoin spam filter: the detection and scoring engine

    A shallow embedding of the TypeScript core of the filter
    ([parser.ts], [detectors/p2wsh-detector.ts],
    [detectors/opreturn-detector.ts], [filter-engine.ts], [types.ts]) and the
    properties its specification states about it.

    Conventions of the embedding.
    - A [Buffer] is the list of its bytes.  The hex strings the TypeScript
      carries ([scriptPubKey], witness items) are identified with the bytes
      [Buffer.from(s, 'hex')] yields.
    - Indices and lengths are natural numbers.  A condition the source writes
      with a subtraction that may go negative ([i < script.length - 2]) is
      written with the addition on the other side ([i + 2 < length script]).
    - A JavaScript [number] holding a score, a confidence or a threshold is an
      exact rational [Q] (NaN and the infinities are outside the model) in
      the first embedding of the engine, and the binary64 double it is in
      the second one, [Double], on which the statements that depend on
      rounding or on [NaN] are made; a satoshi value is an integer [Z].
    - Every indexed read [b[i]] goes through a checked read that reports
      [IndexPastEnd] instead of JavaScript's [undefined]; the [while] loop of
      the witness-script walk runs on a budget of [length script] iterations
      and reports [LoopBudget] if it is used up; a callback that throws
      reports [Thrown].  That the first two never happen is a theorem. *)

From Stdlib Require Import Floats.
From Stdlib Require Import String.
From Stdlib.Strings Require Import Byte.
From Stdlib Require Import List Bool Arith PeanoNat NArith ZArith QArith Qround Lia.
From Stdlib Require Import Permutation.
From Stdlib Require DecimalString.
Import ListNotations.

Local Open Scope nat_scope.

(** ** Outcomes of a computation *)

Inductive fault : Type :=
| IndexPastEnd
| LoopBudget
| Thrown (e : string).

Inductive outcome (A : Type) : Type :=
| Done (a : A)
| Fault (f : fault).

Arguments Done {A} a.
Arguments Fault {A} f.

Definition bind {A B : Type} (c : outcome A) (k : A -> outcome B) : outcome B :=
  match c with
  | Done a => k a
  | Fault f => Fault f
  end.

Notation "x <- c ;; k" := (bind c (fun x => k))
  (at level 61, c at next level, right associativity).
Notation "' p <- c ;; k" := (bind c (fun x => let 'p := x in k))
  (at level 61, p pattern, c at next level, right associativity).

(** [a && b] where evaluating [b] reads memory: [b] runs only when [a] holds. *)
Definition andThen (a : bool) (b : outcome bool) : outcome bool :=
  if a then b else Done false.

(** [for (let i = start; i < start + count; i++) body] over a loop state. *)
Fixpoint forUpTo {St : Type} (count start : nat)
    (body : nat -> St -> outcome St) (s : St) : outcome St :=
  match count with
  | 0 => Done s
  | S count' => s' <- body start s ;; forUpTo count' (S start) body s'
  end.

(** [for (const x of xs) body] over a loop state. *)
Fixpoint forEach {A St : Type} (xs : list A)
    (body : A -> St -> outcome St) (s : St) : outcome St :=
  match xs with
  | [] => Done s
  | x :: xs' => s' <- body x s ;; forEach xs' body s'
  end.

(** ** Buffers and arrays *)

Definition Buffer : Type := list byte.

(** [xs[i]], checked. *)
Definition itemAt {A : Type} (xs : list A) (i : nat) : outcome A :=
  match nth_error xs i with
  | Some x => Done x
  | None => Fault IndexPastEnd
  end.

Definition byteAt (b : Buffer) (i : nat) : outcome byte := itemAt b i.

(** [b.slice(start)] and [b.slice(start, stop)]: both clamp to the buffer. *)
Definition sliceFrom (b : Buffer) (start : nat) : Buffer := skipn start b.

Definition slice (b : Buffer) (start stop : nat) : Buffer :=
  firstn (stop - start) (skipn start b).

(** The numeric value of an opcode, for range tests. *)
Definition code (b : byte) : N := Byte.to_N b.

(** ** types.ts *)

Record TransactionInput : Type := {
  txid : string;
  vout : nat;
  witness : option (list Buffer)
}.

Record TransactionOutput : Type := {
  value : Z;
  scriptPubKey : Buffer;
  scriptPubKeyType : option string
}.

Record ParsedTransaction : Type := {
  inputs : list TransactionInput;
  outputs : list TransactionOutput
}.

(** ** parser.ts *)

Module TransactionParser.

Definition extractWitnessScript (witness : list Buffer) : outcome (option Buffer) :=
  if length witness =? 0 then Done None
  else
    lastItem <- itemAt witness (length witness - 1) ;;
    Done (Some lastItem).

Definition extractOpReturnData (script : Buffer) : outcome (option Buffer) :=
  if length script =? 0 then Done None
  else
    first <- byteAt script 0 ;;
    if negb (Byte.eqb first x6a) then Done None
    else
      let offset := 1 in
      if length script <=? offset then Done (Some [])
      else
        pushOpcode <- byteAt script offset ;;
        let offset :=
          if ((0x01 <=? code pushOpcode) && (code pushOpcode <=? 0x4b))%N
          then offset + 1
          else if Byte.eqb pushOpcode x4c then offset + 2
          else if Byte.eqb pushOpcode x4d then offset + 3
          else if Byte.eqb pushOpcode x4e then offset + 5
          else offset in
        Done (Some (sliceFrom script offset)).

End TransactionParser.


(** ** types.ts, continued: results *)

(** JavaScript numbers. [x > y] and [x >= y] on them. *)
Abbreviation number := Q.

Definition numberOfNat (n : nat) : number := inject_Z (Z.of_nat n).

Definition gtb (x y : number) : bool := negb (Qle_bool x y).
Definition geb (x y : number) : bool := Qle_bool y x.

(** The analysis record [analyzeWitnessScript] builds. *)
Record WitnessAnalysis : Type := {
  isSuspicious : bool;
  pubkeyCount : nat;
  fakePubkeyCount : nat;
  hasCheckmultisig : bool;
  scriptSize : nat
}.

(** One entry of the P2WSH detector's [details] array:
    [{ txid: input.txid, vout: input.vout, ...analysis }]. *)
Record SuspiciousInput : Type := {
  inputTxid : string;
  inputVout : nat;
  analysis : WitnessAnalysis
}.

(** The [details] object of the OP_RETURN detector; an absent property is
    [false] or [None]. *)
Record ChainDetails : Type := {
  magicPrefix : bool;
  chunkIndex : option byte;
  totalChunks : option byte;
  hasContinuationOutput : bool
}.

Inductive Details : Type :=
| P2WSHDetails (entries : list SuspiciousInput)
| OpReturnDetails (d : ChainDetails)
| SizeDetails (opReturnSize : nat).

(** Reasons and messages: a fixed string, or one of the source's template
    strings with the values it interpolates. *)
Inductive Text : Type :=
| Literal (s : string)
| DetectedP2WSH (suspiciousCount : nat)
| ExceedsStandardSize (largestOpReturn : nat)
| Rejected (totalScore threshold : number)
| Accepted (totalScore threshold : number).

Record DetectionResult : Type := {
  detected : bool;
  confidence : number;
  reason : Text;
  details : option Details
}.

Record FilterResult : Type := {
  accept : bool;
  score : number;
  detections : list DetectionResult;
  message : Text
}.

Record FilterConfig : Type := {
  threshold : number;
  enableP2WSHDetection : bool;
  enableOpReturnDetection : bool
}.

(** A callback may return a result or throw. *)
Definition FilterFunction : Type := ParsedTransaction -> outcome FilterResult.

(** ** detectors/p2wsh-detector.ts *)

Module P2WSHFakeMultisigDetector.

(** Body of the first loop of [isLikelyFakePubkey]; the state is
    [(zeroCount, consecutiveZeros, maxConsecutiveZeros)]. *)
Definition zeroScan (data : Buffer) (i : nat) (st : nat * nat * nat)
  : outcome (nat * nat * nat) :=
  let '(zeroCount, consecutiveZeros, maxConsecutiveZeros) := st in
  b <- byteAt data i ;;
  if Byte.eqb b x00
  then Done (zeroCount + 1, consecutiveZeros + 1,
             Nat.max maxConsecutiveZeros (consecutiveZeros + 1))
  else Done (zeroCount, 0, maxConsecutiveZeros).

(** Body of the second loop; the state is [repeatingPatterns]. *)
Definition repeatScan (data : Buffer) (i : nat) (repeatingPatterns : nat)
  : outcome nat :=
  d0 <- byteAt data i ;;
  d1 <- byteAt data (i + 1) ;;
  same <- andThen (Byte.eqb d0 d1)
            (d2 <- byteAt data (i + 2) ;;
             andThen (Byte.eqb d0 d2)
               (d3 <- byteAt data (i + 3) ;;
                Done (Byte.eqb d0 d3))) ;;
  Done (if same then repeatingPatterns + 1 else repeatingPatterns).

Definition isLikelyFakePubkey (pubkey : Buffer) : outcome bool :=
  if negb (length pubkey =? 33) then Done false
  else
    prefix <- byteAt pubkey 0 ;;
    if negb (Byte.eqb prefix x02) && negb (Byte.eqb prefix x03) then Done false
    else
      let data := sliceFrom pubkey 1 in
      '(zeroCount, _, maxConsecutiveZeros) <-
        forUpTo (length data) 0 (zeroScan data) (0, 0, 0) ;;
      if (4 <? maxConsecutiveZeros) || (10 <? zeroCount) then Done true
      else
        repeatingPatterns <- forUpTo (length data - 3) 0 (repeatScan data) 0 ;;
        Done (2 <? repeatingPatterns).

(** The [while (i < script.length - 2)] loop of [analyzeWitnessScript],
    from index [i] with the pubkeys pushed so far. *)
Fixpoint collectPubkeys (budget : nat) (script : Buffer) (i : nat)
    (pubkeys : list Buffer) : outcome (list Buffer) :=
  match budget with
  | 0 => Fault LoopBudget
  | S budget' =>
      if i + 2 <? length script then
        opcode <- byteAt script i ;;
        if Byte.eqb opcode x21 then
          let pubkey := slice script (i + 1) (i + 34) in
          collectPubkeys budget' script (i + 34) (pubkeys ++ [pubkey])
        else if ((0x51 <=? code opcode) && (code opcode <=? 0x60))%N then
          collectPubkeys budget' script (i + 1) pubkeys
        else if Byte.eqb opcode xae then
          Done pubkeys
        else
          collectPubkeys budget' script (i + 1) pubkeys
      else Done pubkeys
  end.

(** Body of [for (const pubkey of pubkeys)]; the state is
    [result.fakePubkeyCount]. *)
Definition countFake (pubkey : Buffer) (fakePubkeyCount : nat) : outcome nat :=
  if length pubkey =? 33 then
    prefix <- byteAt pubkey 0 ;;
    if Byte.eqb prefix x02 || Byte.eqb prefix x03 then
      isLikelyFake <- isLikelyFakePubkey pubkey ;;
      Done (if isLikelyFake then fakePubkeyCount + 1 else fakePubkeyCount)
    else Done fakePubkeyCount
  else Done fakePubkeyCount.

(** Assignments to the fields of [result]. *)
Definition setHasCheckmultisig (r : WitnessAnalysis) (b : bool) : WitnessAnalysis :=
  {| isSuspicious := isSuspicious r; pubkeyCount := pubkeyCount r;
     fakePubkeyCount := fakePubkeyCount r; hasCheckmultisig := b;
     scriptSize := scriptSize r |}.

Definition setPubkeyCount (r : WitnessAnalysis) (n : nat) : WitnessAnalysis :=
  {| isSuspicious := isSuspicious r; pubkeyCount := n;
     fakePubkeyCount := fakePubkeyCount r; hasCheckmultisig := hasCheckmultisig r;
     scriptSize := scriptSize r |}.

Definition setFakePubkeyCount (r : WitnessAnalysis) (n : nat) : WitnessAnalysis :=
  {| isSuspicious := isSuspicious r; pubkeyCount := pubkeyCount r;
     fakePubkeyCount := n; hasCheckmultisig := hasCheckmultisig r;
     scriptSize := scriptSize r |}.

Definition setIsSuspicious (r : WitnessAnalysis) (b : bool) : WitnessAnalysis :=
  {| isSuspicious := b; pubkeyCount := pubkeyCount r;
     fakePubkeyCount := fakePubkeyCount r; hasCheckmultisig := hasCheckmultisig r;
     scriptSize := scriptSize r |}.

Definition analyzeWitnessScript (script : Buffer) : outcome WitnessAnalysis :=
  let result := {| isSuspicious := false; pubkeyCount := 0; fakePubkeyCount := 0;
                   hasCheckmultisig := false; scriptSize := length script |} in
  if length script =? 0 then Done result
  else
    lastByte <- byteAt script (length script - 1) ;;
    let result := setHasCheckmultisig result (Byte.eqb lastByte xae) in
    if negb (hasCheckmultisig result) then Done result
    else
      pubkeys <- collectPubkeys (length script) script 1 [] ;;
      let result := setPubkeyCount result (length pubkeys) in
      fakes <- forEach pubkeys countFake (fakePubkeyCount result) ;;
      let result := setFakePubkeyCount result fakes in
      let result :=
        if (3 <? pubkeyCount result)
           && gtb (numberOfNat (fakePubkeyCount result))
                  (numberOfNat (pubkeyCount result) * (1 # 2))%Q
        then setIsSuspicious result true
        else result in
      let result :=
        if 10 <? pubkeyCount result
        then setIsSuspicious result true
        else result in
      Done result.

(** Body of [for (const input of tx.inputs)]; the state is
    [(suspiciousCount, totalP2WSH, details)]. *)
Definition scanInput (input : TransactionInput)
    (st : nat * nat * list SuspiciousInput)
  : outcome (nat * nat * list SuspiciousInput) :=
  let '(suspiciousCount, totalP2WSH, details) := st in
  match witness input with
  | None => Done st
  | Some w =>
      if length w <? 3 then Done st
      else
        witnessScript <- TransactionParser.extractWitnessScript w ;;
        match witnessScript with
        | None => Done st
        | Some witnessScript =>
            let totalP2WSH := totalP2WSH + 1 in
            analysis <- analyzeWitnessScript witnessScript ;;
            if isSuspicious analysis then
              Done (suspiciousCount + 1, totalP2WSH,
                    details ++ [ {| inputTxid := txid input;
                                    inputVout := vout input;
                                    analysis := analysis |} ])
            else Done (suspiciousCount, totalP2WSH, details)
        end
  end.

Definition detect (tx : ParsedTransaction) : outcome DetectionResult :=
  '(suspiciousCount, totalP2WSH, details) <-
    forEach (inputs tx) scanInput (0, 0, []) ;;
  if suspiciousCount =? 0 then
    Done {| detected := false; confidence := 0%Q;
            reason := Literal "No suspicious P2WSH patterns found";
            details := None |}
  else
    let confidence :=
      if 0 <? totalP2WSH
      then ((numberOfNat suspiciousCount / numberOfNat totalP2WSH) * 100)%Q
      else 0%Q in
    Done {| detected := true; confidence := confidence;
            reason := DetectedP2WSH suspiciousCount;
            details := Some (P2WSHDetails details) |}.

End P2WSHFakeMultisigDetector.

(** ** detectors/opreturn-detector.ts *)

(** [xs.map(f)] for an [f] that reads memory. *)
Fixpoint mapM {A B : Type} (f : A -> outcome B) (xs : list A) : outcome (list B) :=
  match xs with
  | [] => Done []
  | x :: xs' => y <- f x ;; ys <- mapM f xs' ;; Done (y :: ys)
  end.

(** [Math.max(...xs)] on lengths; the source only calls it on a non-empty
    array, where it agrees with JavaScript's. *)
Definition mathMax (xs : list nat) : nat := fold_right Nat.max 0 xs.

Module ChainedOpReturnDetector.

Definition KNOTWORK_MAGIC : Buffer := [x01; xbc].

(** [out.scriptPubKeyType === 'nulldata'] *)
Definition isNulldata (out : TransactionOutput) : bool :=
  match scriptPubKeyType out with
  | Some t => String.eqb t "nulldata"
  | None => false
  end.

Definition noDetails : ChainDetails :=
  {| magicPrefix := false; chunkIndex := None; totalChunks := None;
     hasContinuationOutput := false |}.

Definition setMagicPrefix (d : ChainDetails) : ChainDetails :=
  {| magicPrefix := true; chunkIndex := chunkIndex d;
     totalChunks := totalChunks d;
     hasContinuationOutput := hasContinuationOutput d |}.

Definition setChunk (d : ChainDetails) (index total : byte) : ChainDetails :=
  {| magicPrefix := magicPrefix d; chunkIndex := Some index;
     totalChunks := Some total;
     hasContinuationOutput := hasContinuationOutput d |}.

Definition setHasContinuationOutput (d : ChainDetails) : ChainDetails :=
  {| magicPrefix := magicPrefix d; chunkIndex := chunkIndex d;
     totalChunks := totalChunks d; hasContinuationOutput := true |}.

(** [data.length >= 2 && data[0] === 0x01 && data[1] === 0xbc] *)
Definition startsWithMagic (data : Buffer) : outcome bool :=
  andThen (2 <=? length data)
    (d0 <- byteAt data 0 ;;
     andThen (Byte.eqb d0 x01)
       (d1 <- byteAt data 1 ;;
        Done (Byte.eqb d1 xbc))).

(** Body of [for (let i = 0; i < opReturnOutputs.length; i++)]; the state
    is [(hasMagicPrefix, details)]. *)
Definition scanOutput (opReturnOutputs : list TransactionOutput) (i : nat)
    (st : bool * ChainDetails) : outcome (bool * ChainDetails) :=
  let '(hasMagicPrefix, details) := st in
  output <- itemAt opReturnOutputs i ;;
  data <- TransactionParser.extractOpReturnData (scriptPubKey output) ;;
  match data with
  | None => Done st
  | Some data =>
      magic <- startsWithMagic data ;;
      if magic then
        let details := setMagicPrefix details in
        if 4 <=? length data then
          d2 <- byteAt data 2 ;;
          d3 <- byteAt data 3 ;;
          Done (true, setChunk details d2 d3)
        else Done (true, details)
      else Done st
  end.

(** The callback of [opReturnOutputs.map] under [Math.max]. *)
Definition payloadLength (out : TransactionOutput) : outcome nat :=
  data <- TransactionParser.extractOpReturnData (scriptPubKey out) ;;
  Done (match data with
        | Some data => length data
        | None => 0
        end).

Definition noPattern : DetectionResult :=
  {| detected := false; confidence := 0%Q;
     reason := Literal "No suspicious OP_RETURN patterns detected";
     details := None |}.

Definition detect (tx : ParsedTransaction) : outcome DetectionResult :=
  let opReturnOutputs := filter isNulldata (outputs tx) in
  if length opReturnOutputs =? 0 then
    Done {| detected := false; confidence := 0%Q;
            reason := Literal "No OP_RETURN outputs found";
            details := None |}
  else
    '(hasMagicPrefix, details) <-
      forUpTo (length opReturnOutputs) 0 (scanOutput opReturnOutputs)
              (false, noDetails) ;;
    let hasContinuationOutput :=
      (2 <=? length (outputs tx))
      && existsb (fun out => (0 <? value out)%Z && (value out <? 15000)%Z)
                 (outputs tx) in
    let '(hasChainPattern, details) :=
      if hasContinuationOutput && (0 <? length opReturnOutputs)
      then (true, setHasContinuationOutput details)
      else (false, details) in
    if hasMagicPrefix || hasChainPattern then
      let confidence := if hasMagicPrefix then 95%Q else 60%Q in
      Done {| detected := true; confidence := confidence;
              reason :=
                if hasMagicPrefix
                then Literal "Detected knotwork magic prefix (444) in OP_RETURN data"
                else Literal "Detected chained OP_RETURN pattern with continuation output";
              details := Some (OpReturnDetails details) |}
    else if 0 <? length opReturnOutputs then
      sizes <- mapM payloadLength opReturnOutputs ;;
      let largestOpReturn := mathMax sizes in
      if 80 <? largestOpReturn then
        Done {| detected := true; confidence := 40%Q;
                reason := ExceedsStandardSize largestOpReturn;
                details := Some (SizeDetails largestOpReturn) |}
      else Done noPattern
    else Done noPattern.

End ChainedOpReturnDetector.

(** ** filter-engine.ts *)

Record FilterEngine : Type := {
  config : FilterConfig;
  jsFilters : list FilterFunction
}.

Definition newFilterEngine (config : FilterConfig) : FilterEngine :=
  {| config := config; jsFilters := [] |}.

Definition addJSFilter (this : FilterEngine) (filter : FilterFunction) : FilterEngine :=
  {| config := config this; jsFilters := jsFilters this ++ [filter] |}.

(** [if (result.detected) { detections.push(result); totalScore += result.confidence }];
    the state is [(detections, totalScore)]. *)
Definition accumulate (result : DetectionResult)
    (st : list DetectionResult * number) : list DetectionResult * number :=
  let '(detections, totalScore) := st in
  if detected result
  then (detections ++ [result], (totalScore + confidence result)%Q)
  else st.

(** Body of [for (const filter of this.jsFilters)]. *)
Definition runFilter (tx : ParsedTransaction) (filter : FilterFunction)
    (st : list DetectionResult * number)
  : outcome (list DetectionResult * number) :=
  let '(detections, totalScore) := st in
  result <- filter tx ;;
  if negb (accept result) then
    Done (detections ++ [ {| detected := true; confidence := score result;
                             reason := message result; details := None |} ],
          (totalScore + score result)%Q)
  else Done st.

Definition evaluateTransaction (this : FilterEngine) (tx : ParsedTransaction)
  : outcome FilterResult :=
  let st := ([], 0%Q) in
  st <- (if enableP2WSHDetection (config this) then
           p2wshResult <- P2WSHFakeMultisigDetector.detect tx ;;
           Done (accumulate p2wshResult st)
         else Done st) ;;
  st <- (if enableOpReturnDetection (config this) then
           opReturnResult <- ChainedOpReturnDetector.detect tx ;;
           Done (accumulate opReturnResult st)
         else Done st) ;;
  '(detections, totalScore) <- forEach (jsFilters this) (runFilter tx) st ;;
  let shouldReject := geb totalScore (threshold (config this)) in
  Done {| accept := negb shouldReject;
          score := totalScore;
          detections := detections;
          message :=
            if shouldReject
            then Rejected totalScore (threshold (config this))
            else Accepted totalScore (threshold (config this)) |}.

(** ** The engine over IEEE doubles

    A JavaScript [number] is an IEEE 754 binary64 double.  The definitions of
    the engine above read scores as exact rationals, which is what the code
    computes as long as no sum or quotient is rounded and no [NaN] comes in.
    For the statements that depend on rounding or on [NaN], this is the same
    code with the numbers as the doubles they are: [float], with the
    kernel's binary64 operations.  The loops that do not touch a score
    ([scanInput], [scanOutput], [payloadLength]) are the ones above. *)

Module Double.

(** The value of a counter that starts at [0] after [n] increments
    ([count++]). *)
Fixpoint counter (n : nat) : float :=
  match n with
  | 0 => 0%float
  | S n' => (counter n' + 1)%float
  end.

Inductive Text : Type :=
| Literal (s : string)
| DetectedP2WSH (suspiciousCount : nat)
| ExceedsStandardSize (largestOpReturn : nat)
| Rejected (totalScore threshold : float)
| Accepted (totalScore threshold : float).

Record DetectionResult : Type := {
  detected : bool;
  confidence : float;
  reason : Text;
  details : option Details
}.

Record FilterResult : Type := {
  accept : bool;
  score : float;
  detections : list DetectionResult;
  message : Text
}.

Record FilterConfig : Type := {
  threshold : float;
  enableP2WSHDetection : bool;
  enableOpReturnDetection : bool
}.

Definition FilterFunction : Type := ParsedTransaction -> outcome FilterResult.

Module P2WSHFakeMultisigDetector.

Definition detect (tx : ParsedTransaction) : outcome DetectionResult :=
  '(suspiciousCount, totalP2WSH, details) <-
    forEach (inputs tx) P2WSHFakeMultisigDetector.scanInput (0, 0, []) ;;
  if suspiciousCount =? 0 then
    Done {| detected := false; confidence := 0%float;
            reason := Literal "No suspicious P2WSH patterns found";
            details := None |}
  else
    let confidence :=
      if 0 <? totalP2WSH
      then ((counter suspiciousCount / counter totalP2WSH) * 100)%float
      else 0%float in
    Done {| detected := true; confidence := confidence;
            reason := DetectedP2WSH suspiciousCount;
            details := Some (P2WSHDetails details) |}.

End P2WSHFakeMultisigDetector.

Module ChainedOpReturnDetector.

Definition noPattern : DetectionResult :=
  {| detected := false; confidence := 0%float;
     reason := Literal "No suspicious OP_RETURN patterns detected";
     details := None |}.

Definition detect (tx : ParsedTransaction) : outcome DetectionResult :=
  let opReturnOutputs := filter ChainedOpReturnDetector.isNulldata (outputs tx) in
  if length opReturnOutputs =? 0 then
    Done {| detected := false; confidence := 0%float;
            reason := Literal "No OP_RETURN outputs found";
            details := None |}
  else
    '(hasMagicPrefix, details) <-
      forUpTo (length opReturnOutputs) 0
              (ChainedOpReturnDetector.scanOutput opReturnOutputs)
              (false, ChainedOpReturnDetector.noDetails) ;;
    let hasContinuationOutput :=
      (2 <=? length (outputs tx))
      && existsb (fun out => (0 <? value out)%Z && (value out <? 15000)%Z)
                 (outputs tx) in
    let '(hasChainPattern, details) :=
      if hasContinuationOutput && (0 <? length opReturnOutputs)
      then (true, ChainedOpReturnDetector.setHasContinuationOutput details)
      else (false, details) in
    if hasMagicPrefix || hasChainPattern then
      let confidence := if hasMagicPrefix then 95%float else 60%float in
      Done {| detected := true; confidence := confidence;
              reason :=
                if hasMagicPrefix
                then Literal "Detected knotwork magic prefix (444) in OP_RETURN data"
                else Literal "Detected chained OP_RETURN pattern with continuation output";
              details := Some (OpReturnDetails details) |}
    else if 0 <? length opReturnOutputs then
      sizes <- mapM ChainedOpReturnDetector.payloadLength opReturnOutputs ;;
      let largestOpReturn := mathMax sizes in
      if 80 <? largestOpReturn then
        Done {| detected := true; confidence := 40%float;
                reason := ExceedsStandardSize largestOpReturn;
                details := Some (SizeDetails largestOpReturn) |}
      else Done noPattern
    else Done noPattern.

End ChainedOpReturnDetector.

Record FilterEngine : Type := {
  config : FilterConfig;
  jsFilters : list FilterFunction
}.

Definition newFilterEngine (config : FilterConfig) : FilterEngine :=
  {| config := config; jsFilters := [] |}.

Definition addJSFilter (this : FilterEngine) (filter : FilterFunction) : FilterEngine :=
  {| config := config this; jsFilters := jsFilters this ++ [filter] |}.

(** [if (result.detected) { detections.push(result); totalScore += result.confidence }];
    the state is [(detections, totalScore)]. *)
Definition accumulate (result : DetectionResult)
    (st : list DetectionResult * float) : list DetectionResult * float :=
  let '(detections, totalScore) := st in
  if detected result
  then (detections ++ [result], (totalScore + confidence result)%float)
  else st.

(** Body of [for (const filter of this.jsFilters)]. *)
Definition runFilter (tx : ParsedTransaction) (filter : FilterFunction)
    (st : list DetectionResult * float)
  : outcome (list DetectionResult * float) :=
  let '(detections, totalScore) := st in
  result <- filter tx ;;
  if negb (accept result) then
    Done (detections ++ [ {| detected := true; confidence := score result;
                             reason := message result; details := None |} ],
          (totalScore + score result)%float)
  else Done st.

(** [totalScore >= this.config.threshold] is [threshold <= totalScore] on
    doubles: false when either is [NaN]. *)
Definition evaluateTransaction (this : FilterEngine) (tx : ParsedTransaction)
  : outcome FilterResult :=
  let st := ([], 0%float) in
  st <- (if enableP2WSHDetection (config this) then
           p2wshResult <- P2WSHFakeMultisigDetector.detect tx ;;
           Done (accumulate p2wshResult st)
         else Done st) ;;
  st <- (if enableOpReturnDetection (config this) then
           opReturnResult <- ChainedOpReturnDetector.detect tx ;;
           Done (accumulate opReturnResult st)
         else Done st) ;;
  '(detections, totalScore) <- forEach (jsFilters this) (runFilter tx) st ;;
  let shouldReject := (threshold (config this) <=? totalScore)%float in
  Done {| accept := negb shouldReject;
          score := totalScore;
          detections := detections;
          message :=
            if shouldReject
            then Rejected totalScore (threshold (config this))
            else Accepted totalScore (threshold (config this)) |}.

End Double.

(** * Specification-side definitions

    The notions the specification speaks of, defined on the data alone, for
    the theorems to compare the code with. *)

(** ** The pubkey heuristic *)

(** Number of zero bytes a buffer starts with. *)
Fixpoint zeroPrefix (data : Buffer) : nat :=
  match data with
  | b :: rest => if Byte.eqb b x00 then S (zeroPrefix rest) else 0
  | [] => 0
  end.

(** Longest run of consecutive zero bytes: the longest zero prefix over all
    the positions a run can start at. *)
Fixpoint longestZeroRun (data : Buffer) : nat :=
  match data with
  | [] => 0
  | _ :: rest => Nat.max (zeroPrefix data) (longestZeroRun rest)
  end.

(** Total count of zero bytes. *)
Definition zeroBytes (data : Buffer) : nat := count_occ byte_eq_dec data x00.

(** The window of four bytes at the head of a buffer holds one value. *)
Definition startsUniform4 (data : Buffer) : bool :=
  match data with
  | a :: b :: c :: d :: _ => Byte.eqb a b && Byte.eqb a c && Byte.eqb a d
  | _ => false
  end.

(** Number of sliding-window positions that start four identical bytes. *)
Fixpoint repeatedRuns (data : Buffer) : nat :=
  match data with
  | [] => 0
  | _ :: rest => (if startsUniform4 data then 1 else 0) + repeatedRuns rest
  end.

(** The three tests on the 32 bytes after the prefix. *)
Definition looksFake (data : Buffer) : bool :=
  (4 <? longestZeroRun data) || (10 <? zeroBytes data) || (2 <? repeatedRuns data).

(** First byte [0x02] or [0x03]. *)
Definition compressedPrefix (pubkey : Buffer) : bool :=
  match pubkey with
  | p :: _ => Byte.eqb p x02 || Byte.eqb p x03
  | [] => false
  end.

(** A candidate the analysis counts as fake. *)
Definition countedFake (pubkey : Buffer) : bool :=
  (length pubkey =? 33) && compressedPrefix pubkey && looksFake (tl pubkey).

(** ** Witness scripts *)

(** A script is CHECKMULTISIG-shaped when its final byte is [0xae]. *)
Definition checkmultisigShaped (script : Buffer) : bool :=
  match rev script with
  | b :: _ => Byte.eqb b xae
  | [] => false
  end.

(** A candidate the walk pushes at index [j]: the opcode there is [0x21] and
    the candidate is the (clamped) slice of the 33 bytes after it. *)
Definition pushedAt (script : Buffer) (from : nat) (pubkey : Buffer) : Prop :=
  exists j,
    from <= j /\ j + 2 < length script
    /\ nth_error script j = Some x21
    /\ pubkey = slice script (j + 1) (j + 34).

(** The rule of [analyzeWitnessScript] on the two counts. *)
Definition suspicionRule (pubkeys fakes : nat) : bool :=
  ((3 <? pubkeys) && (pubkeys <? 2 * fakes)) || (10 <? pubkeys).

(** The candidates the walk of [analyzeWitnessScript] pushes for a script. *)
Definition candidates (script : Buffer) : list Buffer :=
  match P2WSHFakeMultisigDetector.collectPubkeys (length script) script 1 [] with
  | Done pubkeys => pubkeys
  | Fault _ => []
  end.

(** A script the analysis marks suspicious. *)
Definition scriptSuspicious (script : Buffer) : bool :=
  checkmultisigShaped script
  && suspicionRule (length (candidates script))
                   (length (filter countedFake (candidates script))).

(** ** The OP_RETURN payload *)

(** Bytes the extractor skips for the opcode after [OP_RETURN]: the opcode of
    a direct push, the opcode and length bytes of a PUSHDATA, none otherwise. *)
Definition pushHeader (op : byte) : nat :=
  if ((0x01 <=? code op) && (code op <=? 0x4b))%N then 1
  else if Byte.eqb op x4c then 2
  else if Byte.eqb op x4d then 3
  else if Byte.eqb op x4e then 5
  else 0.

(** What [extractOpReturnData] returns: every byte after the push header. *)
Definition payloadAfterHeader (script : Buffer) : option Buffer :=
  match script with
  | [] => None
  | b :: rest =>
      if Byte.eqb b x6a then
        Some (match rest with
              | [] => []
              | op :: _ => skipn (pushHeader op) rest
              end)
      else None
  end.

(** A little-endian length field. *)
Definition littleEndian (bs : list byte) : nat :=
  fold_right (fun b acc => N.to_nat (code b) + 256 * acc) 0 bs.

(** Bitcoin Script's push rules on the bytes after [OP_RETURN]: the size of
    the push header and the data length it declares. *)
Definition declaredPush (rest : Buffer) : option (nat * nat) :=
  match rest with
  | [] => None
  | op :: after =>
      if ((0x01 <=? code op) && (code op <=? 0x4b))%N then Some (1, N.to_nat (code op))
      else if Byte.eqb op x4c then
        if 1 <=? length after then Some (2, littleEndian (firstn 1 after)) else None
      else if Byte.eqb op x4d then
        if 2 <=? length after then Some (3, littleEndian (firstn 2 after)) else None
      else if Byte.eqb op x4e then
        if 4 <=? length after then Some (5, littleEndian (firstn 4 after)) else None
      else None
  end.

(** The extractor as the specification words it ([extractOpReturnPayload]):
    none unless the script starts with [0x6a]; else exactly the declared
    bytes of the push that follows, and no data when there is no push or the
    script is cut short of the declared length. *)
Definition extractOpReturnPayload_spec (script : Buffer) : option Buffer :=
  match script with
  | [] => None
  | b :: rest =>
      if Byte.eqb b x6a then
        match declaredPush rest with
        | Some (header, declared) =>
            if header + declared <=? length rest
            then Some (firstn declared (skipn header rest))
            else Some []
        | None => Some []
        end
      else None
  end.

(** ** The inputs the P2WSH detector counts *)

(** The last item of an input's witness stack (empty when there is none). *)
Definition lastWitnessItem (input : TransactionInput) : Buffer :=
  match witness input with
  | Some stack => last stack []
  | None => []
  end.

(** An input with at least 3 witness items. *)
Definition inPopulation (input : TransactionInput) : bool :=
  match witness input with
  | Some stack => 3 <=? length stack
  | None => false
  end.

Definition suspiciousInput (input : TransactionInput) : bool :=
  inPopulation input && scriptSuspicious (lastWitnessItem input).

(** The population as the specification words it: at least 3 witness items
    and a last item whose final byte is [0xae]. *)
Definition inShapedPopulation (input : TransactionInput) : bool :=
  inPopulation input && checkmultisigShaped (lastWitnessItem input).

Definition suspiciousInputCount (tx : ParsedTransaction) : nat :=
  length (filter suspiciousInput (inputs tx)).

Definition totalP2WSHInputCount (tx : ParsedTransaction) : nat :=
  length (filter inPopulation (inputs tx)).

Definition shapedInputCount (tx : ParsedTransaction) : nat :=
  length (filter inShapedPopulation (inputs tx)).

Definition countIf (b : bool) : nat := if b then 1 else 0.

(** The ratio the detector reports when something is suspicious. *)
Definition ratioConfidence (tx : ParsedTransaction) : number :=
  ((numberOfNat (suspiciousInputCount tx) / numberOfNat (totalP2WSHInputCount tx))
   * 100)%Q.

(** ** The outputs the OP_RETURN detector looks at *)

(** The outputs the detector collects: those tagged ['nulldata']. *)
Definition collected (tx : ParsedTransaction) : list TransactionOutput :=
  filter ChainedOpReturnDetector.isNulldata (outputs tx).

(** First byte [0x6a]: the byte-level test the specification describes. *)
Definition sniffedOpReturn (out : TransactionOutput) : bool :=
  match scriptPubKey out with
  | b :: _ => Byte.eqb b x6a
  | [] => false
  end.

(** The collection as the specification words it: tagged, or sniffed. *)
Definition collected_spec (tx : ParsedTransaction) : list TransactionOutput :=
  filter (fun out => ChainedOpReturnDetector.isNulldata out || sniffedOpReturn out)
         (outputs tx).

(** Two outputs the detector cannot tell apart: same value, same tag, and
    the same script when the tag is ['nulldata']. *)
Definition sameToDetector (a b : TransactionOutput) : Prop :=
  value a = value b
  /\ scriptPubKeyType a = scriptPubKeyType b
  /\ (ChainedOpReturnDetector.isNulldata a = true -> scriptPubKey a = scriptPubKey b).

(** The payloads decoded from a list of outputs, in output order; an output
    whose script does not start with [0x6a] has none. *)
Fixpoint payloadsOf (outs : list TransactionOutput) : list Buffer :=
  match outs with
  | [] => []
  | out :: rest =>
      match payloadAfterHeader (scriptPubKey out) with
      | Some data => data :: payloadsOf rest
      | None => payloadsOf rest
      end
  end.

Definition payloads (tx : ParsedTransaction) : list Buffer :=
  payloadsOf (collected tx).

(** First two bytes [0x01 0xbc]. *)
Definition magicPayload (data : Buffer) : bool :=
  match data with
  | a :: b :: _ => Byte.eqb a x01 && Byte.eqb b xbc
  | _ => false
  end.

(** Third and fourth byte, when the payload has at least 4 bytes. *)
Definition chunkOf (data : Buffer) : option (byte * byte) :=
  match data with
  | _ :: _ :: index :: total :: _ => Some (index, total)
  | _ => None
  end.

(** The chunk fields of the last magic payload that has them. *)
Fixpoint lastChunk (datas : list Buffer) : option (byte * byte) :=
  match datas with
  | [] => None
  | data :: rest =>
      match lastChunk rest with
      | Some chunk => Some chunk
      | None => if magicPayload data then chunkOf data else None
      end
  end.

(** The chunk fields a details record holds. *)
Definition recordedChunk (d : ChainDetails) : option (byte * byte) :=
  match chunkIndex d, totalChunks d with
  | Some index, Some total => Some (index, total)
  | _, _ => None
  end.

Definition hasMagic (tx : ParsedTransaction) : bool :=
  existsb magicPayload (payloads tx).

(** Value strictly between 0 and 15000 satoshis. *)
Definition smallValue (out : TransactionOutput) : bool :=
  (0 <? value out)%Z && (value out <? 15000)%Z.

(** The continuation pattern of the code: at least two outputs, one of them
    (any of them) of small value. *)
Definition continuationPattern (tx : ParsedTransaction) : bool :=
  (2 <=? length (outputs tx)) && existsb smallValue (outputs tx).

Definition largestPayload (tx : ParsedTransaction) : nat :=
  mathMax (map (@length byte) (payloads tx)).

(** One turn of the output loop, on the state [(hasMagicPrefix, details)]. *)
Definition scanPure (out : TransactionOutput) (st : bool * ChainDetails)
  : bool * ChainDetails :=
  match payloadAfterHeader (scriptPubKey out) with
  | None => st
  | Some data =>
      if magicPayload data then
        (true,
         match chunkOf data with
         | Some (index, total) =>
             ChainedOpReturnDetector.setChunk
               (ChainedOpReturnDetector.setMagicPrefix (snd st)) index total
         | None => ChainedOpReturnDetector.setMagicPrefix (snd st)
         end)
      else st
  end.

(** ** Scores and detections of a verdict *)

(** What a detector adds to the score and to the detections. *)
Definition detectorScore (enabled : bool) (r : outcome DetectionResult) : number :=
  match r with
  | Done d => if enabled && detected d then confidence d else 0%Q
  | Fault _ => 0%Q
  end.

Definition detectorDetections (enabled : bool) (r : outcome DetectionResult)
  : list DetectionResult :=
  match r with
  | Done d => if enabled && detected d then [d] else []
  | Fault _ => []
  end.

(** What a callback adds: its score when its result has [accept = false]. *)
Definition callbackScore (tx : ParsedTransaction) (filter : FilterFunction) : number :=
  match filter tx with
  | Done result => if accept result then 0%Q else score result
  | Fault _ => 0%Q
  end.

(** The detection the engine wraps a non-accepting callback result in. *)
Definition wrapped (result : FilterResult) : DetectionResult :=
  {| detected := true; confidence := score result;
     reason := message result; details := None |}.

Definition callbackDetections (tx : ParsedTransaction) (filter : FilterFunction)
  : list DetectionResult :=
  match filter tx with
  | Done result => if accept result then [] else [wrapped result]
  | Fault _ => []
  end.

Definition sumScores (xs : list number) : number := fold_right Qplus 0%Q xs.

(** The total the specification describes. *)
Definition expectedScore (this : FilterEngine) (tx : ParsedTransaction) : number :=
  (detectorScore (enableP2WSHDetection (config this))
                 (P2WSHFakeMultisigDetector.detect tx)
   + detectorScore (enableOpReturnDetection (config this))
                   (ChainedOpReturnDetector.detect tx)
   + sumScores (map (callbackScore tx) (jsFilters this)))%Q.

Definition expectedDetections (this : FilterEngine) (tx : ParsedTransaction)
  : list DetectionResult :=
  detectorDetections (enableP2WSHDetection (config this))
                     (P2WSHFakeMultisigDetector.detect tx)
  ++ detectorDetections (enableOpReturnDetection (config this))
                        (ChainedOpReturnDetector.detect tx)
  ++ flat_map (callbackDetections tx) (jsFilters this).

(** Every callback of the engine returns on [tx]. *)
Definition callbacksReturn (this : FilterEngine) (tx : ParsedTransaction) : Prop :=
  forall filter, In filter (jsFilters this) -> exists result, filter tx = Done result.

Definition inRange (d : DetectionResult) : Prop :=
  (0 <= confidence d <= 100)%Q.

(** * Example data *)

(** A compressed-key prefix followed by 32 zero bytes. *)
Definition zeroKey : Buffer := x02 :: repeat x00 32.

(** A key with no zero byte and no repeated byte. *)
Definition plainKey : Buffer :=
  [x03; x11; x12; x13; x14; x15; x16; x17; x18; x19; x1a; x1b; x1c; x1d; x1e; x1f; x20;
   x21; x22; x23; x24; x25; x26; x27; x28; x29; x2a; x2b; x2c; x2d; x2e; x2f; x30].

(** [OP_m <push 33 bytes>... OP_n OP_CHECKMULTISIG] *)
Definition multisigScript (keys : list Buffer) : Buffer :=
  [x52] ++ flat_map (fun key => x21 :: key) keys ++ [x5c; xae].

(** Ten full keys, then a push whose key the end of the script cuts short. *)
Definition truncatedScript : Buffer :=
  [x52] ++ flat_map (fun key => x21 :: key) (repeat plainKey 10)
        ++ [x21; x02; x00; xae].

Definition inputWith (stack : list Buffer) : TransactionInput :=
  {| txid := "aa"; vout := 0; witness := Some stack |}.

(** The transaction of the repository's test 2
    ([createMockOpReturnChainTransaction]). *)
Definition chainTx : ParsedTransaction :=
  {| inputs := [ {| txid := "bb"; vout := 0; witness := None |} ];
     outputs :=
       [ {| value := 0;
            scriptPubKey := [x6a; x26; x01; xbc; x00; x01; x48; x65; x6c; x6c; x6f;
                             x20; x57; x6f; x72; x6c; x64; x21];
            scriptPubKeyType := Some "nulldata"%string |};
         {| value := 9000;
            scriptPubKey := [x00; x14; x00; x11; x22; x33];
            scriptPubKeyType := Some "witness_v0_keyhash"%string |};
         {| value := 1000000;
            scriptPubKey := [x00; x14; x11; x22; x33; x44];
            scriptPubKeyType := Some "witness_v0_keyhash"%string |} ] |}.

(** A single tagged output that carries 5000 satoshis and an empty payload. *)
Definition loneOpReturnTx : ParsedTransaction :=
  {| inputs := [];
     outputs := [ {| value := 5000; scriptPubKey := [x6a];
                     scriptPubKeyType := Some "nulldata"%string |} ] |}.

(** A single untagged output whose script is [OP_RETURN <01 bc 00 0a>]. *)
Definition untaggedMagicTx : ParsedTransaction :=
  {| inputs := [];
     outputs := [ {| value := 0; scriptPubKey := [x6a; x04; x01; xbc; x00; x0a];
                     scriptPubKeyType := None |} ] |}.

Definition defaultConfig : FilterConfig :=
  {| threshold := 80%Q; enableP2WSHDetection := true;
     enableOpReturnDetection := true |}.

(** A callback that rejects with the given score. *)
Definition rejectingFilter (points : number) : FilterFunction :=
  fun _ => Done {| accept := false; score := points; detections := [];
                   message := Literal "Suspicious" |}.

(** A callback that throws. *)
Definition throwingFilter : FilterFunction :=
  fun _ => Fault (Thrown "filter failed").

(** The transactions and the callback of the repository's tests ([test.ts]). *)
Definition spamScript : Buffer :=
  [x01; x51] ++ flat_map (fun key => x21 :: key) (repeat zeroKey 12) ++ [x5c; xae].

Definition spamTx : ParsedTransaction :=
  {| inputs := [ inputWith [[x00]; [x00]; spamScript] ];
     outputs := [ {| value := 1000; scriptPubKey := x00 :: x20 :: repeat xbb 32;
                     scriptPubKeyType := Some "witness_v0_scripthash"%string |} ] |}.

Definition normalTx : ParsedTransaction :=
  {| inputs :=
       [ inputWith [ [x30; x44; x02; x20] ++ repeat x00 32 ++ [x02; x20]
                       ++ repeat x00 32 ++ [x01];
                     x03 :: repeat x00 32 ] ];
     outputs :=
       [ {| value := 100000000; scriptPubKey := x00 :: x14 :: repeat x00 20;
            scriptPubKeyType := Some "witness_v0_keyhash"%string |};
         {| value := 2000; scriptPubKey := x00 :: x14 :: repeat x11 20;
            scriptPubKeyType := Some "witness_v0_keyhash"%string |} ] |}.

Definition largeWitnessFilter : FilterFunction :=
  fun tx =>
    let hasLargeWitness :=
      existsb (fun input => match witness input with
                            | Some stack => 10 <? length stack
                            | None => false
                            end) (inputs tx) in
    Done {| accept := negb hasLargeWitness;
            score := if hasLargeWitness then 75%Q else 0%Q;
            detections := [];
            message := if hasLargeWitness
                       then Literal "Suspicious: Large witness data"
                       else Literal "OK" |}.

(** ** Notions for the engine over doubles *)

(** The confidence of the P2WSH detector for [s] suspicious inputs among [t]
    counted ones: the quotient rounded to a double, times 100, rounded
    again. *)
Definition doubleRatio (s t : nat) : float :=
  (Double.counter s / Double.counter t * 100)%float.

(** What a detector adds to the running total: its confidence, when it is
    enabled and detects something; nothing is added otherwise. *)
Definition detectorAddend (enabled : bool) (r : outcome Double.DetectionResult)
  : list float :=
  match r with
  | Done d => if enabled && Double.detected d then [Double.confidence d] else []
  | Fault _ => []
  end.

Definition detectorEntry (enabled : bool) (r : outcome Double.DetectionResult)
  : list Double.DetectionResult :=
  match r with
  | Done d => if enabled && Double.detected d then [d] else []
  | Fault _ => []
  end.

(** What a callback adds: its score, when its result has [accept = false]. *)
Definition callbackAddend (tx : ParsedTransaction) (filter : Double.FilterFunction)
  : list float :=
  match filter tx with
  | Done result => if Double.accept result then [] else [Double.score result]
  | Fault _ => []
  end.

Definition wrappedResult (result : Double.FilterResult) : Double.DetectionResult :=
  {| Double.detected := true; Double.confidence := Double.score result;
     Double.reason := Double.message result; Double.details := None |}.

Definition callbackEntry (tx : ParsedTransaction) (filter : Double.FilterFunction)
  : list Double.DetectionResult :=
  match filter tx with
  | Done result => if Double.accept result then [] else [wrappedResult result]
  | Fault _ => []
  end.

(** The scores the engine adds, in the order it adds them. *)
Definition addends (this : Double.FilterEngine) (tx : ParsedTransaction) : list float :=
  detectorAddend (Double.enableP2WSHDetection (Double.config this))
                 (Double.P2WSHFakeMultisigDetector.detect tx)
  ++ detectorAddend (Double.enableOpReturnDetection (Double.config this))
                    (Double.ChainedOpReturnDetector.detect tx)
  ++ flat_map (callbackAddend tx) (Double.jsFilters this).

Definition entries (this : Double.FilterEngine) (tx : ParsedTransaction)
  : list Double.DetectionResult :=
  detectorEntry (Double.enableP2WSHDetection (Double.config this))
                (Double.P2WSHFakeMultisigDetector.detect tx)
  ++ detectorEntry (Double.enableOpReturnDetection (Double.config this))
                   (Double.ChainedOpReturnDetector.detect tx)
  ++ flat_map (callbackEntry tx) (Double.jsFilters this).

(** The sum as the code computes it: from [0], one double addition per
    addend, left to right. *)
Definition runningTotal (xs : list float) : float :=
  fold_left PrimFloat.add xs 0%float.

(** Every callback of the engine returns on [tx]. *)
Definition doubleCallbacksReturn (this : Double.FilterEngine) (tx : ParsedTransaction)
  : Prop :=
  forall filter, In filter (Double.jsFilters this) ->
                 exists result, filter tx = Done result.

(** A callback that rejects with the given score. *)
Definition rejectingWith (points : float) : Double.FilterFunction :=
  fun _ => Done {| Double.accept := false; Double.score := points;
                   Double.detections := [];
                   Double.message := Double.Literal "Suspicious" |}.

(** One suspicious input (eleven plain keys) and two inputs whose last
    witness item does not end in [0xae]. *)
Definition oneOfThreeTx : ParsedTransaction :=
  {| inputs := [ inputWith [[x00]; [x00]; multisigScript (repeat plainKey 11)];
                 inputWith [[x00]; [x00]; [x51]];
                 inputWith [[x00]; [x00]; [x51]] ];
     outputs := [] |}.

(** * More of the code

    The parts of [parser.ts] and [filter-engine.ts] the transactions reach
    the detectors through, the callbacks the repository ships as examples,
    [lua-engine.ts], and the Lua filters of [lua-filters/policy]. *)

(** ** parser.ts: classification of a scriptPubKey *)

(** [b[i]] as JavaScript evaluates it: [undefined] ([None]) outside the
    buffer.  [detectScriptType] compares such reads with constants. *)
Definition peek (b : Buffer) (i : nat) : option byte := nth_error b i.

(** [read === x] *)
Definition isByte (read : option byte) (x : byte) : bool :=
  match read with
  | Some b => Byte.eqb b x
  | None => false
  end.

(** [TransactionParser.detectScriptType] *)
Definition detectScriptType (script : Buffer) : string :=
  if length script =? 0 then "empty"
  else if isByte (peek script 0) x6a then "nulldata"
  else if (length script =? 22) && isByte (peek script 0) x00
          && isByte (peek script 1) x14 then "witness_v0_keyhash"
  else if (length script =? 34) && isByte (peek script 0) x00
          && isByte (peek script 1) x20 then "witness_v0_scripthash"
  else if (length script =? 34) && isByte (peek script 0) x51
          && isByte (peek script 1) x20 then "witness_v1_taproot"
  else if isByte (peek script 0) x76 && isByte (peek script 1) xa9 then "pubkeyhash"
  else if isByte (peek script 0) xa9
          && isByte (peek script (length script - 1)) x87 then "scripthash"
  else "unknown".

(** What [bitcoin.Transaction.fromHex] hands to [parseHex]: the library's
    inputs (the previous txid already rendered, the output index, the witness
    stack) and outputs (value and script). *)
Record DecodedInput : Type := {
  prevTxid : string;
  prevIndex : nat;
  inWitness : list Buffer
}.

Record DecodedTransaction : Type := {
  ins : list DecodedInput;
  outs : list (Z * Buffer)
}.

(** The callback of [tx.ins.map] in [parseHex]: an empty witness stack
    becomes [undefined]. *)
Definition inputOfHex (input : DecodedInput) : TransactionInput :=
  {| txid := prevTxid input;
     vout := prevIndex input;
     witness := if 0 <? length (inWitness input)
                then Some (inWitness input)
                else None |}.

(** The callback of [tx.outs.map] in [parseHex]. *)
Definition outputOfHex (output : Z * Buffer) : TransactionOutput :=
  {| value := fst output;
     scriptPubKey := snd output;
     scriptPubKeyType := Some (detectScriptType (snd output)) |}.

(** [parseHex] after the library has decoded the hex. *)
Definition parseDecoded (tx : DecodedTransaction) : ParsedTransaction :=
  {| inputs := map inputOfHex (ins tx);
     outputs := map outputOfHex (outs tx) |}.

(** ** filter-engine.ts: the registry *)

(** [getStatistics]: the configuration and the number of callbacks. *)
Definition getStatistics (this : FilterEngine) : FilterConfig * nat :=
  (config this, length (jsFilters this)).

(** [addJSFilter] called with each callback of a list in turn, on a new
    engine. *)
Definition registerAll (config : FilterConfig) (filters : list FilterFunction)
  : FilterEngine :=
  fold_left addJSFilter filters (newFilterEngine config).

(** ** The callbacks of the examples *)

(** A number inside a template string. *)
Definition showNat (n : nat) : string :=
  DecimalString.NilZero.string_of_uint (Nat.to_uint n).

(** [input.witness && input.witness.length > 10] *)
Definition hasManyWitnessItems (input : TransactionInput) : bool :=
  match witness input with
  | Some stack => 10 <? length stack
  | None => false
  end.

(** [highWitnessFilter] of [examples/filters/high-witness-filter.ts]. *)
Definition highWitnessFilter : FilterFunction :=
  fun tx =>
    let suspiciousInputs :=
      fold_left (fun suspiciousInputs input =>
                   if hasManyWitnessItems input
                   then suspiciousInputs + 1
                   else suspiciousInputs)
                (inputs tx) 0 in
    let score := if 0 <? suspiciousInputs then 60%Q else 0%Q in
    Done {| accept := suspiciousInputs =? 0;
            score := score;
            detections := [];
            message :=
              if 0 <? suspiciousInputs
              then Literal ("Detected " ++ showNat suspiciousInputs
                            ++ " inputs with excessive witness data (>10 items)")%string
              else Literal "Normal witness data" |}.

(** The callback the usage example registers with [engine.addJSFilter]: more
    than 5 outputs under 546 satoshis.  (Its [totalOutputValue] is computed
    and never used.) *)
Definition dustFilter : FilterFunction :=
  fun tx =>
    let dustOutputs := filter (fun out => (value out <? 546)%Z) (outputs tx) in
    let score := if 5 <? length dustOutputs then 40%Q else 0%Q in
    Done {| accept := length dustOutputs <=? 5;
            score := score;
            detections := [];
            message :=
              if 5 <? length dustOutputs
              then Literal ("Suspicious: " ++ showNat (length dustOutputs)
                            ++ " dust outputs detected")%string
              else Literal "Acceptable output amounts" |}.

(** The engine of that example: threshold 80, both detectors, the dust
    callback. *)
Definition exampleEngine : FilterEngine :=
  addJSFilter
    (newFilterEngine {| threshold := 80%Q; enableP2WSHDetection := true;
                        enableOpReturnDetection := true |})
    dustFilter.

(** ** lua-engine.ts *)

Section LuaEngine.

(** The interpreter behind [this.lua] (fengari) is outside the repository:
    its value, the state [luaL_newstate]/[luaL_openlibs] open, the run of a
    script on a transaction ([luaL_dostring], [lua_tostring], [lua_close],
    [JSON.parse]) and [lua_close] are taken as given. *)
Variable LuaVM : Type.
Variable LuaState : Type.
Variable openState : LuaVM -> outcome LuaState.
Variable runScript : LuaVM -> LuaState -> string -> ParsedTransaction -> outcome FilterResult.
Variable closeState : LuaVM -> LuaState -> outcome unit.

Record LuaFilterEngine : Type := {
  lua : option LuaVM;
  luaFilters : list string
}.

(** [new LuaFilterEngine()]: the constructor sets [this.lua = null]. *)
Definition newLuaFilterEngine : LuaFilterEngine :=
  {| lua := None; luaFilters := [] |}.

(** [loadFilter]: the answer and the engine afterwards. *)
Definition loadFilter (this : LuaFilterEngine) (luaCode : string)
  : bool * LuaFilterEngine :=
  match lua this with
  | None => (false, this)
  | Some _ =>
      (true, {| lua := lua this; luaFilters := luaFilters this ++ [luaCode] |})
  end.

Definition evaluateLuaFilter (this : LuaFilterEngine) (tx : ParsedTransaction)
    (luaCode : string) : outcome FilterResult :=
  match lua this with
  | None =>
      Done {| accept := true; score := 0%Q; detections := [];
              message := Literal "Lua scripting not available in Node.js environment. Use JavaScript/TypeScript filters." |}
  | Some vm =>
      L <- openState vm ;;
      match runScript vm L luaCode tx with
      | Done result => Done result
      | Fault (Thrown error) =>
          _ <- closeState vm L ;;
          Done {| accept := true; score := 0%Q; detections := [];
                  message := Literal ("Lua filter error: " ++ error)%string |}
      | Fault f => Fault f
      end
  end.

(** [loadFilter] called with each script of a list in turn: the answers and
    the engine afterwards. *)
Fixpoint loadAll (this : LuaFilterEngine) (codes : list string)
  : list bool * LuaFilterEngine :=
  match codes with
  | [] => ([], this)
  | luaCode :: rest =>
      let '(loaded, this') := loadFilter this luaCode in
      let '(answers, final) := loadAll this' rest in
      (loaded :: answers, final)
  end.

End LuaEngine.

(** ** lua-filters/policy: the filters for Bitcoin Knots

    The two detectors again, written in Lua, and the filter that combines
    them.  A Lua string is the list of its bytes, and indices count from 1
    as in the source.  The filters read the host's transaction through
    [get_inputs], [get_witness], [get_outputs], [get_script_pubkey],
    [get_value] and [is_op_return]; the records hold what these answer, as
    the mock objects of [test_filters.lua] do.  The lines written to the log
    through [ctx] are left out.  Lua's floats are read as exact rationals,
    like JavaScript's numbers. *)

(** [string.byte(s, i)], checked. *)
Definition stringByte (s : Buffer) (i : nat) : outcome byte :=
  match i with
  | 0 => Fault IndexPastEnd
  | S j => byteAt s j
  end.

(** [string.sub(s, i, j)] and [string.sub(s, i)], for [i >= 1]. *)
Definition stringSub (s : Buffer) (i j : nat) : Buffer :=
  firstn (j + 1 - i) (skipn (i - 1) s).

Definition stringSubFrom (s : Buffer) (i : nat) : Buffer := skipn (i - 1) s.

Module policy.

Record Input : Type := {
  get_witness : option (list Buffer)
}.

Record Output : Type := {
  get_script_pubkey : Buffer;
  get_value : Z;
  is_op_return : bool
}.

Record Transaction : Type := {
  get_inputs : list Input;
  get_outputs : list Output
}.

(** Reasons: a fixed string, or one of the [string.format] templates with the
    values it interpolates. *)
#[warnings="-register-all"]
Inductive Reason : Type :=
| Fixed (s : string)
| P2WSHSpam (suspicious_count : nat)
| ExceedsStandardSize (largest_opreturn : nat)
| SpamDetected (max_score : Z) (reasons : list (string * Reason)).

(** The table a filter returns. *)
Record Verdict : Type := {
  accept : bool;
  score : Z;
  reason : Reason
}.

(** *** policy/p2wsh_spam.lua *)

Module p2wsh_spam.

(** Body of [for i = 2, 33]; the state is
    [(zero_count, consecutive_zeros, max_consecutive_zeros)]. *)
Definition zero_scan (pubkey : Buffer) (i : nat) (st : nat * nat * nat)
  : outcome (nat * nat * nat) :=
  let '(zero_count, consecutive_zeros, max_consecutive_zeros) := st in
  byte <- stringByte pubkey i ;;
  if Byte.eqb byte x00 then
    let zero_count := zero_count + 1 in
    let consecutive_zeros := consecutive_zeros + 1 in
    Done (zero_count, consecutive_zeros,
          if max_consecutive_zeros <? consecutive_zeros
          then consecutive_zeros
          else max_consecutive_zeros)
  else Done (zero_count, 0, max_consecutive_zeros).

(** Body of [for i = 2, 30]; the state is [repeating_patterns]. *)
Definition repeat_scan (pubkey : Buffer) (i : nat) (repeating_patterns : nat)
  : outcome nat :=
  b1 <- stringByte pubkey i ;;
  b2 <- stringByte pubkey (i + 1) ;;
  b3 <- stringByte pubkey (i + 2) ;;
  b4 <- stringByte pubkey (i + 3) ;;
  Done (if Byte.eqb b1 b2 && Byte.eqb b1 b3 && Byte.eqb b1 b4
        then repeating_patterns + 1
        else repeating_patterns).

Definition is_likely_fake_pubkey (pubkey : Buffer) : outcome bool :=
  if negb (length pubkey =? 33) then Done false
  else
    prefix <- stringByte pubkey 1 ;;
    if negb (Byte.eqb prefix x02) && negb (Byte.eqb prefix x03) then Done false
    else
      '(zero_count, _, max_consecutive_zeros) <-
        forUpTo 32 2 (zero_scan pubkey) (0, 0, 0) ;;
      if (4 <? max_consecutive_zeros) || (10 <? zero_count) then Done true
      else
        repeating_patterns <- forUpTo 29 2 (repeat_scan pubkey) 0 ;;
        Done (2 <? repeating_patterns).

(** The table [analyze_witness_script] builds. *)
Record Analysis : Type := {
  is_suspicious : bool;
  pubkey_count : nat;
  fake_pubkey_count : nat;
  has_checkmultisig : bool;
  script_size : nat
}.

(** The [while i < #script - 1] loop, from index [i] with the pubkeys
    inserted so far. *)
Fixpoint collect_pubkeys (budget : nat) (script : Buffer) (i : nat)
    (pubkeys : list Buffer) : outcome (list Buffer) :=
  match budget with
  | 0 => Fault LoopBudget
  | S budget' =>
      if i + 1 <? length script then
        opcode <- stringByte script i ;;
        if Byte.eqb opcode x21 then
          if i + 33 <=? length script then
            let pubkey := stringSub script (i + 1) (i + 33) in
            collect_pubkeys budget' script (i + 34) (pubkeys ++ [pubkey])
          else Done pubkeys
        else if ((0x51 <=? code opcode) && (code opcode <=? 0x60))%N then
          collect_pubkeys budget' script (i + 1) pubkeys
        else if Byte.eqb opcode xae then
          Done pubkeys
        else
          collect_pubkeys budget' script (i + 1) pubkeys
      else Done pubkeys
  end.

(** Body of [for _, pubkey in ipairs(pubkeys)]; the state is
    [result.fake_pubkey_count]. *)
Definition count_fake (pubkey : Buffer) (fake_pubkey_count : nat) : outcome nat :=
  if length pubkey =? 33 then
    prefix <- stringByte pubkey 1 ;;
    if Byte.eqb prefix x02 || Byte.eqb prefix x03 then
      fake <- is_likely_fake_pubkey pubkey ;;
      Done (if fake then fake_pubkey_count + 1 else fake_pubkey_count)
    else Done fake_pubkey_count
  else Done fake_pubkey_count.

Definition analyze_witness_script (script : Buffer) : outcome Analysis :=
  if length script =? 0 then
    Done {| is_suspicious := false; pubkey_count := 0; fake_pubkey_count := 0;
            has_checkmultisig := false; script_size := length script |}
  else
    last_byte <- stringByte script (length script) ;;
    if negb (Byte.eqb last_byte xae) then
      Done {| is_suspicious := false; pubkey_count := 0; fake_pubkey_count := 0;
              has_checkmultisig := false; script_size := length script |}
    else
      pubkeys <- collect_pubkeys (length script) script 2 [] ;;
      let pubkey_count := length pubkeys in
      fake_pubkey_count <- forEach pubkeys count_fake 0 ;;
      let is_suspicious :=
        (3 <? pubkey_count)
        && gtb (numberOfNat fake_pubkey_count)
               (numberOfNat pubkey_count * (1 # 2))%Q in
      let is_suspicious := if 10 <? pubkey_count then true else is_suspicious in
      Done {| is_suspicious := is_suspicious; pubkey_count := pubkey_count;
              fake_pubkey_count := fake_pubkey_count;
              has_checkmultisig := true; script_size := length script |}.

(** Body of [for i, input in ipairs(inputs)]; the state is
    [(suspicious_count, total_p2wsh)]. *)
Definition scan_input (input : Input) (st : nat * nat) : outcome (nat * nat) :=
  let '(suspicious_count, total_p2wsh) := st in
  match get_witness input with
  | None => Done st
  | Some witness =>
      if 3 <=? length witness then
        witness_script <- itemAt witness (length witness - 1) ;;
        if 0 <? length witness_script then
          let total_p2wsh := total_p2wsh + 1 in
          analysis <- analyze_witness_script witness_script ;;
          if is_suspicious analysis
          then Done (suspicious_count + 1, total_p2wsh)
          else Done (suspicious_count, total_p2wsh)
        else Done st
      else Done st
  end.

Definition validate (tx : Transaction) : outcome Verdict :=
  '(suspicious_count, total_p2wsh) <- forEach (get_inputs tx) scan_input (0, 0) ;;
  if suspicious_count =? 0 then
    Done {| accept := true; score := 0;
            reason := Fixed "No suspicious P2WSH patterns" |}
  else
    let confidence :=
      if 0 <? total_p2wsh
      then ((numberOfNat suspicious_count / numberOfNat total_p2wsh) * 100)%Q
      else 0%Q in
    Done {| accept := false; score := Qfloor confidence;
            reason := P2WSHSpam suspicious_count |}.

End p2wsh_spam.

(** *** policy/opreturn_spam.lua *)

Module opreturn_spam.

Definition extract_opreturn_data (script_pubkey : Buffer) : outcome (option Buffer) :=
  if length script_pubkey <? 2 then Done None
  else
    first_byte <- stringByte script_pubkey 1 ;;
    if negb (Byte.eqb first_byte x6a) then Done None
    else
      let i := 2 in
      opcode <- stringByte script_pubkey i ;;
      let skipped :=
        if Byte.eqb opcode x4c then Some (i + 2)
        else if Byte.eqb opcode x4d then Some (i + 3)
        else if Byte.eqb opcode x4e then Some (i + 5)
        else if ((0 <? code opcode) && (code opcode <=? 0x4b))%N then Some (i + 1)
        else None in
      match skipped with
      | None => Done None
      | Some i =>
          if length script_pubkey <? i then Done None
          else Done (Some (stringSubFrom script_pubkey i))
      end.

(** [KNOTWORK_MAGIC = {0x01, 0xbc}] *)
Definition has_magic_prefix (data : option Buffer) : outcome bool :=
  match data with
  | None => Done false
  | Some data =>
      if length data <? 2 then Done false
      else
        byte1 <- stringByte data 1 ;;
        byte2 <- stringByte data 2 ;;
        Done (Byte.eqb byte1 x01 && Byte.eqb byte2 xbc)
  end.

Definition get_chunk_info (data : option Buffer) : outcome (option (byte * byte)) :=
  match data with
  | None => Done None
  | Some data =>
      if length data <? 4 then Done None
      else
        chunk_index <- stringByte data 3 ;;
        total_chunks <- stringByte data 4 ;;
        Done (Some (chunk_index, total_chunks))
  end.

(** The local table [details]; the filter fills it and does not return it. *)
Record Details : Type := {
  magic_prefix : bool;
  chunk : option (byte * byte);
  has_continuation : bool
}.

(** Body of [for _, op_out in ipairs(opreturn_outputs)]; the state is
    [(largest_opreturn, has_magic, details)]. *)
Definition scan_output (op_out : Output) (st : nat * bool * Details)
  : outcome (nat * bool * Details) :=
  let '(largest_opreturn, has_magic, details) := st in
  data <- extract_opreturn_data (get_script_pubkey op_out) ;;
  match data with
  | None => Done st
  | Some bytes =>
      let data_size := length bytes in
      let largest_opreturn :=
        if largest_opreturn <? data_size then data_size else largest_opreturn in
      magic <- has_magic_prefix data ;;
      if magic then
        let details :=
          {| magic_prefix := true; chunk := chunk details;
             has_continuation := has_continuation details |} in
        chunk_info <- get_chunk_info data ;;
        match chunk_info with
        | Some info =>
            Done (largest_opreturn, true,
                  {| magic_prefix := magic_prefix details; chunk := Some info;
                     has_continuation := has_continuation details |})
        | None => Done (largest_opreturn, true, details)
        end
      else Done (largest_opreturn, has_magic, details)
  end.

Definition validate (tx : Transaction) : outcome Verdict :=
  let outputs := get_outputs tx in
  let opreturn_outputs := filter is_op_return outputs in
  if length opreturn_outputs =? 0 then
    Done {| accept := true; score := 0; reason := Fixed "No OP_RETURN outputs" |}
  else
    '(largest_opreturn, has_magic, details) <-
      forEach opreturn_outputs scan_output
        (0, false, {| magic_prefix := false; chunk := None;
                      has_continuation := false |}) ;;
    let has_continuation :=
      existsb (fun output => (0 <? get_value output)%Z
                             && (get_value output <? 15000)%Z) outputs in
    let '(has_chain_pattern, details) :=
      if has_continuation && (0 <? length opreturn_outputs)
      then (true, {| magic_prefix := magic_prefix details; chunk := chunk details;
                     has_continuation := true |})
      else (false, details) in
    if has_magic then
      Done {| accept := false; score := 95;
              reason := Fixed "Knotwork magic prefix (444) detected in OP_RETURN data" |}
    else if has_chain_pattern then
      Done {| accept := false; score := 60;
              reason := Fixed "Chained OP_RETURN pattern with continuation output" |}
    else if 80 <? largest_opreturn then
      Done {| accept := false; score := 40;
              reason := ExceedsStandardSize largest_opreturn |}
    else
      Done {| accept := true; score := 0;
              reason := Fixed "No suspicious OP_RETURN patterns" |}.

End opreturn_spam.

(** *** policy/spam_filter.lua *)

Module spam_filter.

Record Config : Type := {
  rejection_threshold : Z;
  enable_p2wsh_detection : bool;
  enable_opreturn_detection : bool;
  enable_logging : bool
}.

(** The table [CONFIG] as the file sets it. *)
Definition CONFIG : Config :=
  {| rejection_threshold := 50; enable_p2wsh_detection := true;
     enable_opreturn_detection := true; enable_logging := true |}.

(** What follows a detector's call; the state is
    [(max_score, reasons, any_rejected)].  (The table [results] is filled
    and never read.) *)
Definition note (name : string) (result : Verdict)
    (st : Z * list (string * Reason) * bool) : Z * list (string * Reason) * bool :=
  let '(max_score, reasons, any_rejected) := st in
  let max_score := if (max_score <? score result)%Z then score result else max_score in
  if negb (accept result)
  then (max_score, reasons ++ [(name, reason result)], true)
  else (max_score, reasons, any_rejected).

Definition validate (CONFIG : Config) (tx : Transaction) : outcome Verdict :=
  let st := (0%Z, [], false) in
  st <- (if enable_p2wsh_detection CONFIG then
           p2wsh_result <- p2wsh_spam.validate tx ;;
           Done (note "P2WSH" p2wsh_result st)
         else Done st) ;;
  st <- (if enable_opreturn_detection CONFIG then
           opreturn_result <- opreturn_spam.validate tx ;;
           Done (note "OP_RETURN" opreturn_result st)
         else Done st) ;;
  let '(max_score, reasons, any_rejected) := st in
  if any_rejected then
    Done {| accept := false; score := max_score;
            reason := SpamDetected max_score reasons |}
  else
    Done {| accept := true; score := max_score;
            reason := Fixed "Transaction passed all spam filters" |}.

End spam_filter.

End policy.

(** ** Further notions for the statements *)

(** An input the P2WSH detector cannot tell from another: same txid and
    index, and witness stacks that are both short (absent, or under 3 items)
    or both long with the same last item. *)
Definition sameToP2WSH (a b : TransactionInput) : Prop :=
  txid a = txid b /\ vout a = vout b
  /\ inPopulation a = inPopulation b
  /\ (inPopulation a = true -> lastWitnessItem a = lastWitnessItem b).

(** The analysis of a script ([analyzeWitnessScript] is total). *)
Definition analysisOf (script : Buffer) : WitnessAnalysis :=
  match P2WSHFakeMultisigDetector.analyzeWitnessScript script with
  | Done r => r
  | Fault _ =>
      {| isSuspicious := false; pubkeyCount := 0; fakePubkeyCount := 0;
         hasCheckmultisig := false; scriptSize := length script |}
  end.

(** The entry of [details] for a suspicious input. *)
Definition detailOf (input : TransactionInput) : SuspiciousInput :=
  {| inputTxid := txid input; inputVout := vout input;
     analysis := analysisOf (lastWitnessItem input) |}.

(** What decides [detected] and [confidence] of the chained-OP_RETURN
    detector. *)
Definition opReturnVerdict (tx : ParsedTransaction) : bool * number :=
  if length (collected tx) =? 0 then (false, 0%Q)
  else if hasMagic tx then (true, 95%Q)
  else if continuationPattern tx then (true, 60%Q)
  else if 80 <? largestPayload tx then (true, 40%Q)
  else (false, 0%Q).

(** [fn.length > 10] counted over the inputs, and [value < 546] over the
    outputs. *)
Definition manyWitnessInputs (tx : ParsedTransaction) : nat :=
  length (filter hasManyWitnessItems (inputs tx)).

Definition dustOutputCount (tx : ParsedTransaction) : nat :=
  length (filter (fun out => (value out <? 546)%Z) (outputs tx)).

(** Every callback returns on [tx], with a score that is not negative. *)
Definition callbacksScoreNonNegative (this : FilterEngine) (tx : ParsedTransaction)
  : Prop :=
  forall filter,
    In filter (jsFilters this) ->
    exists result, filter tx = Done result /\ (0 <= score result)%Q.

(** Three zero-filled keys and a fourth push that the end of the script cuts
    short: 106 bytes in all. *)
Definition shortestSuspiciousScript : Buffer :=
  [x52] ++ flat_map (fun key => x21 :: key) (repeat zeroKey 3) ++ [x21; x02; xae].

(** ** Notions for the Lua filters *)

(** A candidate that has all its 33 bytes. *)
Definition fullKey (pubkey : Buffer) : bool := length pubkey =? 33.

(** The candidates the Lua walk keeps: it stops at a push the end of the
    script cuts short, where the TypeScript walk pushes what is left. *)
Definition fullCandidates (script : Buffer) : list Buffer :=
  filter fullKey (candidates script).

(** A script the Lua analysis marks suspicious. *)
Definition luaScriptSuspicious (script : Buffer) : bool :=
  checkmultisigShaped script
  && suspicionRule (length (fullCandidates script))
                   (length (filter countedFake (candidates script))).

(** The analysis the Lua filter returns for a script. *)
Definition luaAnalysis (script : Buffer) : policy.p2wsh_spam.Analysis :=
  if checkmultisigShaped script then
    {| policy.p2wsh_spam.is_suspicious := luaScriptSuspicious script;
       policy.p2wsh_spam.pubkey_count := length (fullCandidates script);
       policy.p2wsh_spam.fake_pubkey_count :=
         length (filter countedFake (candidates script));
       policy.p2wsh_spam.has_checkmultisig := true;
       policy.p2wsh_spam.script_size := length script |}
  else
    {| policy.p2wsh_spam.is_suspicious := false;
       policy.p2wsh_spam.pubkey_count := 0;
       policy.p2wsh_spam.fake_pubkey_count := 0;
       policy.p2wsh_spam.has_checkmultisig := false;
       policy.p2wsh_spam.script_size := length script |}.

(** The inputs the Lua filter counts, and those it counts as suspicious. *)
Definition luaInPopulation (input : policy.Input) : bool :=
  match policy.get_witness input with
  | Some stack => (3 <=? length stack) && (0 <? length (last stack []))
  | None => false
  end.

Definition luaSuspiciousInput (input : policy.Input) : bool :=
  match policy.get_witness input with
  | Some stack => (3 <=? length stack) && luaScriptSuspicious (last stack [])
  | None => false
  end.

(** The host's view of a parsed transaction: the same witness stacks,
    scripts and values, and [is_op_return] answering as the tag does. *)
Definition hostInput (input : TransactionInput) : policy.Input :=
  {| policy.get_witness := witness input |}.

Definition hostOutput (out : TransactionOutput) : policy.Output :=
  {| policy.get_script_pubkey := scriptPubKey out;
     policy.get_value := value out;
     policy.is_op_return := ChainedOpReturnDetector.isNulldata out |}.

Definition hostTransaction (tx : ParsedTransaction) : policy.Transaction :=
  {| policy.get_inputs := map hostInput (inputs tx);
     policy.get_outputs := map hostOutput (outputs tx) |}.

(** No counted witness script has a candidate the end of the script cuts
    short. *)
Definition noCutShortCandidate (tx : ParsedTransaction) : bool :=
  forallb (fun input =>
             negb (inPopulation input)
             || forallb fullKey (candidates (lastWitnessItem input)))
          (inputs tx).

(** No counted witness script is empty. *)
Definition noEmptyWitnessScript (tx : ParsedTransaction) : bool :=
  forallb (fun input =>
             negb (inPopulation input) || (0 <? length (lastWitnessItem input)))
          (inputs tx).

(** The opcode after [OP_RETURN] is one of the pushes both extractors know:
    [0x01] to [0x4e]. *)
Definition recognisedPush (script : Buffer) : bool :=
  match script with
  | _ :: op :: _ => 0 <? pushHeader op
  | _ => false
  end.

(** What the Lua extractor returns: the bytes after the header of a
    recognised push, when there are any. *)
Definition luaPayload (script : Buffer) : option Buffer :=
  match payloadAfterHeader script with
  | Some (b :: data) => if recognisedPush script then Some (b :: data) else None
  | _ => None
  end.

(** The payloads the Lua filter extracts from a list of outputs. *)
Fixpoint luaPayloadsOf (outs : list policy.Output) : list Buffer :=
  match outs with
  | [] => []
  | out :: rest =>
      match luaPayload (policy.get_script_pubkey out) with
      | Some data => data :: luaPayloadsOf rest
      | None => luaPayloadsOf rest
      end
  end.

(** What decides [accept] and [score] of the Lua OP_RETURN filter. *)
Definition luaOpReturnVerdict (tx : policy.Transaction) : bool * Z :=
  let flagged := filter policy.is_op_return (policy.get_outputs tx) in
  if length flagged =? 0 then (true, 0%Z)
  else if existsb magicPayload (luaPayloadsOf flagged) then (false, 95%Z)
  else if existsb (fun output => (0 <? policy.get_value output)%Z
                                 && (policy.get_value output <? 15000)%Z)
                  (policy.get_outputs tx) then (false, 60%Z)
  else if 80 <? mathMax (map (@length byte) (luaPayloadsOf flagged))
  then (false, 40%Z)
  else (true, 0%Z).

(** Five full keys, three of them zero-filled, and a sixth push that the
    end of the script cuts short. *)
Definition cutShortAfterFiveKeys : Buffer :=
  [x52] ++ flat_map (fun key => x21 :: key) (repeat zeroKey 3 ++ repeat plainKey 2)
        ++ [x21; x02; xae].

(** One input with twelve zero-filled keys among a hundred inputs with an
    innocent three-item witness. *)
Definition dilutedSpam : policy.Transaction :=
  {| policy.get_inputs :=
       {| policy.get_witness := Some [[]; []; multisigScript (repeat zeroKey 12)] |}
       :: repeat {| policy.get_witness := Some [[x00]; [x00]; [x51]] |} 100;
     policy.get_outputs := [] |}.

(** The transactions of [test_filters.lua]. *)
Definition create_opreturn_script (data : Buffer) : Buffer :=
  match Byte.of_nat (length data) with
  | Some data_len =>
      if length data <=? 75 then [x6a; data_len] ++ data
      else [x6a; x4c; data_len] ++ data
  | None => [x6a; x4d] ++ data
  end.

Definition create_mock_tx (witness_data : option (list Buffer))
    (outputs : list (Buffer * Z * bool)) : policy.Transaction :=
  {| policy.get_inputs := [ {| policy.get_witness := witness_data |} ];
     policy.get_outputs :=
       map (fun '(script_pubkey, value, is_opreturn) =>
              {| policy.get_script_pubkey := script_pubkey;
                 policy.get_value := value;
                 policy.is_op_return := is_opreturn |}) outputs |}.

Definition clean_tx : policy.Transaction :=
  create_mock_tx None [([], 50000%Z, false)].

Definition spam_tx : policy.Transaction :=
  create_mock_tx (Some [[]; []; multisigScript (repeat zeroKey 12)])
                 [([], 50000%Z, false)].

Definition knotwork_tx : policy.Transaction :=
  create_mock_tx None
    [(create_opreturn_script
        ([x01; xbc; x00; x0a] ++ list_byte_of_string "spam_data_here"), 0%Z, true)].

Definition oversized_tx : policy.Transaction :=
  create_mock_tx None [(create_opreturn_script (repeat x58 100), 0%Z, true)].

Definition continuation_tx : policy.Transaction :=
  create_mock_tx None
    [(create_opreturn_script (list_byte_of_string "some_data"), 0%Z, true);
     ([], 5000%Z, false)].

Definition normal_opreturn_tx : policy.Transaction :=
  create_mock_tx None
    [(create_opreturn_script (list_byte_of_string "Normal OP_RETURN data"), 0%Z, true)].

(** * Proofs *)

(** ** Outcomes and checked reads *)

Lemma bind_Done {A B : Type} (c : outcome A) (k : A -> outcome B) (b : B) :
  bind c k = Done b -> exists a, c = Done a /\ k a = Done b.
Proof.
  destruct c as [a | f]; simpl; intros H.
  - exists a. split; [reflexivity | exact H].
  - discriminate H.
Qed.

Lemma if_Done {A : Type} (b : bool) (x y : A) :
  (if b then Done x else Done y) = Done (if b then x else y).
Proof. destruct b; reflexivity. Qed.

Lemma itemAt_inside {A : Type} (xs : list A) (i : nat) :
  i < length xs -> exists x, itemAt xs i = Done x /\ nth_error xs i = Some x.
Proof.
  intros Hi. unfold itemAt.
  destruct (nth_error xs i) as [x |] eqn:E.
  - exists x. split; reflexivity.
  - apply nth_error_None in E. lia.
Qed.

Lemma itemAt_app_here {A : Type} (before : list A) (x : A) (after : list A) :
  itemAt (before ++ x :: after) (length before) = Done x.
Proof.
  unfold itemAt. rewrite nth_error_app2 by lia.
  rewrite Nat.sub_diag. reflexivity.
Qed.

Lemma itemAt_app_plus {A : Type} (before after : list A) (k : nat) :
  itemAt (before ++ after) (length before + k) = itemAt after k.
Proof.
  unfold itemAt. rewrite nth_error_app2 by lia.
  replace (length before + k - length before) with k by lia. reflexivity.
Qed.

Lemma app_cons_shift {A : Type} (before : list A) (x : A) (after : list A) :
  before ++ x :: after = (before ++ [x]) ++ after.
Proof. rewrite <- app_assoc. reflexivity. Qed.

Lemma length_snoc {A : Type} (before : list A) (x : A) :
  length (before ++ [x]) = S (length before).
Proof. rewrite length_app. simpl. lia. Qed.

Lemma last_item_read {A : Type} (xs : list A) (x : A) (front : list A) :
  rev xs = x :: front -> itemAt xs (length xs - 1) = Done x.
Proof.
  intros Hrev.
  assert (Hs : xs = rev front ++ [x]).
  { rewrite <- (rev_involutive xs), Hrev. reflexivity. }
  rewrite Hs, length_snoc.
  replace (S (length (rev front)) - 1) with (length (rev front)) by lia.
  apply itemAt_app_here.
Qed.

Lemma hd_rev_last {A : Type} (xs : list A) (d : A) :
  xs <> [] -> hd_error (rev xs) = Some (last xs d).
Proof.
  intros Hne. destruct (rev xs) as [| x front] eqn:Hrev.
  - exfalso. apply Hne. rewrite <- (rev_involutive xs), Hrev. reflexivity.
  - assert (Hs : xs = rev front ++ [x]).
    { rewrite <- (rev_involutive xs), Hrev. reflexivity. }
    rewrite Hs, last_last. reflexivity.
Qed.

(** ** The zero scan computes the zero count and the longest zero run *)

(** Equality of two finished loop states [(count, trailing, longest)] that
    share [trailing]: the counts and the maxima are left to [lia]. *)
Ltac same_scan_state :=
  apply f_equal; apply f_equal2; [apply f_equal2; [lia | reflexivity] | lia].

Lemma zeroPrefix_le_longest (data : Buffer) : zeroPrefix data <= longestZeroRun data.
Proof. destruct data; simpl; lia. Qed.

Lemma zeroScan_loop (suffix : Buffer) :
  forall (before : Buffer) (zeroCount consecutiveZeros maxConsecutiveZeros : nat),
    consecutiveZeros <= maxConsecutiveZeros ->
    exists trailing,
      forUpTo (length suffix) (length before)
        (P2WSHFakeMultisigDetector.zeroScan (before ++ suffix))
        (zeroCount, consecutiveZeros, maxConsecutiveZeros)
      = Done (zeroCount + zeroBytes suffix, trailing,
              Nat.max maxConsecutiveZeros
                (Nat.max (consecutiveZeros + zeroPrefix suffix)
                         (longestZeroRun suffix))).
Proof.
  induction suffix as [| b rest IH]; intros before zc cz mz Hle.
  - exists cz. cbn [length forUpTo zeroPrefix longestZeroRun].
    unfold zeroBytes. cbn [count_occ].
    same_scan_state.
  - cbn [length forUpTo].
    unfold P2WSHFakeMultisigDetector.zeroScan at 1.
    unfold byteAt. rewrite itemAt_app_here. cbn [bind].
    rewrite (app_cons_shift before b rest), <- (length_snoc before b).
    pose proof (zeroPrefix_le_longest rest) as Hzp.
    unfold zeroBytes in *. cbn [zeroPrefix longestZeroRun].
    destruct (Byte.eqb b x00) eqn:Eb.
    + apply Byte.byte_dec_bl in Eb. subst b. cbn [bind].
      destruct (IH (before ++ [x00]) (zc + 1) (cz + 1) (Nat.max mz (cz + 1)))
        as [tr Htr]; [lia |].
      exists tr. rewrite Htr. rewrite count_occ_cons_eq by reflexivity.
      same_scan_state.
    + cbn [bind].
      destruct (IH (before ++ [b]) zc 0 mz) as [tr Htr]; [lia |].
      exists tr. rewrite Htr.
      rewrite count_occ_cons_neq by (intros ->; discriminate Eb).
      same_scan_state.
Qed.

(** ** The window scan counts the uniform windows *)

Lemma repeatedRuns_short (data : Buffer) : length data < 4 -> repeatedRuns data = 0.
Proof.
  induction data as [| a rest IH]; intros Hlen; [reflexivity |].
  cbn [repeatedRuns]. rewrite IH by (simpl in Hlen; lia).
  destruct rest as [| b [| c [| d rest']]]; simpl in Hlen; try reflexivity; lia.
Qed.

Lemma repeatScan_step (before : Buffer) (a b c d : byte) (rest : Buffer) (n : nat) :
  P2WSHFakeMultisigDetector.repeatScan (before ++ a :: b :: c :: d :: rest)
    (length before) n
  = Done (if startsUniform4 (a :: b :: c :: d :: rest) then n + 1 else n).
Proof.
  unfold P2WSHFakeMultisigDetector.repeatScan, byteAt.
  rewrite itemAt_app_here. cbn [bind].
  rewrite !itemAt_app_plus. unfold itemAt at 1. cbn [nth_error bind].
  cbn [startsUniform4].
  destruct (Byte.eqb a b); cbn [andThen andb bind]; [| reflexivity].
  unfold itemAt at 1. cbn [nth_error bind].
  destruct (Byte.eqb a c); cbn [andThen andb bind]; [| reflexivity].
  unfold itemAt at 1. cbn [nth_error bind].
  reflexivity.
Qed.

Lemma repeatScan_loop (suffix : Buffer) :
  forall (before : Buffer) (n : nat),
    forUpTo (length suffix - 3) (length before)
      (P2WSHFakeMultisigDetector.repeatScan (before ++ suffix)) n
    = Done (n + repeatedRuns suffix).
Proof.
  induction suffix as [| a rest IH]; intros before n.
  - simpl. f_equal. lia.
  - destruct (Nat.ltb_spec (length rest) 3) as [Hshort | Hlong].
    + replace (length (a :: rest) - 3) with 0 by (simpl; lia).
      rewrite repeatedRuns_short by (simpl; lia).
      simpl. f_equal. lia.
    + replace (length (a :: rest) - 3) with (S (length rest - 3)) by (simpl; lia).
      cbn [forUpTo].
      destruct rest as [| b [| c [| d rest']]]; simpl in Hlong; try lia.
      rewrite repeatScan_step. cbn [bind].
      rewrite (app_cons_shift before a), <- (length_snoc before a).
      rewrite IH. cbn [repeatedRuns].
      destruct (startsUniform4 (a :: b :: c :: d :: rest')); f_equal; lia.
Qed.

(** ** [isLikelyFakePubkey] computes the heuristic *)

Lemma isLikelyFakePubkey_spec (pubkey : Buffer) :
  P2WSHFakeMultisigDetector.isLikelyFakePubkey pubkey = Done (countedFake pubkey).
Proof.
  unfold P2WSHFakeMultisigDetector.isLikelyFakePubkey, countedFake.
  destruct (length pubkey =? 33) eqn:Elen; cbn [negb andb]; [| reflexivity].
  destruct pubkey as [| prefix data]; [discriminate Elen |].
  unfold byteAt, itemAt. cbn [nth_error bind compressedPrefix tl].
  destruct (Byte.eqb prefix x02), (Byte.eqb prefix x03);
    cbn [negb andb orb]; try reflexivity;
    unfold sliceFrom; cbn [skipn];
    (destruct (zeroScan_loop data [] 0 0 0 (le_n 0)) as [tr Hscan];
     cbn [app length] in Hscan; rewrite Hscan; cbn [bind];
     unfold looksFake;
     replace (Nat.max 0 (Nat.max (0 + zeroPrefix data) (longestZeroRun data)))
       with (longestZeroRun data)
       by (pose proof (zeroPrefix_le_longest data); lia);
     cbn [Nat.add];
     destruct ((4 <? longestZeroRun data) || (10 <? zeroBytes data)) eqn:Ez;
       [reflexivity |];
     pose proof (repeatScan_loop data [] 0) as Hrep;
     cbn [app length Nat.add] in Hrep; rewrite Hrep; reflexivity).
Qed.

Lemma countFake_spec (pubkey : Buffer) (n : nat) :
  P2WSHFakeMultisigDetector.countFake pubkey n
  = Done (if countedFake pubkey then n + 1 else n).
Proof.
  unfold P2WSHFakeMultisigDetector.countFake.
  rewrite isLikelyFakePubkey_spec. unfold countedFake.
  destruct (length pubkey =? 33) eqn:Elen; cbn [andb]; [| reflexivity].
  destruct pubkey as [| prefix data]; [discriminate Elen |].
  unfold byteAt, itemAt. cbn [nth_error bind compressedPrefix tl].
  destruct (Byte.eqb prefix x02 || Byte.eqb prefix x03); reflexivity.
Qed.

Lemma countFake_loop (pubkeys : list Buffer) :
  forall n,
    forEach pubkeys P2WSHFakeMultisigDetector.countFake n
    = Done (n + length (filter countedFake pubkeys)).
Proof.
  induction pubkeys as [| pubkey rest IH]; intros n.
  - simpl. f_equal. lia.
  - cbn [forEach filter]. rewrite countFake_spec. cbn [bind]. rewrite IH.
    destruct (countedFake pubkey); simpl; f_equal; lia.
Qed.

(** ** The witness-script walk ends within its budget and reads inside the script *)

Lemma pushedAt_weaken (script : Buffer) (from from' : nat) (pubkey : Buffer) :
  from <= from' -> pushedAt script from' pubkey -> pushedAt script from pubkey.
Proof.
  intros Hle (j & Hj & Hin & Hop & Hk).
  exists j. repeat split; try assumption. lia.
Qed.

Lemma collectPubkeys_spec (budget : nat) :
  forall (script : Buffer) (i : nat) (pubkeys : list Buffer),
    1 <= budget -> length script <= budget + i ->
    exists pushed,
      P2WSHFakeMultisigDetector.collectPubkeys budget script i pubkeys
      = Done (pubkeys ++ pushed)
      /\ Forall (pushedAt script i) pushed.
Proof.
  induction budget as [| budget IH]; intros script i pubkeys Hpos Hlen; [lia |].
  cbn [P2WSHFakeMultisigDetector.collectPubkeys].
  destruct (Nat.ltb_spec (i + 2) (length script)) as [Hin | Hout].
  2:{ exists []. rewrite app_nil_r. split; [reflexivity | constructor]. }
  destruct (itemAt_inside script i) as (opcode & Hread & Hnth); [lia |].
  unfold byteAt. rewrite Hread. cbn [bind].
  assert (Hnext : forall i' acc, i < i' ->
            exists pushed,
              P2WSHFakeMultisigDetector.collectPubkeys budget script i' acc
              = Done (acc ++ pushed)
              /\ Forall (pushedAt script i) pushed).
  { intros i' acc Hi'.
    destruct (IH script i' acc) as (pushed & Hrun & Hall); try lia.
    exists pushed. split; [exact Hrun |].
    eapply Forall_impl; [| exact Hall].
    intros k Hk. apply (pushedAt_weaken script i i'); [lia | exact Hk]. }
  destruct (Byte.eqb opcode x21) eqn:E21.
  - apply Byte.byte_dec_bl in E21. subst opcode.
    destruct (Hnext (i + 34) (pubkeys ++ [slice script (i + 1) (i + 34)]))
      as (pushed & Hrun & Hall); [lia |].
    exists (slice script (i + 1) (i + 34) :: pushed).
    rewrite Hrun, <- app_assoc. split; [reflexivity |].
    constructor; [| exact Hall].
    exists i. repeat split; try assumption. lia.
  - destruct ((0x51 <=? code opcode) && (code opcode <=? 0x60))%N.
    + apply Hnext. lia.
    + destruct (Byte.eqb opcode xae).
      * exists []. rewrite app_nil_r. split; [reflexivity | constructor].
      * apply Hnext. lia.
Qed.

Lemma slice_length_le (script : Buffer) (start stop : nat) :
  length (slice script start stop) <= stop - start.
Proof. unfold slice. rewrite length_firstn. lia. Qed.

Lemma pushedAt_length (script : Buffer) (from : nat) (pubkey : Buffer) :
  pushedAt script from pubkey -> length pubkey <= 33.
Proof.
  intros (j & _ & _ & _ & ->).
  pose proof (slice_length_le script (j + 1) (j + 34)). lia.
Qed.

(** ** [analyzeWitnessScript], case by case *)

Lemma last_byte_read (script : Buffer) (b : byte) (front : Buffer) :
  rev script = b :: front -> byteAt script (length script - 1) = Done b.
Proof. intros Hrev. unfold byteAt. exact (last_item_read script b front Hrev). Qed.

Lemma last_byte_nonempty (script : Buffer) (b : byte) (front : Buffer) :
  rev script = b :: front -> (length script =? 0) = false.
Proof.
  intros Hrev. destruct script; [discriminate Hrev | reflexivity].
Qed.

Lemma half_gtb (fakes count : nat) :
  gtb (numberOfNat fakes) (numberOfNat count * (1 # 2))%Q = (count <? 2 * fakes).
Proof.
  unfold gtb.
  destruct (Qle_bool (numberOfNat fakes) (numberOfNat count * (1 # 2))%Q) eqn:E;
    cbn [negb]; symmetry.
  - apply Qle_bool_iff in E. unfold Qle, numberOfNat in E. simpl in E.
    apply Nat.ltb_ge. lia.
  - apply Nat.ltb_lt.
    destruct (Nat.lt_ge_cases count (2 * fakes)) as [Hlt | Hge]; [exact Hlt |].
    assert (Hq : (numberOfNat fakes <= numberOfNat count * (1 # 2))%Q).
    { unfold Qle, numberOfNat. simpl. lia. }
    apply Qle_bool_iff in Hq. congruence.
Qed.

Lemma analyzeWitnessScript_unshaped (script : Buffer) :
  checkmultisigShaped script = false ->
  P2WSHFakeMultisigDetector.analyzeWitnessScript script
  = Done {| isSuspicious := false; pubkeyCount := 0; fakePubkeyCount := 0;
            hasCheckmultisig := false; scriptSize := length script |}.
Proof.
  unfold checkmultisigShaped, P2WSHFakeMultisigDetector.analyzeWitnessScript.
  intros Hshape.
  destruct (rev script) as [| b front] eqn:Hrev.
  - assert (script = []) as ->.
    { rewrite <- (rev_involutive script), Hrev. reflexivity. }
    reflexivity.
  - rewrite (last_byte_nonempty script b front Hrev).
    rewrite (last_byte_read script b front Hrev). cbn [bind].
    unfold P2WSHFakeMultisigDetector.setHasCheckmultisig at 1.
    cbn [hasCheckmultisig]. rewrite Hshape. reflexivity.
Qed.

Lemma analyzeWitnessScript_shaped (script : Buffer) :
  checkmultisigShaped script = true ->
  exists pubkeys,
    P2WSHFakeMultisigDetector.collectPubkeys (length script) script 1 [] = Done pubkeys
    /\ Forall (pushedAt script 1) pubkeys
    /\ P2WSHFakeMultisigDetector.analyzeWitnessScript script
       = Done {| isSuspicious :=
                   suspicionRule (length pubkeys) (length (filter countedFake pubkeys));
                 pubkeyCount := length pubkeys;
                 fakePubkeyCount := length (filter countedFake pubkeys);
                 hasCheckmultisig := true;
                 scriptSize := length script |}.
Proof.
  unfold checkmultisigShaped. intros Hshape.
  destruct (rev script) as [| b front] eqn:Hrev; [discriminate Hshape |].
  pose proof (last_byte_nonempty script b front Hrev) as Hne.
  destruct (collectPubkeys_spec (length script) script 1 [])
    as (pubkeys & Hrun & Hall);
    [apply Nat.eqb_neq in Hne; lia | lia |].
  cbn [app] in Hrun.
  exists pubkeys. split; [exact Hrun |]. split; [exact Hall |].
  unfold P2WSHFakeMultisigDetector.analyzeWitnessScript.
  rewrite Hne.
  rewrite (last_byte_read script b front Hrev). cbn [bind].
  unfold P2WSHFakeMultisigDetector.setHasCheckmultisig at 1.
  cbn [hasCheckmultisig]. rewrite Hshape. cbn [negb].
  rewrite Hrun. cbn [bind].
  unfold P2WSHFakeMultisigDetector.setHasCheckmultisig,
    P2WSHFakeMultisigDetector.setPubkeyCount.
  cbn [isSuspicious pubkeyCount fakePubkeyCount hasCheckmultisig scriptSize].
  rewrite countFake_loop. cbn [bind Nat.add].
  unfold P2WSHFakeMultisigDetector.setFakePubkeyCount.
  cbn [isSuspicious pubkeyCount fakePubkeyCount hasCheckmultisig scriptSize].
  rewrite half_gtb. unfold suspicionRule.
  destruct ((3 <? length pubkeys)
            && (length pubkeys <? 2 * length (filter countedFake pubkeys)));
    destruct (10 <? length pubkeys) eqn:E10;
    unfold P2WSHFakeMultisigDetector.setIsSuspicious;
    cbn [isSuspicious pubkeyCount fakePubkeyCount hasCheckmultisig scriptSize orb];
    rewrite ?E10; reflexivity.
Qed.

Lemma analyzeWitnessScript_suspicious (script : Buffer) :
  exists r,
    P2WSHFakeMultisigDetector.analyzeWitnessScript script = Done r
    /\ isSuspicious r = scriptSuspicious script.
Proof.
  unfold scriptSuspicious.
  destruct (checkmultisigShaped script) eqn:Hshape.
  - destruct (analyzeWitnessScript_shaped script Hshape) as (pubkeys & Hrun & _ & Hr).
    eexists. split; [exact Hr |].
    unfold candidates. rewrite Hrun. reflexivity.
  - eexists. split; [apply analyzeWitnessScript_unshaped; exact Hshape |].
    reflexivity.
Qed.

(** ** The parser's extractors *)

Lemma extractOpReturnData_spec (script : Buffer) :
  TransactionParser.extractOpReturnData script = Done (payloadAfterHeader script).
Proof.
  unfold TransactionParser.extractOpReturnData, payloadAfterHeader.
  destruct script as [| b rest]; [reflexivity |].
  cbn [length Nat.eqb]. unfold byteAt, itemAt. cbn [nth_error bind].
  destruct (Byte.eqb b x6a); cbn [negb]; [| reflexivity].
  destruct rest as [| op rest']; [reflexivity |].
  cbn [length Nat.leb nth_error bind]. unfold pushHeader, sliceFrom.
  destruct ((0x01 <=? code op) && (code op <=? 0x4b))%N; [reflexivity |].
  destruct (Byte.eqb op x4c); [reflexivity |].
  destruct (Byte.eqb op x4d); [reflexivity |].
  destruct (Byte.eqb op x4e); reflexivity.
Qed.

Lemma extractWitnessScript_spec (stack : list Buffer) :
  TransactionParser.extractWitnessScript stack = Done (hd_error (rev stack)).
Proof.
  unfold TransactionParser.extractWitnessScript.
  destruct (rev stack) as [| lastItem front] eqn:Hrev.
  - assert (stack = []) as ->.
    { rewrite <- (rev_involutive stack), Hrev. reflexivity. }
    reflexivity.
  - rewrite (last_item_read stack lastItem front Hrev).
    destruct stack; [discriminate Hrev | reflexivity].
Qed.

Lemma payloadAfterHeader_suffix (script data : Buffer) :
  payloadAfterHeader script = Some data -> exists header, script = header ++ data.
Proof.
  unfold payloadAfterHeader.
  destruct script as [| b rest]; [discriminate |].
  destruct (Byte.eqb b x6a); [| discriminate].
  intros [= <-].
  destruct rest as [| op rest'].
  - exists [b]. reflexivity.
  - exists (b :: firstn (pushHeader op) (op :: rest')).
    cbn [app]. f_equal. symmetry. apply firstn_skipn.
Qed.

Lemma declaredPush_header (rest : Buffer) (header declared : nat) :
  declaredPush rest = Some (header, declared) ->
  exists op after, rest = op :: after /\ pushHeader op = header.
Proof.
  unfold declaredPush, pushHeader.
  destruct rest as [| op after]; [discriminate |].
  intros H. exists op, after. split; [reflexivity |].
  destruct ((0x01 <=? code op) && (code op <=? 0x4b))%N; [congruence |].
  destruct (Byte.eqb op x4c).
  { destruct (1 <=? length after); congruence. }
  destruct (Byte.eqb op x4d).
  { destruct (2 <=? length after); congruence. }
  destruct (Byte.eqb op x4e).
  { destruct (4 <=? length after); congruence. }
  discriminate H.
Qed.

(** ** The P2WSH detector *)

Lemma scanInput_spec (input : TransactionInput)
    (suspiciousCount totalP2WSH : nat) (details : list SuspiciousInput) :
  exists details',
    P2WSHFakeMultisigDetector.scanInput input (suspiciousCount, totalP2WSH, details)
    = Done (suspiciousCount + countIf (suspiciousInput input),
            totalP2WSH + countIf (inPopulation input),
            details').
Proof.
  unfold P2WSHFakeMultisigDetector.scanInput, suspiciousInput, inPopulation,
    lastWitnessItem.
  destruct (witness input) as [stack |].
  2:{ exists details. simpl. repeat f_equal; lia. }
  rewrite Nat.ltb_antisym.
  destruct (3 <=? length stack) eqn:E3; cbn [negb andb].
  2:{ exists details. simpl. repeat f_equal; lia. }
  rewrite extractWitnessScript_spec. cbn [bind].
  rewrite (hd_rev_last stack []).
  2:{ intros ->. discriminate E3. }
  destruct (analyzeWitnessScript_suspicious (last stack [])) as (r & Hr & Hs).
  rewrite Hr. cbn [bind]. rewrite Hs.
  destruct (scriptSuspicious (last stack [])); eexists; simpl;
    apply f_equal; apply f_equal2; [apply f_equal2 | | apply f_equal2 |];
    try reflexivity; lia.
Qed.

Lemma scanInput_loop (ins : list TransactionInput) :
  forall (suspiciousCount totalP2WSH : nat) (details : list SuspiciousInput),
  exists details',
    forEach ins P2WSHFakeMultisigDetector.scanInput
      (suspiciousCount, totalP2WSH, details)
    = Done (suspiciousCount + length (filter suspiciousInput ins),
            totalP2WSH + length (filter inPopulation ins),
            details').
Proof.
  induction ins as [| input rest IH]; intros s t d.
  - exists d. simpl. repeat f_equal; lia.
  - cbn [forEach].
    destruct (scanInput_spec input s t d) as (d1 & Hstep). rewrite Hstep.
    cbn [bind].
    destruct (IH (s + countIf (suspiciousInput input))
                 (t + countIf (inPopulation input)) d1) as (d2 & Hrest).
    exists d2. rewrite Hrest. cbn [filter].
    destruct (suspiciousInput input), (inPopulation input); simpl;
      apply f_equal; apply f_equal2; [apply f_equal2 | | apply f_equal2 |
                                      | apply f_equal2 | | apply f_equal2 |];
      try reflexivity; lia.
Qed.

Lemma suspicious_le_population (tx : ParsedTransaction) :
  suspiciousInputCount tx <= totalP2WSHInputCount tx.
Proof.
  unfold suspiciousInputCount, totalP2WSHInputCount.
  induction (inputs tx) as [| input rest IH]; [simpl; lia |].
  cbn [filter]. unfold suspiciousInput at 1.
  destruct (inPopulation input); cbn [andb].
  - destruct (scriptSuspicious (lastWitnessItem input)); simpl; lia.
  - exact IH.
Qed.

Lemma p2wsh_detect_spec (tx : ParsedTransaction) :
  exists r,
    P2WSHFakeMultisigDetector.detect tx = Done r
    /\ detected r = (0 <? suspiciousInputCount tx)
    /\ confidence r = (if 0 <? suspiciousInputCount tx
                       then ratioConfidence tx else 0%Q).
Proof.
  unfold P2WSHFakeMultisigDetector.detect.
  destruct (scanInput_loop (inputs tx) 0 0 []) as (d & Hloop).
  rewrite Hloop. cbn [bind Nat.add].
  fold (suspiciousInputCount tx). fold (totalP2WSHInputCount tx).
  pose proof (suspicious_le_population tx) as Hle.
  destruct (suspiciousInputCount tx) as [| s] eqn:Es.
  - eexists. split; [reflexivity |]. split; reflexivity.
  - cbn [Nat.eqb]. eexists. split; [reflexivity |].
    cbn [detected confidence]. split; [reflexivity |].
    unfold ratioConfidence. rewrite Es.
    destruct (totalP2WSHInputCount tx) as [| t]; [lia |]. reflexivity.
Qed.

Lemma ratioConfidence_exact (tx : ParsedTransaction) :
  (ratioConfidence tx
   == inject_Z (100 * Z.of_nat (suspiciousInputCount tx))
      / inject_Z (Z.of_nat (totalP2WSHInputCount tx)))%Q.
Proof.
  unfold ratioConfidence, numberOfNat. rewrite inject_Z_mult.
  unfold Qdiv. ring.
Qed.

Lemma ratioConfidence_floor (tx : ParsedTransaction) :
  Qfloor (ratioConfidence tx)
  = (100 * Z.of_nat (suspiciousInputCount tx)
     / Z.of_nat (totalP2WSHInputCount tx))%Z.
Proof. rewrite Zdiv_Qdiv. apply Qfloor_comp. apply ratioConfidence_exact. Qed.

Lemma ratioConfidence_range (tx : ParsedTransaction) :
  0 < totalP2WSHInputCount tx ->
  (0 <= ratioConfidence tx <= 100)%Q.
Proof.
  intros Hpos. pose proof (suspicious_le_population tx) as Hle.
  unfold ratioConfidence, numberOfNat.
  assert (Ht : (0 < inject_Z (Z.of_nat (totalP2WSHInputCount tx)))%Q).
  { rewrite <- (Zlt_Qlt 0). lia. }
  assert (Hs : (0 <= inject_Z (Z.of_nat (suspiciousInputCount tx)))%Q).
  { rewrite <- (Zle_Qle 0). lia. }
  assert (Hst : (inject_Z (Z.of_nat (suspiciousInputCount tx))
                 <= inject_Z (Z.of_nat (totalP2WSHInputCount tx)))%Q).
  { rewrite <- Zle_Qle. lia. }
  split.
  - apply Qmult_le_0_compat; [| discriminate].
    apply Qle_shift_div_l; [exact Ht |]. rewrite Qmult_0_l. exact Hs.
  - setoid_replace 100%Q with (1 * 100)%Q at 2 by ring.
    apply Qmult_le_compat_r; [| discriminate].
    apply Qle_shift_div_r; [exact Ht |]. rewrite Qmult_1_l. exact Hst.
Qed.

Lemma p2wsh_detect_range (tx : ParsedTransaction) :
  exists r, P2WSHFakeMultisigDetector.detect tx = Done r /\ inRange r.
Proof.
  destruct (p2wsh_detect_spec tx) as (r & Hr & _ & Hc).
  exists r. split; [exact Hr |]. unfold inRange. rewrite Hc.
  destruct (Nat.ltb_spec 0 (suspiciousInputCount tx)) as [Hpos | _].
  - apply ratioConfidence_range. pose proof (suspicious_le_population tx). lia.
  - split; discriminate.
Qed.

(** ** The chained-OP_RETURN detector *)

Lemma isNulldata_tag (out : TransactionOutput) :
  ChainedOpReturnDetector.isNulldata out = true
  <-> scriptPubKeyType out = Some "nulldata"%string.
Proof.
  unfold ChainedOpReturnDetector.isNulldata.
  destruct (scriptPubKeyType out) as [t |].
  - rewrite String.eqb_eq. split; [intros -> | intros [= ->]]; reflexivity.
  - split; discriminate.
Qed.

Lemma sameToDetector_view (outs outs' : list TransactionOutput) :
  Forall2 sameToDetector outs outs' ->
  filter ChainedOpReturnDetector.isNulldata outs
  = filter ChainedOpReturnDetector.isNulldata outs'
  /\ length outs = length outs'
  /\ existsb smallValue outs = existsb smallValue outs'.
Proof.
  induction 1 as [| a b rest rest' (Hv & Ht & Hs) _ (IHf & IHl & IHe)].
  - repeat split.
  - cbn [filter length existsb]. unfold smallValue at 1 3.
    rewrite Hv, IHl, IHe. split; [| split; reflexivity].
    assert (Htag : ChainedOpReturnDetector.isNulldata a
                   = ChainedOpReturnDetector.isNulldata b).
    { unfold ChainedOpReturnDetector.isNulldata. rewrite Ht. reflexivity. }
    rewrite <- Htag.
    destruct (ChainedOpReturnDetector.isNulldata a) eqn:Ea; [| exact IHf].
    rewrite IHf. f_equal.
    destruct a as [va sa ta], b as [vb sb tb]. cbn in Hv, Ht, Hs.
    rewrite Hv, Ht, (Hs eq_refl). reflexivity.
Qed.

Lemma startsWithMagic_spec (data : Buffer) :
  ChainedOpReturnDetector.startsWithMagic data = Done (magicPayload data).
Proof.
  unfold ChainedOpReturnDetector.startsWithMagic, magicPayload.
  destruct data as [| a [| b rest]]; try reflexivity.
  cbn [length Nat.leb andThen]. unfold byteAt, itemAt. cbn [nth_error bind].
  destruct (Byte.eqb a x01); reflexivity.
Qed.

Lemma scanOutput_step (before : list TransactionOutput) (out : TransactionOutput)
    (after : list TransactionOutput) (st : bool * ChainDetails) :
  ChainedOpReturnDetector.scanOutput (before ++ out :: after) (length before) st
  = Done (scanPure out st).
Proof.
  unfold ChainedOpReturnDetector.scanOutput, scanPure.
  destruct st as [m d]. rewrite itemAt_app_here. cbn [bind snd].
  rewrite extractOpReturnData_spec. cbn [bind].
  destruct (payloadAfterHeader (scriptPubKey out)) as [data |]; [| reflexivity].
  rewrite startsWithMagic_spec. cbn [bind].
  destruct (magicPayload data) eqn:Hmagic; [| reflexivity].
  destruct data as [| a [| b [| c [| e rest]]]]; try reflexivity.
Qed.

Lemma scanOutput_loop (suffix : list TransactionOutput) :
  forall (before : list TransactionOutput) (st : bool * ChainDetails),
    forUpTo (length suffix) (length before)
      (ChainedOpReturnDetector.scanOutput (before ++ suffix)) st
    = Done (fold_left (fun st out => scanPure out st) suffix st).
Proof.
  induction suffix as [| out rest IH]; intros before st; [reflexivity |].
  cbn [length forUpTo fold_left].
  rewrite scanOutput_step. cbn [bind].
  rewrite (app_cons_shift before out rest), <- (length_snoc before out).
  apply IH.
Qed.

(** What the loop leaves in its state. *)
Lemma scan_fold (outs : list TransactionOutput) :
  forall (m : bool) (d : ChainDetails),
    let st := fold_left (fun st out => scanPure out st) outs (m, d) in
    fst st = m || existsb magicPayload (payloadsOf outs)
    /\ magicPrefix (snd st) = magicPrefix d || existsb magicPayload (payloadsOf outs)
    /\ chunkIndex (snd st)
       = match lastChunk (payloadsOf outs) with
         | Some (index, _) => Some index
         | None => chunkIndex d
         end
    /\ totalChunks (snd st)
       = match lastChunk (payloadsOf outs) with
         | Some (_, total) => Some total
         | None => totalChunks d
         end
    /\ hasContinuationOutput (snd st) = hasContinuationOutput d.
Proof.
  induction outs as [| out rest IH]; intros m d; cbn zeta.
  - cbn [fold_left payloadsOf existsb lastChunk fst snd].
    rewrite !orb_false_r. repeat split; reflexivity.
  - cbn [fold_left payloadsOf].
    remember (scanPure out (m, d)) as st1 eqn:Hst1.
    unfold scanPure in Hst1. cbn [snd] in Hst1.
    destruct st1 as [m1 d1]. specialize (IH m1 d1). cbn zeta in IH.
    destruct IH as (H1 & H2 & H3 & H4 & H5).
    rewrite H1, H2, H3, H4, H5. clear H1 H2 H3 H4 H5.
    destruct (payloadAfterHeader (scriptPubKey out)) as [data |].
    2:{ injection Hst1 as -> ->. repeat split; reflexivity. }
    cbn [existsb lastChunk].
    destruct (magicPayload data) eqn:Hmagic.
    2:{ injection Hst1 as -> ->. cbn [orb].
        destruct (lastChunk (payloadsOf rest)) as [[i t] |];
          repeat split; reflexivity. }
    destruct (chunkOf data) as [[index total] |] eqn:Hchunk;
      injection Hst1 as -> ->;
      cbn [orb magicPrefix chunkIndex totalChunks hasContinuationOutput
           ChainedOpReturnDetector.setChunk ChainedOpReturnDetector.setMagicPrefix];
      rewrite ?orb_true_r;
      destruct (lastChunk (payloadsOf rest)) as [[i t] |];
      repeat split; reflexivity.
Qed.

Lemma payloadLength_sizes (outs : list TransactionOutput) :
  exists sizes,
    mapM ChainedOpReturnDetector.payloadLength outs = Done sizes
    /\ mathMax sizes = mathMax (map (@length byte) (payloadsOf outs)).
Proof.
  induction outs as [| out rest (sizes & Hrun & Hmax)].
  - exists []. split; reflexivity.
  - cbn [mapM payloadsOf]. unfold ChainedOpReturnDetector.payloadLength at 1.
    rewrite extractOpReturnData_spec. cbn [bind]. rewrite Hrun. cbn [bind].
    eexists. split; [reflexivity |].
    destruct (payloadAfterHeader (scriptPubKey out)) as [data |];
      cbn [map mathMax fold_right]; fold (mathMax sizes);
      fold (mathMax (map (@length byte) (payloadsOf rest))); rewrite Hmax;
      [reflexivity | apply Nat.max_0_l].
Qed.

Lemma opreturn_detect_none (tx : ParsedTransaction) :
  collected tx = [] ->
  exists r,
    ChainedOpReturnDetector.detect tx = Done r
    /\ detected r = false /\ confidence r = 0%Q.
Proof.
  intros Hnone. unfold ChainedOpReturnDetector.detect.
  fold (collected tx). rewrite Hnone. cbn [length Nat.eqb].
  eexists. split; [reflexivity |]. split; reflexivity.
Qed.

Lemma opreturn_detect_some (tx : ParsedTransaction) :
  collected tx <> [] ->
  exists r,
    ChainedOpReturnDetector.detect tx = Done r
    /\ (hasMagic tx = true ->
        detected r = true /\ confidence r = 95%Q
        /\ exists d, details r = Some (OpReturnDetails d)
                     /\ magicPrefix d = true
                     /\ recordedChunk d = lastChunk (payloads tx)
                     /\ hasContinuationOutput d = continuationPattern tx)
    /\ (hasMagic tx = false -> continuationPattern tx = true ->
        detected r = true /\ confidence r = 60%Q)
    /\ (hasMagic tx = false -> continuationPattern tx = false ->
        80 < largestPayload tx ->
        detected r = true /\ confidence r = 40%Q)
    /\ (hasMagic tx = false -> continuationPattern tx = false ->
        largestPayload tx <= 80 ->
        detected r = false /\ confidence r = 0%Q).
Proof.
  intros Hsome. unfold ChainedOpReturnDetector.detect.
  fold (collected tx).
  assert (Hlen : 0 < length (collected tx)).
  { destruct (collected tx); [contradiction | simpl; lia]. }
  destruct (length (collected tx) =? 0) eqn:E0; [apply Nat.eqb_eq in E0; lia |].
  pose proof (scanOutput_loop (collected tx) [] (false, ChainedOpReturnDetector.noDetails))
    as Hloop.
  cbn [app length] in Hloop. rewrite Hloop. cbn [bind].
  pose proof (scan_fold (collected tx) false ChainedOpReturnDetector.noDetails) as Hfold.
  cbn zeta in Hfold.
  destruct (fold_left (fun st out => scanPure out st) (collected tx)
              (false, ChainedOpReturnDetector.noDetails)) as [m d].
  cbn [fst snd orb magicPrefix chunkIndex totalChunks hasContinuationOutput
       ChainedOpReturnDetector.noDetails] in Hfold.
  destruct Hfold as (Hm & Hmp & Hci & Htc & Hco).
  fold (payloads tx) in Hm, Hmp, Hci, Htc. fold (hasMagic tx) in Hm, Hmp.
  apply Nat.ltb_lt in Hlen. rewrite Hlen, andb_true_r.
  fold smallValue. fold (continuationPattern tx).
  destruct (payloadLength_sizes (collected tx)) as (sizes & Hsizes & Hmax).
  fold (payloads tx) in Hmax. fold (largestPayload tx) in Hmax.
  subst m.
  destruct (hasMagic tx) eqn:Hmagic.
  - destruct (continuationPattern tx) eqn:Hcont; cbn [orb];
      (eexists; split; [reflexivity |]; cbn [detected confidence details];
       repeat split; try discriminate; try reflexivity;
       eexists; split; [reflexivity |];
       unfold recordedChunk;
       cbn [magicPrefix chunkIndex totalChunks hasContinuationOutput
            ChainedOpReturnDetector.setHasContinuationOutput];
       rewrite ?Hmp, ?Hci, ?Htc, ?Hco;
       destruct (lastChunk (payloads tx)) as [[i t] |]; repeat split; reflexivity).
  - destruct (continuationPattern tx) eqn:Hcont; cbn [orb].
    + eexists. split; [reflexivity |]. cbn [detected confidence details].
      repeat split; try discriminate; reflexivity.
    + rewrite Hsizes. cbn [bind]. rewrite Hmax.
      destruct (Nat.ltb_spec 80 (largestPayload tx)) as [Hbig | Hsmall].
      * eexists. split; [reflexivity |]. cbn [detected confidence details].
        repeat split; try discriminate; try reflexivity; intros; lia.
      * eexists. split; [reflexivity |].
        unfold ChainedOpReturnDetector.noPattern. cbn [detected confidence details].
        repeat split; try discriminate; try reflexivity; intros; lia.
Qed.

Lemma opreturn_detect_total (tx : ParsedTransaction) :
  exists r, ChainedOpReturnDetector.detect tx = Done r.
Proof.
  destruct (collected tx) as [| out rest] eqn:Hc.
  - destruct (opreturn_detect_none tx Hc) as (r & Hr & _). exists r. exact Hr.
  - destruct (opreturn_detect_some tx) as (r & Hr & _).
    + rewrite Hc. discriminate.
    + exists r. exact Hr.
Qed.

Lemma opreturn_detect_range (tx : ParsedTransaction) :
  exists r, ChainedOpReturnDetector.detect tx = Done r /\ inRange r.
Proof.
  unfold inRange.
  destruct (collected tx) as [| out rest] eqn:Hc.
  - destruct (opreturn_detect_none tx Hc) as (r & Hr & _ & Hconf).
    exists r. split; [exact Hr |]. rewrite Hconf. split; discriminate.
  - destruct (opreturn_detect_some tx) as (r & Hr & Hmagic & Hchain & Hbig & Hnone).
    { rewrite Hc. discriminate. }
    exists r. split; [exact Hr |].
    destruct (hasMagic tx).
    { destruct (Hmagic eq_refl) as (_ & -> & _). split; discriminate. }
    destruct (continuationPattern tx).
    { destruct (Hchain eq_refl eq_refl) as (_ & ->). split; discriminate. }
    destruct (Nat.lt_ge_cases 80 (largestPayload tx)) as [Hlt | Hle].
    + destruct (Hbig eq_refl eq_refl Hlt) as (_ & ->). split; discriminate.
    + destruct (Hnone eq_refl eq_refl Hle) as (_ & ->). split; discriminate.
Qed.

(** ** The filter engine *)

Lemma runFilter_loop (tx : ParsedTransaction) (filters : list FilterFunction) :
  forall (detections : list DetectionResult) (totalScore : number)
         (st : list DetectionResult * number),
    forEach filters (runFilter tx) (detections, totalScore) = Done st ->
    fst st = detections ++ flat_map (callbackDetections tx) filters
    /\ (snd st == totalScore + sumScores (map (callbackScore tx) filters))%Q
    /\ forall filter, In filter filters -> exists result, filter tx = Done result.
Proof.
  induction filters as [| filter rest IH]; intros ds total st Hrun.
  - injection Hrun as <-. cbn [fst snd flat_map map sumScores fold_right].
    rewrite app_nil_r. repeat split; [ring | intros f []].
  - cbn [forEach] in Hrun. apply bind_Done in Hrun.
    destruct Hrun as ([ds1 total1] & Hstep & Hrest).
    unfold runFilter in Hstep. apply bind_Done in Hstep.
    destruct Hstep as (result & Hcall & Hstep).
    apply IH in Hrest. destruct Hrest as (Hds & Htotal & Hall).
    cbn [flat_map map sumScores fold_right]. fold (sumScores (map (callbackScore tx) rest)).
    unfold callbackDetections at 1, callbackScore at 1. rewrite Hcall.
    destruct (accept result); cbn [negb] in Hstep; injection Hstep as <- <-.
    + repeat split.
      * exact Hds.
      * rewrite Htotal. ring.
      * intros f [<- | Hin]; [exists result; exact Hcall | apply Hall; exact Hin].
    + repeat split.
      * rewrite Hds, <- app_assoc. reflexivity.
      * rewrite Htotal. ring.
      * intros f [<- | Hin]; [exists result; exact Hcall | apply Hall; exact Hin].
Qed.

Lemma runFilter_total (tx : ParsedTransaction) (filters : list FilterFunction) :
  (forall filter, In filter filters -> exists result, filter tx = Done result) ->
  forall st, exists st', forEach filters (runFilter tx) st = Done st'.
Proof.
  induction filters as [| filter rest IH]; intros Hall st.
  - exists st. reflexivity.
  - cbn [forEach]. destruct (Hall filter (or_introl eq_refl)) as (result & Hcall).
    unfold runFilter at 1. destruct st as [ds total]. rewrite Hcall. cbn [bind].
    destruct (negb (accept result)); cbn [bind];
      apply IH; intros f Hin; apply Hall; right; exact Hin.
Qed.

Lemma accumulate_spec (enabled : bool) (d : DetectionResult)
    (detections : list DetectionResult) (totalScore : number) :
  (if enabled then accumulate d (detections, totalScore) else (detections, totalScore))
  = (detections ++ detectorDetections enabled (Done d),
     if enabled && detected d then (totalScore + confidence d)%Q else totalScore).
Proof.
  unfold accumulate, detectorDetections.
  destruct enabled; cbn [andb]; [| rewrite app_nil_r; reflexivity].
  destruct (detected d); [reflexivity | rewrite app_nil_r; reflexivity].
Qed.

Lemma lt_iff_not_geb (x y : number) : negb (geb x y) = true <-> (x < y)%Q.
Proof.
  unfold geb. rewrite negb_true_iff. split.
  - intros Hb. apply Qnot_le_lt. intros Hle.
    apply Qle_bool_iff in Hle. congruence.
  - intros Hlt. destruct (Qle_bool y x) eqn:E; [| reflexivity].
    apply Qle_bool_iff in E. exfalso. exact (Qlt_not_le _ _ Hlt E).
Qed.

Lemma detectorDetections_range (enabled : bool) (r : DetectionResult) :
  inRange r -> Forall inRange (detectorDetections enabled (Done r)).
Proof.
  intros Hr. unfold detectorDetections.
  destruct (enabled && detected r); constructor; [exact Hr | constructor].
Qed.

(** The engine, step by step, for a transaction on which it returns. *)
Lemma evaluateTransaction_spec (this : FilterEngine) (tx : ParsedTransaction)
    (v : FilterResult) :
  evaluateTransaction this tx = Done v ->
  (accept v = true <-> (score v < threshold (config this))%Q)
  /\ (score v == expectedScore this tx)%Q
  /\ detections v = expectedDetections this tx
  /\ callbacksReturn this tx.
Proof.
  unfold evaluateTransaction, expectedScore, expectedDetections, callbacksReturn.
  destruct (p2wsh_detect_spec tx) as (p & Hp & _).
  destruct (opreturn_detect_total tx) as (o & Ho).
  rewrite Hp, Ho. intros Hrun. cbn [bind] in Hrun.
  rewrite if_Done in Hrun. cbn [bind] in Hrun.
  rewrite accumulate_spec in Hrun. cbn [app] in Hrun.
  rewrite if_Done in Hrun. rewrite accumulate_spec in Hrun. cbn [bind] in Hrun.
  apply bind_Done in Hrun. destruct Hrun as ([ds total] & Hloop & Hv).
  apply runFilter_loop in Hloop. cbn [fst snd] in Hloop.
  destruct Hloop as (Hds & Htotal & Hall).
  injection Hv as <-. cbn [accept score detections].
  split; [apply lt_iff_not_geb |].
  split.
  - rewrite Htotal. unfold detectorScore.
    destruct (enableP2WSHDetection (config this) && detected p),
             (enableOpReturnDetection (config this) && detected o); ring.
  - split; [| exact Hall].
    rewrite Hds, <- app_assoc. reflexivity.
Qed.

Lemma evaluateTransaction_total (this : FilterEngine) (tx : ParsedTransaction) :
  callbacksReturn this tx -> exists v, evaluateTransaction this tx = Done v.
Proof.
  intros Hall. unfold evaluateTransaction.
  destruct (p2wsh_detect_spec tx) as (p & Hp & _).
  destruct (opreturn_detect_total tx) as (o & Ho).
  rewrite Hp, Ho.
  destruct (enableP2WSHDetection (config this)),
           (enableOpReturnDetection (config this)); cbn [bind];
    match goal with
    | |- context [forEach _ _ ?s] =>
        destruct (runFilter_total tx (jsFilters this) Hall s) as ([ds total] & Hloop)
    end;
    rewrite Hloop; cbn [bind]; eexists; reflexivity.
Qed.

(** ** What the chained-OP_RETURN detector reports, and about which outputs *)

Lemma payloadsOf_In (outs : list TransactionOutput) (data : Buffer) :
  In data (payloadsOf outs)
  <-> exists out, In out outs /\ payloadAfterHeader (scriptPubKey out) = Some data.
Proof.
  induction outs as [| out rest IH]; cbn [payloadsOf].
  - split; [intros [] | intros (o & [] & _)].
  - destruct (payloadAfterHeader (scriptPubKey out)) as [d |] eqn:Hd.
    + cbn [In]. rewrite IH. split.
      * intros [<- | (o & Hin & Ho)].
        -- exists out. split; [left; reflexivity | exact Hd].
        -- exists o. split; [right; exact Hin | exact Ho].
      * intros (o & [<- | Hin] & Ho).
        -- left. congruence.
        -- right. exists o. split; assumption.
    + rewrite IH. split.
      * intros (o & Hin & Ho). exists o. split; [right; exact Hin | exact Ho].
      * intros (o & [<- | Hin] & Ho); [congruence |].
        exists o. split; assumption.
Qed.

Lemma opreturn_detect_verdict (tx : ParsedTransaction) :
  exists r,
    ChainedOpReturnDetector.detect tx = Done r
    /\ (detected r, confidence r) = opReturnVerdict tx.
Proof.
  unfold opReturnVerdict.
  destruct (collected tx) as [| out rest] eqn:Hc.
  - destruct (opreturn_detect_none tx Hc) as (r & Hr & Hd & Hconf).
    exists r. split; [exact Hr |]. rewrite Hd, Hconf. reflexivity.
  - destruct (opreturn_detect_some tx) as (r & Hr & Hmagic & Hchain & Hbig & Hnone).
    { rewrite Hc. discriminate. }
    exists r. split; [exact Hr |]. cbn [length Nat.eqb].
    destruct (hasMagic tx).
    { destruct (Hmagic eq_refl) as (-> & -> & _). reflexivity. }
    destruct (continuationPattern tx).
    { destruct (Hchain eq_refl eq_refl) as (-> & ->). reflexivity. }
    destruct (Nat.ltb_spec 80 (largestPayload tx)) as [Hlt | Hle].
    + destruct (Hbig eq_refl eq_refl Hlt) as (-> & ->). reflexivity.
    + destruct (Hnone eq_refl eq_refl Hle) as (-> & ->). reflexivity.
Qed.

Lemma opreturn_detect_reason (tx : ParsedTransaction) :
  exists r,
    ChainedOpReturnDetector.detect tx = Done r
    /\ (reason r = Literal "No OP_RETURN outputs found" <-> collected tx = []).
Proof.
  unfold ChainedOpReturnDetector.detect. fold (collected tx).
  destruct (collected tx) as [| out rest] eqn:Hc.
  - eexists. split; [reflexivity |]. split; reflexivity.
  - rewrite <- Hc.
    assert (Hlen : (length (collected tx) =? 0) = false)
      by (rewrite Hc; reflexivity).
    rewrite Hlen.
    pose proof (scanOutput_loop (collected tx) []
                  (false, ChainedOpReturnDetector.noDetails)) as Hloop.
    cbn [app length] in Hloop. rewrite Hloop. cbn [bind].
    destruct (fold_left (fun st out => scanPure out st) (collected tx)
                (false, ChainedOpReturnDetector.noDetails)) as [m d].
    destruct (payloadLength_sizes (collected tx)) as (sizes & Hsizes & _).
    rewrite Hsizes. cbn [bind]. rewrite Hc.
    repeat match goal with
           | |- context [if ?c then _ else _] => destruct c
           end;
      eexists; (split; [reflexivity |]); cbn [reason];
      split; discriminate.
Qed.

Lemma collected_tagged (tx : ParsedTransaction) (out : TransactionOutput) :
  In out (collected tx)
  <-> In out (outputs tx) /\ scriptPubKeyType out = Some "nulldata"%string.
Proof. unfold collected. rewrite filter_In, isNulldata_tag. reflexivity. Qed.

Lemma hasMagic_tagged (tx : ParsedTransaction) :
  hasMagic tx = true
  <-> exists out data,
        In out (outputs tx)
        /\ scriptPubKeyType out = Some "nulldata"%string
        /\ payloadAfterHeader (scriptPubKey out) = Some data
        /\ magicPayload data = true.
Proof.
  unfold hasMagic, payloads. rewrite existsb_exists. split.
  - intros (data & Hin & Hm). apply payloadsOf_In in Hin.
    destruct Hin as (out & Hout & Hdata). apply collected_tagged in Hout.
    destruct Hout as [Hout Htag]. exists out, data. repeat split; assumption.
  - intros (out & data & Hout & Htag & Hdata & Hm).
    exists data. split; [| exact Hm]. apply payloadsOf_In.
    exists out. split; [| exact Hdata]. apply collected_tagged. split; assumption.
Qed.

(** ** The engine over doubles *)

Lemma SFcompare_swap (a b : spec_float) :
  SFcompare b a = option_map CompOpp (SFcompare a b).
Proof.
  destruct a as [sa | sa | | sa ma ea], b as [sb | sb | | sb mb eb]; cbn;
    try reflexivity;
    try (destruct sa; reflexivity); try (destruct sb; reflexivity);
    try (destruct sa, sb; reflexivity).
  destruct sa, sb; try reflexivity;
    rewrite (Z.compare_antisym ea eb);
    destruct (ea ?= eb)%Z eqn:E; cbn; try reflexivity;
    rewrite (Pos.compare_cont_antisym ma mb Eq); reflexivity.
Qed.

Lemma not_nan_compared (x : float) :
  is_nan x = false -> Prim2SF x <> S754_nan.
Proof.
  unfold is_nan. rewrite FloatAxioms.eqb_spec. intros H Hn. rewrite Hn in H. discriminate H.
Qed.

(** [x < y] is [!(x >= y)] unless one of them is [NaN]. *)
Lemma ltb_not_geb (x y : float) :
  is_nan x = false -> is_nan y = false ->
  (x <? y)%float = negb (y <=? x)%float.
Proof.
  intros Hx Hy. apply not_nan_compared in Hx, Hy.
  rewrite FloatAxioms.ltb_spec, FloatAxioms.leb_spec. unfold SFltb, SFleb.
  rewrite (SFcompare_swap (Prim2SF x) (Prim2SF y)).
  destruct (SFcompare (Prim2SF x) (Prim2SF y)) as [[| |] |] eqn:E; try reflexivity.
  exfalso.
  destruct (Prim2SF x) as [sa | sa | | sa ma ea], (Prim2SF y) as [sb | sb | | sb mb eb];
    try discriminate E; contradiction.
Qed.

Lemma nan_compares_false (x y : float) :
  is_nan x = true \/ is_nan y = true ->
  (x <? y)%float = false /\ (y <=? x)%float = false.
Proof.
  assert (Hnan : forall z, is_nan z = true -> Prim2SF z = S754_nan).
  { intros z. unfold is_nan. rewrite FloatAxioms.eqb_spec. unfold SFeqb.
    destruct (Prim2SF z) as [s | s | | s m e]; cbn; try discriminate; try reflexivity.
    - destruct s; discriminate.
    - destruct s; rewrite Z.compare_refl, Pos.compare_cont_refl; discriminate. }
  rewrite FloatAxioms.ltb_spec, FloatAxioms.leb_spec. unfold SFltb, SFleb.
  intros [H | H]; apply Hnan in H; rewrite H.
  - split; [reflexivity |]. destruct (Prim2SF y); reflexivity.
  - split; [| reflexivity]. destruct (Prim2SF x); reflexivity.
Qed.

Lemma double_p2wsh_detect_spec (tx : ParsedTransaction) :
  exists r,
    Double.P2WSHFakeMultisigDetector.detect tx = Done r
    /\ Double.detected r = (0 <? suspiciousInputCount tx)
    /\ Double.confidence r
       = (if 0 <? suspiciousInputCount tx
          then doubleRatio (suspiciousInputCount tx) (totalP2WSHInputCount tx)
          else 0%float)
    /\ Double.reason r
       = (if 0 <? suspiciousInputCount tx
          then Double.DetectedP2WSH (suspiciousInputCount tx)
          else Double.Literal "No suspicious P2WSH patterns found").
Proof.
  unfold Double.P2WSHFakeMultisigDetector.detect.
  destruct (scanInput_loop (inputs tx) 0 0 []) as (details & Hloop).
  rewrite Hloop. cbn [bind Nat.add].
  fold (suspiciousInputCount tx). fold (totalP2WSHInputCount tx).
  pose proof (suspicious_le_population tx) as Hle.
  destruct (suspiciousInputCount tx) as [| s] eqn:Es.
  - eexists. split; [reflexivity |]. repeat split.
  - cbn [Nat.eqb].
    destruct (totalP2WSHInputCount tx) as [| t]; [lia |].
    eexists. split; [reflexivity |]. repeat split.
Qed.

Lemma double_opreturn_detect_total (tx : ParsedTransaction) :
  exists r, Double.ChainedOpReturnDetector.detect tx = Done r.
Proof.
  unfold Double.ChainedOpReturnDetector.detect.
  fold (collected tx).
  destruct (length (collected tx) =? 0); [eexists; reflexivity |].
  pose proof (scanOutput_loop (collected tx) [] (false, ChainedOpReturnDetector.noDetails))
    as Hloop.
  cbn [app length] in Hloop. rewrite Hloop. cbn [bind].
  destruct (fold_left (fun st out => scanPure out st) (collected tx)
              (false, ChainedOpReturnDetector.noDetails)) as [m d].
  destruct (payloadLength_sizes (collected tx)) as (sizes & Hsizes & _).
  rewrite Hsizes. cbn [bind].
  repeat match goal with
         | |- context [if ?c then _ else _] => destruct c
         end; eexists; reflexivity.
Qed.

Lemma double_accumulate_spec (enabled : bool) (d : Double.DetectionResult)
    (detections : list Double.DetectionResult) (totalScore : float) :
  (if enabled then Double.accumulate d (detections, totalScore)
   else (detections, totalScore))
  = (detections ++ detectorEntry enabled (Done d),
     fold_left PrimFloat.add (detectorAddend enabled (Done d)) totalScore).
Proof.
  unfold Double.accumulate, detectorEntry, detectorAddend.
  destruct enabled; cbn [andb fold_left]; [| rewrite app_nil_r; reflexivity].
  destruct (Double.detected d); cbn [fold_left];
    [reflexivity | rewrite app_nil_r; reflexivity].
Qed.

Lemma double_runFilter_loop (tx : ParsedTransaction)
    (filters : list Double.FilterFunction) :
  forall (detections : list Double.DetectionResult) (totalScore : float)
         (st : list Double.DetectionResult * float),
    forEach filters (Double.runFilter tx) (detections, totalScore) = Done st ->
    fst st = detections ++ flat_map (callbackEntry tx) filters
    /\ snd st = fold_left PrimFloat.add (flat_map (callbackAddend tx) filters) totalScore
    /\ forall filter, In filter filters -> exists result, filter tx = Done result.
Proof.
  induction filters as [| filter rest IH]; intros ds total st Hrun.
  - injection Hrun as <-. cbn [fst snd flat_map fold_left].
    rewrite app_nil_r. repeat split. intros f [].
  - cbn [forEach] in Hrun. apply bind_Done in Hrun.
    destruct Hrun as ([ds1 total1] & Hstep & Hrest).
    unfold Double.runFilter in Hstep. apply bind_Done in Hstep.
    destruct Hstep as (result & Hcall & Hstep).
    apply IH in Hrest. destruct Hrest as (Hds & Htotal & Hall).
    cbn [flat_map]. unfold callbackEntry at 1, callbackAddend at 1. rewrite Hcall.
    destruct (Double.accept result); cbn [negb] in Hstep; injection Hstep as <- <-.
    + repeat split.
      * exact Hds.
      * exact Htotal.
      * intros f [<- | Hin]; [exists result; exact Hcall | apply Hall; exact Hin].
    + repeat split.
      * rewrite Hds, <- app_assoc. reflexivity.
      * rewrite Htotal. reflexivity.
      * intros f [<- | Hin]; [exists result; exact Hcall | apply Hall; exact Hin].
Qed.

Lemma double_runFilter_total (tx : ParsedTransaction)
    (filters : list Double.FilterFunction) :
  (forall filter, In filter filters -> exists result, filter tx = Done result) ->
  forall st, exists st', forEach filters (Double.runFilter tx) st = Done st'.
Proof.
  induction filters as [| filter rest IH]; intros Hall st.
  - exists st. reflexivity.
  - cbn [forEach]. destruct (Hall filter (or_introl eq_refl)) as (result & Hcall).
    unfold Double.runFilter at 1. destruct st as [ds total]. rewrite Hcall. cbn [bind].
    destruct (negb (Double.accept result)); cbn [bind];
      apply IH; intros f Hin; apply Hall; right; exact Hin.
Qed.

Lemma double_evaluateTransaction_spec (this : Double.FilterEngine)
    (tx : ParsedTransaction) (v : Double.FilterResult) :
  Double.evaluateTransaction this tx = Done v ->
  Double.accept v
  = negb (Double.threshold (Double.config this) <=? Double.score v)%float
  /\ Double.score v = runningTotal (addends this tx)
  /\ Double.detections v = entries this tx
  /\ doubleCallbacksReturn this tx.
Proof.
  unfold Double.evaluateTransaction, addends, entries, doubleCallbacksReturn,
    runningTotal.
  destruct (double_p2wsh_detect_spec tx) as (p & Hp & _).
  destruct (double_opreturn_detect_total tx) as (o & Ho).
  rewrite Hp, Ho. intros Hrun. cbn [bind] in Hrun.
  rewrite if_Done in Hrun. cbn [bind] in Hrun.
  rewrite double_accumulate_spec in Hrun. cbn [app] in Hrun.
  rewrite if_Done in Hrun. rewrite double_accumulate_spec in Hrun. cbn [bind] in Hrun.
  apply bind_Done in Hrun. destruct Hrun as ([ds total] & Hloop & Hv).
  apply double_runFilter_loop in Hloop. cbn [fst snd] in Hloop.
  destruct Hloop as (Hds & Htotal & Hall).
  injection Hv as <-. cbn [Double.accept Double.score Double.detections].
  split; [reflexivity |]. split.
  - rewrite Htotal, !fold_left_app. reflexivity.
  - split; [| exact Hall]. rewrite Hds, <- app_assoc. reflexivity.
Qed.

Lemma double_evaluateTransaction_total (this : Double.FilterEngine)
    (tx : ParsedTransaction) :
  doubleCallbacksReturn this tx ->
  exists v, Double.evaluateTransaction this tx = Done v.
Proof.
  intros Hall. unfold Double.evaluateTransaction.
  destruct (double_p2wsh_detect_spec tx) as (p & Hp & _).
  destruct (double_opreturn_detect_total tx) as (o & Ho).
  rewrite Hp, Ho.
  destruct (Double.enableP2WSHDetection (Double.config this)),
           (Double.enableOpReturnDetection (Double.config this)); cbn [bind];
    match goal with
    | |- context [forEach _ _ ?s] =>
        destruct (double_runFilter_total tx (Double.jsFilters this) Hall s)
          as ([ds total] & Hloop)
    end;
    rewrite Hloop; cbn [bind]; eexists; reflexivity.
Qed.

(** The two embeddings of the detectors agree on everything but the type of
    the confidence: the same [detected], the same [details], and for the
    OP_RETURN detector the same constant. *)
Lemma embeddings_agree_on_detection (tx : ParsedTransaction) :
  (exists r r',
      P2WSHFakeMultisigDetector.detect tx = Done r
      /\ Double.P2WSHFakeMultisigDetector.detect tx = Done r'
      /\ Double.detected r' = detected r
      /\ Double.details r' = details r)
  /\ exists r r',
      ChainedOpReturnDetector.detect tx = Done r
      /\ Double.ChainedOpReturnDetector.detect tx = Done r'
      /\ Double.detected r' = detected r
      /\ Double.details r' = details r
      /\ ((confidence r = 0%Q /\ Double.confidence r' = 0%float)
          \/ (confidence r = 40%Q /\ Double.confidence r' = 40%float)
          \/ (confidence r = 60%Q /\ Double.confidence r' = 60%float)
          \/ (confidence r = 95%Q /\ Double.confidence r' = 95%float)).
Proof.
  split.
  - unfold P2WSHFakeMultisigDetector.detect, Double.P2WSHFakeMultisigDetector.detect.
    destruct (scanInput_loop (inputs tx) 0 0 []) as (found & ->). cbn [bind].
    destruct (0 + length (filter suspiciousInput (inputs tx)) =? 0);
      eexists; eexists; repeat split.
  - unfold ChainedOpReturnDetector.detect, Double.ChainedOpReturnDetector.detect.
    fold (collected tx).
    destruct (length (collected tx) =? 0).
    { eexists. eexists. split; [reflexivity |]. split; [reflexivity |].
      split; [reflexivity |]. split; [reflexivity |]. left. split; reflexivity. }
    pose proof (scanOutput_loop (collected tx) []
                  (false, ChainedOpReturnDetector.noDetails)) as Hloop.
    cbn [app length] in Hloop. rewrite Hloop. cbn [bind].
    destruct (fold_left (fun st out => scanPure out st) (collected tx)
                (false, ChainedOpReturnDetector.noDetails)) as [m d].
    destruct (payloadLength_sizes (collected tx)) as (sizes & Hsizes & _).
    rewrite Hsizes. cbn [bind].
    repeat match goal with
           | |- context [if ?c then _ else _] => destruct c
           end;
      eexists; eexists; (split; [reflexivity |]); (split; [reflexivity |]);
      (split; [reflexivity |]); (split; [reflexivity |]);
      cbn [confidence Double.confidence ChainedOpReturnDetector.noPattern
           Double.ChainedOpReturnDetector.noPattern];
      first [ left; split; reflexivity
            | right; left; split; reflexivity
            | right; right; left; split; reflexivity
            | right; right; right; split; reflexivity ].
Qed.

(** ** The repository's tests, run on the model *)

Example test1_p2wsh_spam :
  exists r,
    P2WSHFakeMultisigDetector.detect spamTx = Done r
    /\ detected r = true /\ (confidence r == 100)%Q
    /\ reason r = DetectedP2WSH 1.
Proof. eexists. split; [vm_compute; reflexivity |]. repeat split. Qed.

Example test2_chained_opreturn :
  exists r,
    ChainedOpReturnDetector.detect chainTx = Done r
    /\ detected r = true /\ confidence r = 95%Q.
Proof. eexists. split; [vm_compute; reflexivity |]. repeat split. Qed.

Example test3_normal_transaction :
  evaluateTransaction (newFilterEngine defaultConfig) normalTx
  = Done {| accept := true; score := 0%Q; detections := [];
            message := Accepted 0%Q 80%Q |}.
Proof. vm_compute. reflexivity. Qed.

Example test4_custom_filter :
  evaluateTransaction
    (addJSFilter
       (newFilterEngine {| threshold := 50%Q; enableP2WSHDetection := false;
                           enableOpReturnDetection := false |})
       largeWitnessFilter)
    spamTx
  = Done {| accept := true; score := 0%Q; detections := [];
            message := Accepted 0%Q 50%Q |}.
Proof. vm_compute. reflexivity. Qed.

Example test5_extract_magic_prefix :
  TransactionParser.extractOpReturnData
    [x6a; x26; x01; xbc; x00; x01; x48; x65; x6c; x6c; x6f]
  = Done (Some [x01; xbc; x00; x01; x48; x65; x6c; x6c; x6f]).
Proof. reflexivity. Qed.

(** The boundary cases of the suspicion rule, run on the model: three keys,
    all fake, are not suspicious; four are; eleven plain keys are. *)
Example three_fake_keys_are_not_suspicious :
  P2WSHFakeMultisigDetector.analyzeWitnessScript (multisigScript (repeat zeroKey 3))
  = Done {| isSuspicious := false; pubkeyCount := 3; fakePubkeyCount := 3;
            hasCheckmultisig := true; scriptSize := 105 |}.
Proof. vm_compute. reflexivity. Qed.

Example four_fake_keys_are_suspicious :
  P2WSHFakeMultisigDetector.analyzeWitnessScript (multisigScript (repeat zeroKey 4))
  = Done {| isSuspicious := true; pubkeyCount := 4; fakePubkeyCount := 4;
            hasCheckmultisig := true; scriptSize := 139 |}.
Proof. vm_compute. reflexivity. Qed.

Example eleven_plain_keys_are_suspicious :
  P2WSHFakeMultisigDetector.analyzeWitnessScript (multisigScript (repeat plainKey 11))
  = Done {| isSuspicious := true; pubkeyCount := 11; fakePubkeyCount := 0;
            hasCheckmultisig := true; scriptSize := 377 |}.
Proof. vm_compute. reflexivity. Qed.

(** * The claims *)

(** C1, as the code has it.  Whenever [evaluateTransaction] returns a
    verdict, [accept] is the negation of [totalScore >= threshold] on
    doubles.  That is [totalScore < threshold] whenever neither number is
    [NaN]; when one of them is, the verdict accepts.  The total score is the
    sum the code accumulates, one double addition per addend from [0]: the
    confidence of each enabled detector that detected something, then the
    score of each callback whose result has [accept = false], in
    registration order; a disabled detector, a detector that detects nothing
    and an accepting callback add nothing.  A verdict is returned for every
    transaction and configuration on which the callbacks return. *)
Theorem verdict_rejects_iff_score_reaches_threshold
    (this : Double.FilterEngine) (tx : ParsedTransaction) :
  (forall v,
      Double.evaluateTransaction this tx = Done v ->
      Double.accept v
      = negb (Double.threshold (Double.config this) <=? Double.score v)%float
      /\ (is_nan (Double.score v) = false ->
          is_nan (Double.threshold (Double.config this)) = false ->
          Double.accept v
          = (Double.score v <? Double.threshold (Double.config this))%float)
      /\ (is_nan (Double.score v) = true
          \/ is_nan (Double.threshold (Double.config this)) = true ->
          Double.accept v = true
          /\ (Double.score v <? Double.threshold (Double.config this))%float = false)
      /\ Double.score v = runningTotal (addends this tx))
  /\ (doubleCallbacksReturn this tx ->
      exists v, Double.evaluateTransaction this tx = Done v)
  /\ (forall r, detectorAddend false r = [])
  /\ (forall enabled d,
         Double.detected d = false -> detectorAddend enabled (Done d) = [])
  /\ (forall enabled d,
         Double.detected d = true ->
         detectorAddend enabled (Done d)
         = if enabled then [Double.confidence d] else [])
  /\ (forall filter result,
         filter tx = Done result ->
         callbackAddend tx filter
         = if Double.accept result then [] else [Double.score result]).
Proof.
  split; [| split; [| split; [| split; [| split]]]].
  - intros v Hv.
    destruct (double_evaluateTransaction_spec this tx v Hv) as (Ha & Hs & _).
    split; [exact Ha |]. split; [| split; [| exact Hs]].
    + intros Hscore Hthreshold. rewrite Ha. symmetry.
      apply ltb_not_geb; assumption.
    + intros Hnan. rewrite Ha.
      destruct (nan_compares_false (Double.score v)
                  (Double.threshold (Double.config this)) Hnan) as (Hlt & Hge).
      rewrite Hge, Hlt. split; reflexivity.
  - apply double_evaluateTransaction_total.
  - intros [d | f]; reflexivity.
  - intros enabled d Hd. unfold detectorAddend. rewrite Hd, andb_false_r. reflexivity.
  - intros enabled d Hd. unfold detectorAddend. rewrite Hd, andb_true_r. reflexivity.
  - intros filter result Hcall. unfold callbackAddend. rewrite Hcall. reflexivity.
Qed.

(** C1 as stated fails at a threshold that is [NaN] (what [parseFloat] makes
    of a threshold that is no number): the spam transaction of test 1 scores
    100, [100 < NaN] is false, and the verdict accepts. *)
Lemma nan_threshold_accepts :
  exists v,
    Double.evaluateTransaction
      (Double.newFilterEngine
         {| Double.threshold := nan; Double.enableP2WSHDetection := true;
            Double.enableOpReturnDetection := true |})
      spamTx
    = Done v
    /\ Double.score v = 100%float
    /\ (Double.score v <? nan)%float = false
    /\ Double.accept v = true.
Proof. eexists. split; [vm_compute; reflexivity |]. repeat split. Qed.

(** C2, as the code has it.  [detected] holds exactly when some input is
    suspicious.  The confidence is then the double
    [(suspiciousCount / totalP2WSH) * 100], the quotient and the product
    each rounded to a double and the result not rounded to an integer, where
    the population counts every input with at least 3 witness items.  An
    input of the population whose last witness item does not end in [0xae]
    stays in the population and is never suspicious. *)
Theorem p2wsh_confidence_is_the_double_ratio (tx : ParsedTransaction) :
  exists r,
    Double.P2WSHFakeMultisigDetector.detect tx = Done r
    /\ Double.detected r = (0 <? suspiciousInputCount tx)
    /\ Double.confidence r
       = (if 0 <? suspiciousInputCount tx
          then (Double.counter (suspiciousInputCount tx)
                / Double.counter (totalP2WSHInputCount tx) * 100)%float
          else 0%float)
    /\ suspiciousInputCount tx <= totalP2WSHInputCount tx
    /\ forall input,
         In input (inputs tx) ->
         inPopulation input = true ->
         checkmultisigShaped (lastWitnessItem input) = false ->
         suspiciousInput input = false
         /\ In input (filter inPopulation (inputs tx)).
Proof.
  destruct (double_p2wsh_detect_spec tx) as (r & Hr & Hd & Hc & _).
  exists r. split; [exact Hr |]. split; [exact Hd |]. split; [exact Hc |].
  split; [apply suspicious_le_population |].
  intros input Hin Hpop Hshape. split.
  - unfold suspiciousInput, scriptSuspicious. rewrite Hshape. apply andb_false_r.
  - apply filter_In. split; assumption.
Qed.

(** C2 as stated fails twice at one transaction.  One input is suspicious
    and two have 3 witness items and a last item that does not end in
    [0xae]: the claim counts a population of 1 and asks for confidence 100;
    the code counts 3.  And the code does not round: it reports the double
    [(1 / 3) * 100], strictly between 33 and 34, where 100 * 1 / 3 rounded
    down is 33. *)
Lemma one_suspicious_input_of_three :
  suspiciousInputCount oneOfThreeTx = 1
  /\ shapedInputCount oneOfThreeTx = 1
  /\ totalP2WSHInputCount oneOfThreeTx = 3
  /\ (100 * Z.of_nat (suspiciousInputCount oneOfThreeTx)
      / Z.of_nat (shapedInputCount oneOfThreeTx))%Z = 100%Z
  /\ (100 * Z.of_nat (suspiciousInputCount oneOfThreeTx)
      / Z.of_nat (totalP2WSHInputCount oneOfThreeTx))%Z = 33%Z
  /\ exists r,
      Double.P2WSHFakeMultisigDetector.detect oneOfThreeTx = Done r
      /\ Double.confidence r = (1 / 3 * 100)%float
      /\ (33 <? Double.confidence r)%float = true
      /\ (Double.confidence r <? 34)%float = true.
Proof.
  split; [vm_compute; reflexivity |].
  split; [vm_compute; reflexivity |].
  split; [vm_compute; reflexivity |].
  split; [vm_compute; reflexivity |].
  split; [vm_compute; reflexivity |].
  eexists. split; [vm_compute; reflexivity |].
  split; [vm_compute; reflexivity |].
  split; vm_compute; reflexivity.
Qed.

(** C3. For a CHECKMULTISIG-shaped witness script, a 33-byte candidate with
    prefix [0x02] or [0x03] is classified fake exactly when, over its
    remaining 32 bytes, the longest zero run exceeds 4, or the zero count
    exceeds 10, or more than 2 window positions start four identical bytes;
    and the script is suspicious exactly when (more than 3 pubkeys and the
    fake ones are more than half of them) or there are more than 10 pubkeys.
    So exactly 3 pubkeys are never suspicious, and more than 10 always are. *)
Theorem fake_pubkey_and_suspicion_rules (script pubkey : Buffer) :
  checkmultisigShaped script = true ->
  length pubkey = 33 ->
  compressedPrefix pubkey = true ->
  (exists fake,
      P2WSHFakeMultisigDetector.isLikelyFakePubkey pubkey = Done fake
      /\ (fake = true <->
          4 < longestZeroRun (tl pubkey)
          \/ 10 < zeroBytes (tl pubkey)
          \/ 2 < repeatedRuns (tl pubkey)))
  /\ exists r,
      P2WSHFakeMultisigDetector.analyzeWitnessScript script = Done r
      /\ pubkeyCount r = length (candidates script)
      /\ fakePubkeyCount r = length (filter countedFake (candidates script))
      /\ (isSuspicious r = true <->
          (3 < pubkeyCount r /\ pubkeyCount r < 2 * fakePubkeyCount r)
          \/ 10 < pubkeyCount r)
      /\ (pubkeyCount r = 3 -> isSuspicious r = false)
      /\ (10 < pubkeyCount r -> isSuspicious r = true).
Proof.
  intros Hshape Hlen Hprefix. split.
  - exists (countedFake pubkey). split; [apply isLikelyFakePubkey_spec |].
    unfold countedFake, looksFake.
    rewrite Hlen, Hprefix. cbn [Nat.eqb andb].
    rewrite !orb_true_iff, !Nat.ltb_lt. tauto.
  - destruct (analyzeWitnessScript_shaped script Hshape) as (pubkeys & Hrun & _ & Hr).
    eexists. split; [exact Hr |].
    unfold candidates. rewrite Hrun.
    cbn [isSuspicious pubkeyCount fakePubkeyCount]. unfold suspicionRule.
    split; [reflexivity |]. split; [reflexivity |].
    split; [| split].
    + rewrite orb_true_iff, andb_true_iff, !Nat.ltb_lt. tauto.
    + intros H3. rewrite H3. reflexivity.
    + intros H10. apply Nat.ltb_lt in H10. rewrite H10. apply orb_true_r.
Qed.

(** The rules at a script of four zero-filled keys. *)
Lemma fake_pubkey_and_suspicion_rules_witness :
  checkmultisigShaped (multisigScript (repeat zeroKey 4)) = true
  /\ length zeroKey = 33
  /\ compressedPrefix zeroKey = true
  /\ (exists fake,
         P2WSHFakeMultisigDetector.isLikelyFakePubkey zeroKey = Done fake
         /\ (fake = true <->
             4 < longestZeroRun (tl zeroKey)
             \/ 10 < zeroBytes (tl zeroKey)
             \/ 2 < repeatedRuns (tl zeroKey)))
  /\ exists r,
      P2WSHFakeMultisigDetector.analyzeWitnessScript (multisigScript (repeat zeroKey 4))
      = Done r
      /\ isSuspicious r = true.
Proof.
  split; [reflexivity |]. split; [reflexivity |]. split; [reflexivity |].
  destruct (fake_pubkey_and_suspicion_rules (multisigScript (repeat zeroKey 4)) zeroKey
              eq_refl eq_refl eq_refl) as (Hfake & r & Hr & Hn & Hf & Hs & _).
  split; [exact Hfake |].
  exists r. split; [exact Hr |].
  apply Hs. left. rewrite Hf, Hn. vm_compute. lia.
Defined.

(** C4, as the code has it.  With at least one collected (tagged) output the
    first match decides: a payload starting [01 bc] gives confidence 95 and
    records the chunk fields of the last such payload of 4 bytes or more;
    else a transaction of at least two outputs, one of them of value
    strictly between 0 and 15000, gives 60; else a largest payload over 80
    bytes gives 40; else nothing is detected and the confidence is 0. *)
Theorem chained_opreturn_priority (tx : ParsedTransaction) :
  collected tx <> [] ->
  exists r,
    ChainedOpReturnDetector.detect tx = Done r
    /\ if hasMagic tx then
         detected r = true /\ confidence r = 95%Q
         /\ exists d, details r = Some (OpReturnDetails d)
                      /\ magicPrefix d = true
                      /\ recordedChunk d = lastChunk (payloads tx)
       else if (2 <=? length (outputs tx)) && existsb smallValue (outputs tx) then
         detected r = true /\ confidence r = 60%Q
       else if 80 <? largestPayload tx then
         detected r = true /\ confidence r = 40%Q
       else
         detected r = false /\ confidence r = 0%Q.
Proof.
  intros Hsome.
  destruct (opreturn_detect_some tx Hsome) as (r & Hr & Hmagic & Hchain & Hbig & Hnone).
  exists r. split; [exact Hr |].
  fold (continuationPattern tx).
  destruct (hasMagic tx).
  - destruct (Hmagic eq_refl) as (Hd & Hc & d & Hdet & Hmp & Hchunk & _).
    repeat split; try assumption. exists d. repeat split; assumption.
  - destruct (continuationPattern tx); [exact (Hchain eq_refl eq_refl) |].
    destruct (Nat.ltb_spec 80 (largestPayload tx)) as [Hlt | Hle].
    + exact (Hbig eq_refl eq_refl Hlt).
    + exact (Hnone eq_refl eq_refl Hle).
Qed.

(** The priority order at the transaction of test 2: magic prefix, chunk 0 of 1. *)
Lemma chained_opreturn_priority_witness :
  collected chainTx <> []
  /\ exists r,
      ChainedOpReturnDetector.detect chainTx = Done r
      /\ detected r = true /\ confidence r = 95%Q
      /\ exists d, details r = Some (OpReturnDetails d)
                   /\ recordedChunk d = Some (x00, x01).
Proof.
  assert (Hsome : collected chainTx <> []) by (vm_compute; discriminate).
  split; [exact Hsome |].
  destruct (chained_opreturn_priority chainTx Hsome) as (r & Hr & Hcase).
  change (hasMagic chainTx) with true in Hcase.
  destruct Hcase as (Hd & Hc & d & Hdet & _ & Hchunk).
  exists r. repeat split; try assumption.
  exists d. split; [exact Hdet |]. rewrite Hchunk. reflexivity.
Defined.

(** C4 as stated fails: a small-valued output alone is no continuation
    pattern.  The only output is a tagged one of 5000 satoshis; there is no
    magic prefix, the claim asks for confidence 60, the code detects nothing. *)
Lemma lone_small_output_is_no_continuation :
  length (collected loneOpReturnTx) = 1
  /\ hasMagic loneOpReturnTx = false
  /\ existsb smallValue (outputs loneOpReturnTx) = true
  /\ ChainedOpReturnDetector.detect loneOpReturnTx
     = Done ChainedOpReturnDetector.noPattern
  /\ confidence ChainedOpReturnDetector.noPattern = 0%Q.
Proof. repeat split. Qed.

(** C5, as the code has it.  The detector collects exactly the outputs
    tagged ['nulldata'], and what it reports is decided by them: it answers
    "No OP_RETURN outputs found", with [detected = false] and confidence 0,
    exactly when no output carries the tag; it reports the magic prefix
    (confidence 95) exactly when some tagged output has a payload that starts
    with it; the size it reports is the largest payload of the tagged
    outputs.  The first byte of a script plays no part in the collection, and
    the script of an output without the tag is never looked at: the result
    is the same for any transaction whose outputs agree with these on value,
    tag and the scripts of the tagged outputs. *)
Theorem opreturn_outputs_collected_by_tag (tx : ParsedTransaction) :
  exists r,
    ChainedOpReturnDetector.detect tx = Done r
    /\ (reason r = Literal "No OP_RETURN outputs found"
        <-> forall out, In out (outputs tx) ->
                        scriptPubKeyType out <> Some "nulldata"%string)
    /\ ((forall out, In out (outputs tx) ->
                     scriptPubKeyType out <> Some "nulldata"%string) ->
        detected r = false /\ confidence r = 0%Q)
    /\ (confidence r = 95%Q
        <-> exists out data,
              In out (outputs tx)
              /\ scriptPubKeyType out = Some "nulldata"%string
              /\ payloadAfterHeader (scriptPubKey out) = Some data
              /\ magicPayload data = true)
    /\ (forall n, details r = Some (SizeDetails n) ->
                  n = mathMax (map (@length byte) (payloadsOf (collected tx))))
    /\ (forall out,
           In out (collected tx)
           <-> In out (outputs tx) /\ scriptPubKeyType out = Some "nulldata"%string)
    /\ (forall tx',
           Forall2 sameToDetector (outputs tx) (outputs tx') ->
           ChainedOpReturnDetector.detect tx' = Done r).
Proof.
  destruct (opreturn_detect_reason tx) as (r & Hr & Hreason).
  exists r. split; [exact Hr |].
  assert (Hnone : collected tx = []
                  <-> forall out, In out (outputs tx) ->
                                  scriptPubKeyType out <> Some "nulldata"%string).
  { split.
    - intros Hc out Hin Htag.
      assert (Hcol : In out (collected tx)) by (apply collected_tagged; split; assumption).
      rewrite Hc in Hcol. contradiction.
    - intros Hall. destruct (collected tx) as [| out rest] eqn:Hc; [reflexivity |].
      assert (Hcol : In out (collected tx)) by (rewrite Hc; left; reflexivity).
      apply collected_tagged in Hcol. destruct Hcol as [Hin Htag].
      exfalso. exact (Hall out Hin Htag). }
  destruct (opreturn_detect_verdict tx) as (r' & Hr' & Hv).
  rewrite Hr in Hr'. injection Hr' as <-.
  split; [rewrite Hreason; exact Hnone |].
  split; [| split; [| split; [| split]]].
  - intros Hall. apply Hnone in Hall.
    destruct (opreturn_detect_none tx Hall) as (r0 & Hr0 & Hd & Hconf).
    rewrite Hr in Hr0. injection Hr0 as <-. split; assumption.
  - rewrite <- hasMagic_tagged. unfold opReturnVerdict in Hv.
    destruct (length (collected tx) =? 0) eqn:E0.
    + injection Hv as _ ->. split; [discriminate |].
      intros Hm. unfold hasMagic, payloads in Hm.
      apply Nat.eqb_eq in E0. apply length_zero_iff_nil in E0. rewrite E0 in Hm.
      discriminate Hm.
    + destruct (hasMagic tx).
      * injection Hv as _ ->. split; reflexivity.
      * repeat match type of Hv with
               | context [if ?c then _ else _] => destruct c
               end;
          injection Hv as _ ->; split; discriminate.
  - intros n Hn. revert Hr. unfold ChainedOpReturnDetector.detect.
    fold (collected tx).
    destruct (length (collected tx) =? 0); [intros [= <-]; discriminate Hn |].
    pose proof (scanOutput_loop (collected tx) []
                  (false, ChainedOpReturnDetector.noDetails)) as Hloop.
    cbn [app length] in Hloop. rewrite Hloop. cbn [bind].
    destruct (fold_left (fun st out => scanPure out st) (collected tx)
                (false, ChainedOpReturnDetector.noDetails)) as [m d].
    destruct (payloadLength_sizes (collected tx)) as (sizes & Hsizes & Hmax).
    rewrite Hsizes. cbn [bind]. rewrite Hmax.
    repeat match goal with
           | |- context [if ?c then _ else _] => destruct c
           end;
      intros [= <-]; cbn [details] in Hn; try discriminate Hn;
      injection Hn as <-; reflexivity.
  - apply collected_tagged.
  - intros tx' Hsame.
    destruct (sameToDetector_view _ _ Hsame) as (Hf & Hl & He).
    rewrite <- Hr.
    unfold ChainedOpReturnDetector.detect. fold smallValue.
    rewrite Hf, Hl, He. reflexivity.
Qed.

(** C5 as stated fails: an output without the tag whose script starts with
    [0x6a] (and carries the magic prefix) is collected by the specification's
    wording and not by the code, which detects nothing. *)
Lemma untagged_opreturn_is_not_collected :
  collected_spec untaggedMagicTx = outputs untaggedMagicTx
  /\ collected untaggedMagicTx = []
  /\ ChainedOpReturnDetector.detect untaggedMagicTx
     = Done {| detected := false; confidence := 0%Q;
               reason := Literal "No OP_RETURN outputs found";
               details := None |}.
Proof. repeat split. Qed.

(** C6, as the code has it.  The extractor returns none exactly when the
    script does not start with [0x6a]; otherwise it skips the push header
    (the opcode of a direct push [0x01..0x4b]; the opcode and the 1, 2 or 4
    length bytes of a PUSHDATA; nothing for any other opcode) and returns
    every byte after it, without reading the declared length.  When the
    script ends exactly where the declared data ends, that is exactly the
    declared data. *)
Theorem extract_returns_bytes_after_header (script : Buffer) :
  TransactionParser.extractOpReturnData script = Done (payloadAfterHeader script)
  /\ (payloadAfterHeader script = None <-> hd_error script <> Some x6a)
  /\ (forall rest header declared,
         script = x6a :: rest ->
         declaredPush rest = Some (header, declared) ->
         payloadAfterHeader script = Some (skipn header rest)
         /\ (length rest = header + declared ->
             payloadAfterHeader script = extractOpReturnPayload_spec script
             /\ length (skipn header rest) = declared)).
Proof.
  split; [apply extractOpReturnData_spec |]. split.
  - unfold payloadAfterHeader. destruct script as [| b rest]; cbn [hd_error].
    + split; [discriminate | reflexivity].
    + destruct (Byte.eqb b x6a) eqn:Eb.
      * apply Byte.byte_dec_bl in Eb. subst b.
        split; [discriminate | intros H; exfalso; apply H; reflexivity].
      * split; [| reflexivity].
        intros _ [= ->]. discriminate Eb.
  - intros rest header declared -> Hpush.
    destruct (declaredPush_header rest header declared Hpush)
      as (op & after & -> & Hheader).
    assert (Hcode : payloadAfterHeader (x6a :: op :: after)
                    = Some (skipn header (op :: after))).
    { unfold payloadAfterHeader. rewrite Hheader. reflexivity. }
    split; [exact Hcode |].
    intros Hexact. rewrite Hcode. unfold extractOpReturnPayload_spec.
    change (Byte.eqb x6a x6a) with true. cbn iota. rewrite Hpush.
    rewrite Hexact, Nat.leb_refl. rewrite length_skipn.
    split; [| lia].
    rewrite firstn_all2; [reflexivity |]. rewrite length_skipn. lia.
Qed.

(** C6 as stated fails.  One byte is declared and two are returned; five are
    declared, the script holds one, and that one is returned. *)
Lemma extract_ignores_declared_length :
  TransactionParser.extractOpReturnData [x6a; x01; xaa; xbb] = Done (Some [xaa; xbb])
  /\ declaredPush [x01; xaa; xbb] = Some (1, 1)
  /\ extractOpReturnPayload_spec [x6a; x01; xaa; xbb] = Some [xaa]
  /\ TransactionParser.extractOpReturnData [x6a; x05; xaa] = Done (Some [xaa])
  /\ declaredPush [x05; xaa] = Some (1, 5)
  /\ extractOpReturnPayload_spec [x6a; x05; xaa] = Some [].
Proof. repeat split. Qed.

(** C7: what the code does when a callback throws.  The exception leaves
    [evaluateTransaction]: no verdict is returned, and the callback
    registered after the throwing one is not run. *)
Lemma throwing_callback_aborts_evaluation :
  evaluateTransaction
    (addJSFilter (addJSFilter (newFilterEngine defaultConfig) throwingFilter)
                 (rejectingFilter 75))
    chainTx
  = Fault (Thrown "filter failed")
  /\ exists v,
      evaluateTransaction (addJSFilter (newFilterEngine defaultConfig) (rejectingFilter 75))
                          chainTx = Done v
      /\ accept v = false.
Proof.
  split; [vm_compute; reflexivity |].
  eexists. split; [vm_compute; reflexivity | reflexivity].
Qed.

(** C8. The decoding routines and the witness-script analysis are total on
    every byte sequence and every witness stack: they end with a result, no
    read falls outside the buffer ([IndexPastEnd]), the walk ends within
    [length script] iterations ([LoopBudget]), and nothing is thrown.  The
    payload returned is a part of the script, the witness script is an item
    of the stack, and the analysis counts are bounded. *)
Theorem decoders_are_total (bytes : Buffer) (stack : list Buffer) :
  (exists r,
      TransactionParser.extractOpReturnData bytes = Done r
      /\ forall data, r = Some data -> exists header, bytes = header ++ data)
  /\ (exists r,
         TransactionParser.extractWitnessScript stack = Done r
         /\ forall item, r = Some item -> In item stack)
  /\ (exists r,
         P2WSHFakeMultisigDetector.analyzeWitnessScript bytes = Done r
         /\ scriptSize r = length bytes
         /\ fakePubkeyCount r <= pubkeyCount r)
  /\ (exists fake, P2WSHFakeMultisigDetector.isLikelyFakePubkey bytes = Done fake)
  /\ Forall (fun pubkey => length pubkey <= 33) (candidates bytes).
Proof.
  split; [| split; [| split; [| split]]].
  - exists (payloadAfterHeader bytes). split; [apply extractOpReturnData_spec |].
    apply payloadAfterHeader_suffix.
  - exists (hd_error (rev stack)). split; [apply extractWitnessScript_spec |].
    intros item Hitem. apply in_rev.
    destruct (rev stack) as [| x front]; [discriminate Hitem |].
    injection Hitem as ->. left. reflexivity.
  - destruct (checkmultisigShaped bytes) eqn:Hshape.
    + destruct (analyzeWitnessScript_shaped bytes Hshape) as (pubkeys & _ & _ & Hr).
      eexists. split; [exact Hr |].
      cbn [scriptSize pubkeyCount fakePubkeyCount].
      split; [reflexivity | apply filter_length_le].
    + eexists. split; [apply analyzeWitnessScript_unshaped; exact Hshape |].
      cbn [scriptSize pubkeyCount fakePubkeyCount]. split; [reflexivity | lia].
  - exists (countedFake bytes). apply isLikelyFakePubkey_spec.
  - unfold candidates. destruct bytes as [| b rest]; [constructor |].
    destruct (collectPubkeys_spec (length (b :: rest)) (b :: rest) 1 [])
      as (pushed & Hrun & Hall); [simpl; lia | lia |].
    rewrite Hrun. cbn [app].
    eapply Forall_impl; [| exact Hall].
    intros pubkey Hk. exact (pushedAt_length _ _ _ Hk).
Qed.

(** C9, as the code has it.  The detections of a verdict are those of the
    two detectors followed by those of the callbacks.  The detectors'
    detections have their confidence in [0,100].  The callbacks' detections
    are exactly the non-accepting callback results, each wrapped with the
    callback's score as its confidence, whatever it is.  So all detections
    of a verdict are in [0,100] when the scores of the non-accepting callback
    results are. *)
Theorem detections_in_range_when_callback_scores_are
    (this : FilterEngine) (tx : ParsedTransaction) (v : FilterResult) :
  evaluateTransaction this tx = Done v ->
  exists fromDetectors,
    detections v = fromDetectors ++ flat_map (callbackDetections tx) (jsFilters this)
    /\ fromDetectors
       = detectorDetections (enableP2WSHDetection (config this))
                            (P2WSHFakeMultisigDetector.detect tx)
         ++ detectorDetections (enableOpReturnDetection (config this))
                               (ChainedOpReturnDetector.detect tx)
    /\ Forall inRange fromDetectors
    /\ (forall filter result,
           In filter (jsFilters this) -> filter tx = Done result ->
           accept result = false ->
           In (wrapped result) (detections v)
           /\ confidence (wrapped result) = score result)
    /\ (forall d,
           In d (flat_map (callbackDetections tx) (jsFilters this)) ->
           exists filter result,
             In filter (jsFilters this) /\ filter tx = Done result
             /\ accept result = false /\ d = wrapped result)
    /\ ((forall filter result,
            In filter (jsFilters this) -> filter tx = Done result ->
            accept result = false -> (0 <= score result <= 100)%Q) ->
        Forall inRange (detections v)).
Proof.
  intros Hv.
  destruct (evaluateTransaction_spec this tx v Hv) as (_ & _ & Hds & _).
  unfold expectedDetections in Hds. rewrite app_assoc in Hds.
  eexists. split; [exact Hds |]. split; [reflexivity |].
  assert (Hdetectors :
            Forall inRange
              (detectorDetections (enableP2WSHDetection (config this))
                                  (P2WSHFakeMultisigDetector.detect tx)
               ++ detectorDetections (enableOpReturnDetection (config this))
                                     (ChainedOpReturnDetector.detect tx))).
  { destruct (p2wsh_detect_range tx) as (p & Hp & Hprange).
    destruct (opreturn_detect_range tx) as (o & Ho & Horange).
    rewrite Hp, Ho. apply Forall_app.
    split; apply detectorDetections_range; assumption. }
  assert (Hwraps : forall d,
             In d (flat_map (callbackDetections tx) (jsFilters this)) ->
             exists filter result,
               In filter (jsFilters this) /\ filter tx = Done result
               /\ accept result = false /\ d = wrapped result).
  { intros d Hin. apply in_flat_map in Hin. destruct Hin as (filter & Hfilter & Hd).
    unfold callbackDetections in Hd.
    destruct (filter tx) as [result | f] eqn:Hcall; [| contradiction].
    destruct (accept result) eqn:Haccept; [contradiction |].
    destruct Hd as [<- | []].
    exists filter, result. repeat split; assumption. }
  split; [exact Hdetectors |]. split; [| split; [exact Hwraps |]].
  - intros filter result Hfilter Hcall Haccept. split; [| reflexivity].
    rewrite Hds. apply in_or_app. right.
    apply in_flat_map. exists filter. split; [exact Hfilter |].
    unfold callbackDetections. rewrite Hcall, Haccept. left. reflexivity.
  - intros Hscores. rewrite Hds. apply Forall_app. split; [exact Hdetectors |].
    apply Forall_forall. intros d Hin.
    destruct (Hwraps d Hin) as (filter & result & Hfilter & Hcall & Haccept & ->).
    exact (Hscores filter result Hfilter Hcall Haccept).
Qed.

(** The theorem at the transaction of test 2 with a callback of score 150:
    the detector's detection is in range, the callback's is not. *)
Lemma detections_in_range_when_callback_scores_are_witness :
  exists v fromDetectors,
    evaluateTransaction (addJSFilter (newFilterEngine defaultConfig) (rejectingFilter 150))
                        chainTx = Done v
    /\ detections v
       = fromDetectors
         ++ flat_map (callbackDetections chainTx)
                     (jsFilters (addJSFilter (newFilterEngine defaultConfig)
                                             (rejectingFilter 150)))
    /\ Forall inRange fromDetectors
    /\ length fromDetectors = 1.
Proof.
  destruct (detections_in_range_when_callback_scores_are
              (addJSFilter (newFilterEngine defaultConfig) (rejectingFilter 150))
              chainTx _ eq_refl)
    as (fromDetectors & Hds & Hfrom & Hrange & _).
  eexists. exists fromDetectors.
  split; [reflexivity |]. split; [exact Hds |]. split; [exact Hrange |].
  rewrite Hfrom. reflexivity.
Defined.

(** C9 as stated fails: the engine copies a callback's score into the
    detection, and a score of 150 gives a detection of confidence 150. *)
Lemma callback_score_passes_unclamped :
  exists v d,
    evaluateTransaction
      (addJSFilter (newFilterEngine defaultConfig) (rejectingFilter 150))
      loneOpReturnTx = Done v
    /\ In d (detections v)
    /\ (100 < confidence d)%Q.
Proof.
  eexists. eexists. split; [vm_compute; reflexivity |].
  split; [left; reflexivity | reflexivity].
Qed.

(** C10. [fakePubkeyCount] never exceeds [pubkeyCount]: every candidate a
    [0x21] push produces is counted as a pubkey, and only candidates of
    exactly 33 bytes with prefix [0x02] or [0x03] can be counted fake.  A
    candidate the end of the script cuts short is a pubkey and never a fake
    one: such a script can reach the more-than-10 rule with no fake key. *)
Theorem fake_count_never_exceeds_pubkey_count (script : Buffer) :
  (exists r,
      P2WSHFakeMultisigDetector.analyzeWitnessScript script = Done r
      /\ fakePubkeyCount r <= pubkeyCount r
      /\ (checkmultisigShaped script = true ->
          pubkeyCount r = length (candidates script)
          /\ fakePubkeyCount r = length (filter countedFake (candidates script))))
  /\ Forall (pushedAt script 1) (candidates script)
  /\ (forall pubkey,
         In pubkey (candidates script) -> countedFake pubkey = true ->
         length pubkey = 33 /\ compressedPrefix pubkey = true)
  /\ (forall pubkey,
         In pubkey (candidates script) -> length pubkey < 33 ->
         countedFake pubkey = false)
  /\ exists t,
      P2WSHFakeMultisigDetector.analyzeWitnessScript truncatedScript = Done t
      /\ In [x02; x00; xae] (candidates truncatedScript)
      /\ pubkeyCount t = 11 /\ fakePubkeyCount t = 0 /\ isSuspicious t = true.
Proof.
  split; [| split; [| split; [| split]]].
  - destruct (checkmultisigShaped script) eqn:Hshape.
    + destruct (analyzeWitnessScript_shaped script Hshape) as (pubkeys & Hrun & _ & Hr).
      eexists. split; [exact Hr |].
      cbn [pubkeyCount fakePubkeyCount]. split; [apply filter_length_le |].
      intros _. unfold candidates. rewrite Hrun. split; reflexivity.
    + eexists. split; [apply analyzeWitnessScript_unshaped; exact Hshape |].
      cbn [pubkeyCount fakePubkeyCount]. split; [lia | discriminate].
  - unfold candidates. destruct script as [| b rest]; [constructor |].
    destruct (collectPubkeys_spec (length (b :: rest)) (b :: rest) 1 [])
      as (pushed & Hrun & Hall); [simpl; lia | lia |].
    rewrite Hrun. exact Hall.
  - intros pubkey _ Hfake. unfold countedFake in Hfake.
    apply andb_true_iff in Hfake. destruct Hfake as [Hfake _].
    apply andb_true_iff in Hfake. destruct Hfake as [Hlen Hprefix].
    apply Nat.eqb_eq in Hlen. split; assumption.
  - intros pubkey _ Hshort. unfold countedFake.
    destruct (Nat.eqb_spec (length pubkey) 33) as [E | _]; [lia | reflexivity].
  - eexists. split; [vm_compute; reflexivity |].
    cbn [pubkeyCount fakePubkeyCount isSuspicious].
    split; [vm_compute; tauto |]. repeat split.
Qed.

(** * Further properties of the code *)

(** ** Classification and tagging in the parser *)

Lemma detectScriptType_nulldata (script : Buffer) :
  String.eqb (detectScriptType script) "nulldata"
  = match script with
    | b :: _ => Byte.eqb b x6a
    | [] => false
    end.
Proof.
  unfold detectScriptType. destruct script as [| b rest]; [reflexivity |].
  cbn [length Nat.eqb peek nth_error isByte].
  destruct (Byte.eqb b x6a); [reflexivity |].
  repeat match goal with
         | |- context [if ?c then _ else _] => destruct c
         end; reflexivity.
Qed.

(** X1. [detectScriptType] answers ['nulldata'] exactly for the scripts whose
    first byte is [0x6a], whatever follows, and ['empty'] exactly for the
    empty script: no other branch of the classification can produce either
    tag, and a script that starts with [0x6a] is never given another one. *)
Theorem detectScriptType_nulldata_iff_op_return (script : Buffer) :
  (detectScriptType script = "nulldata"%string <-> hd_error script = Some x6a)
  /\ (detectScriptType script = "empty"%string <-> script = []).
Proof.
  split.
  - rewrite <- String.eqb_eq, detectScriptType_nulldata.
    destruct script as [| b rest]; cbn [hd_error].
    + split; discriminate.
    + split.
      * intros Hb. apply Byte.byte_dec_bl in Hb. subst b. reflexivity.
      * intros [= ->]. reflexivity.
  - unfold detectScriptType. destruct script as [| b rest].
    + split; reflexivity.
    + cbn [length Nat.eqb].
      repeat match goal with
             | |- context [if ?c then _ else _] => destruct c
             end; split; discriminate.
Qed.

Lemma outputOfHex_tag (output : Z * Buffer) :
  ChainedOpReturnDetector.isNulldata (outputOfHex output)
  = sniffedOpReturn (outputOfHex output).
Proof.
  unfold ChainedOpReturnDetector.isNulldata, sniffedOpReturn, outputOfHex.
  cbn [scriptPubKeyType scriptPubKey]. apply detectScriptType_nulldata.
Qed.

(** X2. On a transaction that [parseHex] builds, the tag and the first byte
    agree: the chained-OP_RETURN detector collects exactly the outputs whose
    script starts with [0x6a], in output order, which is also the collection
    the byte-level reading gives. *)
Theorem hex_parsed_outputs_collected_by_first_byte (decoded : DecodedTransaction) :
  collected (parseDecoded decoded)
  = filter sniffedOpReturn (outputs (parseDecoded decoded))
  /\ collected (parseDecoded decoded) = collected_spec (parseDecoded decoded)
  /\ forall out,
       In out (collected (parseDecoded decoded))
       <-> In out (outputs (parseDecoded decoded))
           /\ hd_error (scriptPubKey out) = Some x6a.
Proof.
  assert (Hsame : forall out,
             In out (outputs (parseDecoded decoded)) ->
             ChainedOpReturnDetector.isNulldata out = sniffedOpReturn out).
  { intros out Hin. cbn [parseDecoded outputs] in Hin.
    apply in_map_iff in Hin. destruct Hin as (o & <- & _).
    apply outputOfHex_tag. }
  assert (Hfilter : collected (parseDecoded decoded)
                    = filter sniffedOpReturn (outputs (parseDecoded decoded))).
  { unfold collected. apply filter_ext_in. exact Hsame. }
  split; [exact Hfilter |]. split.
  - unfold collected, collected_spec. apply filter_ext_in.
    intros out Hin. rewrite (Hsame out Hin), orb_diag. reflexivity.
  - intros out. rewrite Hfilter, filter_In. unfold sniffedOpReturn.
    destruct (scriptPubKey out) as [| b rest]; cbn [hd_error].
    + split; [intros [_ H]; discriminate H | intros [_ H]; discriminate H].
    + split; intros [Hin Hb]; split; try exact Hin.
      * apply Byte.byte_dec_bl in Hb. subst b. reflexivity.
      * injection Hb as ->. reflexivity.
Qed.

(** ** The P2WSH detector: what it reports and what it looks at *)

Lemma analysisOf_run (script : Buffer) :
  P2WSHFakeMultisigDetector.analyzeWitnessScript script = Done (analysisOf script)
  /\ isSuspicious (analysisOf script) = scriptSuspicious script.
Proof.
  destruct (analyzeWitnessScript_suspicious script) as (r & Hr & Hs).
  unfold analysisOf. rewrite Hr. split; [reflexivity | exact Hs].
Qed.

Lemma scanInput_details (input : TransactionInput)
    (suspiciousCount totalP2WSH : nat) (details : list SuspiciousInput) :
  P2WSHFakeMultisigDetector.scanInput input (suspiciousCount, totalP2WSH, details)
  = Done (suspiciousCount + countIf (suspiciousInput input),
          totalP2WSH + countIf (inPopulation input),
          details ++ (if suspiciousInput input then [detailOf input] else [])).
Proof.
  unfold P2WSHFakeMultisigDetector.scanInput, suspiciousInput, inPopulation,
    detailOf, lastWitnessItem.
  destruct (witness input) as [stack |].
  2:{ cbn [andb countIf]. rewrite !Nat.add_0_r, app_nil_r. reflexivity. }
  rewrite Nat.ltb_antisym.
  destruct (3 <=? length stack) eqn:E3; cbn [negb andb countIf].
  2:{ rewrite !Nat.add_0_r, app_nil_r. reflexivity. }
  rewrite extractWitnessScript_spec. cbn [bind].
  rewrite (hd_rev_last stack []).
  2:{ intros ->. discriminate E3. }
  destruct (analysisOf_run (last stack [])) as (Hr & Hs).
  rewrite Hr. cbn [bind]. rewrite Hs.
  destruct (scriptSuspicious (last stack [])); cbn [countIf].
  - reflexivity.
  - rewrite Nat.add_0_r, app_nil_r. reflexivity.
Qed.

Lemma scanInput_details_loop (ins : list TransactionInput) :
  forall (suspiciousCount totalP2WSH : nat) (details : list SuspiciousInput),
    forEach ins P2WSHFakeMultisigDetector.scanInput
      (suspiciousCount, totalP2WSH, details)
    = Done (suspiciousCount + length (filter suspiciousInput ins),
            totalP2WSH + length (filter inPopulation ins),
            details ++ map detailOf (filter suspiciousInput ins)).
Proof.
  induction ins as [| input rest IH]; intros s t d.
  - cbn [forEach filter map length]. rewrite !Nat.add_0_r, app_nil_r. reflexivity.
  - cbn [forEach]. rewrite scanInput_details. cbn [bind]. rewrite IH.
    cbn [filter].
    destruct (suspiciousInput input), (inPopulation input);
      cbn [countIf map length app]; rewrite <- ?app_assoc; cbn [app];
      rewrite ?Nat.add_0_r, ?app_nil_r;
      repeat (f_equal; try lia).
Qed.

(** The result of [detect], in full. *)
Lemma p2wsh_detect_exact (tx : ParsedTransaction) :
  P2WSHFakeMultisigDetector.detect tx
  = Done (if suspiciousInputCount tx =? 0
          then {| detected := false; confidence := 0%Q;
                  reason := Literal "No suspicious P2WSH patterns found";
                  details := None |}
          else {| detected := true; confidence := ratioConfidence tx;
                  reason := DetectedP2WSH (suspiciousInputCount tx);
                  details :=
                    Some (P2WSHDetails
                            (map detailOf (filter suspiciousInput (inputs tx)))) |}).
Proof.
  unfold P2WSHFakeMultisigDetector.detect.
  rewrite scanInput_details_loop. cbn [bind Nat.add app].
  fold (suspiciousInputCount tx). fold (totalP2WSHInputCount tx).
  pose proof (suspicious_le_population tx) as Hle.
  destruct (suspiciousInputCount tx) as [| s] eqn:Es; [reflexivity |].
  cbn [Nat.eqb]. unfold ratioConfidence. rewrite Es.
  destruct (totalP2WSHInputCount tx) as [| t]; [lia | reflexivity].
Qed.

(** X3. When the P2WSH detector detects something, its [details] list the
    suspicious inputs, and only them, in input order, each with its txid,
    its output index and the analysis of its last witness item, which is
    marked suspicious; the reason carries their number.  When it detects
    nothing the result has confidence 0 and no details. *)
Theorem p2wsh_details_list_the_suspicious_inputs (tx : ParsedTransaction) :
  exists r,
    P2WSHFakeMultisigDetector.detect tx = Done r
    /\ (detected r = true ->
        details r
        = Some (P2WSHDetails (map detailOf (filter suspiciousInput (inputs tx))))
        /\ reason r = DetectedP2WSH (suspiciousInputCount tx)
        /\ 0 < suspiciousInputCount tx)
    /\ (detected r = false ->
        details r = None /\ confidence r = 0%Q
        /\ reason r = Literal "No suspicious P2WSH patterns found")
    /\ length (map detailOf (filter suspiciousInput (inputs tx)))
       = suspiciousInputCount tx
    /\ Forall (fun entry => isSuspicious (analysis entry) = true
                            /\ hasCheckmultisig (analysis entry) = true)
              (map detailOf (filter suspiciousInput (inputs tx))).
Proof.
  eexists. split; [apply p2wsh_detect_exact |].
  split; [| split; [| split]].
  - destruct (suspiciousInputCount tx) eqn:Es; cbn [Nat.eqb detected];
      [discriminate |].
    intros _. cbn [details reason]. repeat split. lia.
  - destruct (suspiciousInputCount tx) eqn:Es; cbn [Nat.eqb detected];
      [| discriminate].
    intros _. repeat split.
  - rewrite length_map. reflexivity.
  - apply Forall_forall. intros entry Hin.
    apply in_map_iff in Hin. destruct Hin as (input & <- & Hin).
    apply filter_In in Hin. destruct Hin as [_ Hs].
    unfold suspiciousInput in Hs. apply andb_true_iff in Hs. destruct Hs as [_ Hs].
    unfold detailOf. cbn [analysis].
    destruct (analysisOf_run (lastWitnessItem input)) as (Hrun & Hflag).
    split; [rewrite Hflag; exact Hs |].
    unfold scriptSuspicious in Hs. apply andb_true_iff in Hs. destruct Hs as [Hshape _].
    destruct (analyzeWitnessScript_shaped _ Hshape) as (pubkeys & _ & _ & Hr).
    rewrite Hr in Hrun. injection Hrun as <-. reflexivity.
Qed.

(** X4. A transaction none of whose inputs has three or more witness items
    (no witness at all, or a one- or two-item stack, or no input) is never
    flagged: the P2WSH detector answers "nothing detected", confidence 0,
    whatever the witness items hold. *)
Theorem short_witness_stacks_are_never_flagged (tx : ParsedTransaction) :
  (forall input, In input (inputs tx) -> inPopulation input = false) ->
  P2WSHFakeMultisigDetector.detect tx
  = Done {| detected := false; confidence := 0%Q;
            reason := Literal "No suspicious P2WSH patterns found";
            details := None |}.
Proof.
  intros Hshort. rewrite p2wsh_detect_exact.
  assert (Hnone : suspiciousInputCount tx = 0).
  { unfold suspiciousInputCount.
    induction (inputs tx) as [| input rest IH]; [reflexivity |].
    cbn [filter]. unfold suspiciousInput at 1.
    rewrite (Hshort input (or_introl eq_refl)). cbn [andb].
    apply IH. intros i Hi. apply Hshort. right. exact Hi. }
  rewrite Hnone. reflexivity.
Qed.

(** The rule at the "normal" transaction of the repository's test 3 (a
    two-item witness stack). *)
Lemma short_witness_stacks_are_never_flagged_witness :
  (forall input, In input (inputs normalTx) -> inPopulation input = false)
  /\ P2WSHFakeMultisigDetector.detect normalTx
     = Done {| detected := false; confidence := 0%Q;
               reason := Literal "No suspicious P2WSH patterns found";
               details := None |}.
Proof.
  assert (H : forall input, In input (inputs normalTx) -> inPopulation input = false).
  { intros input [<- | []]. reflexivity. }
  split; [exact H |].
  exact (short_witness_stacks_are_never_flagged normalTx H).
Defined.

Lemma sameToP2WSH_view (ins ins' : list TransactionInput) :
  Forall2 sameToP2WSH ins ins' ->
  length (filter suspiciousInput ins) = length (filter suspiciousInput ins')
  /\ length (filter inPopulation ins) = length (filter inPopulation ins')
  /\ map detailOf (filter suspiciousInput ins)
     = map detailOf (filter suspiciousInput ins').
Proof.
  induction 1 as [| a b rest rest' (Ht & Hv & Hp & Hl) _ (IHs & IHp & IHd)].
  - repeat split.
  - cbn [filter]. rewrite <- Hp.
    assert (Hsus : suspiciousInput a = suspiciousInput b).
    { unfold suspiciousInput. rewrite <- Hp.
      destruct (inPopulation a); [| reflexivity].
      rewrite (Hl eq_refl). reflexivity. }
    rewrite <- Hsus.
    assert (Hdet : suspiciousInput a = true -> detailOf a = detailOf b).
    { intros Hs. unfold suspiciousInput in Hs. apply andb_true_iff in Hs.
      destruct Hs as [Hin _]. unfold detailOf.
      rewrite Ht, Hv, (Hl Hin). reflexivity. }
    destruct (suspiciousInput a), (inPopulation a); cbn [length map];
      rewrite ?IHs, ?IHp, ?IHd, ?(Hdet eq_refl); repeat split.
Qed.

(** X5. The P2WSH detector looks at an input only through its txid, its
    output index, whether its witness stack has at least 3 items, and the
    last item of such a stack: signatures and the other witness items, and
    everything about the outputs, never change its result. *)
Theorem p2wsh_detect_reads_only_last_witness_item (tx tx' : ParsedTransaction) :
  Forall2 sameToP2WSH (inputs tx) (inputs tx') ->
  P2WSHFakeMultisigDetector.detect tx = P2WSHFakeMultisigDetector.detect tx'.
Proof.
  intros Hsame. rewrite !p2wsh_detect_exact.
  destruct (sameToP2WSH_view _ _ Hsame) as (Hs & Hp & Hd).
  unfold ratioConfidence, suspiciousInputCount, totalP2WSHInputCount.
  rewrite Hs, Hp, Hd. reflexivity.
Qed.

(** The theorem at the spam transaction of test 1 and the same transaction
    with other signatures and another output. *)
Lemma p2wsh_detect_reads_only_last_witness_item_witness :
  Forall2 sameToP2WSH
    (inputs spamTx)
    [ inputWith [[x30; x44]; [x30; x45; x01]; spamScript] ]
  /\ P2WSHFakeMultisigDetector.detect spamTx
     = P2WSHFakeMultisigDetector.detect
         {| inputs := [ inputWith [[x30; x44]; [x30; x45; x01]; spamScript] ];
            outputs := [] |}.
Proof.
  assert (H : Forall2 sameToP2WSH
                (inputs spamTx)
                [ inputWith [[x30; x44]; [x30; x45; x01]; spamScript] ]).
  { constructor; [| constructor]. repeat split. }
  split; [exact H |].
  exact (p2wsh_detect_reads_only_last_witness_item
           spamTx
           {| inputs := [ inputWith [[x30; x44]; [x30; x45; x01]; spamScript] ];
              outputs := [] |} H).
Defined.

(** ** The witness-script walk: how many candidates, and of what length *)

Lemma slice_full (script : Buffer) (i : nat) :
  i + 34 <= length script -> length (slice script (i + 1) (i + 34)) = 33.
Proof.
  intros Hin. unfold slice. rewrite length_firstn, length_skipn. lia.
Qed.

(** The candidates pushed from index [i] on: every one but the last has 33
    bytes, and [k] of them need a script that reaches [i + 34 (k - 1) + 3]. *)
Lemma collectPubkeys_shape (budget : nat) :
  forall (script : Buffer) (i : nat) (pubkeys : list Buffer),
    1 <= budget -> length script <= budget + i ->
    exists pushed,
      P2WSHFakeMultisigDetector.collectPubkeys budget script i pubkeys
      = Done (pubkeys ++ pushed)
      /\ Forall (fun pubkey => length pubkey = 33) (removelast pushed)
      /\ (pushed = [] \/ i + 34 * (length pushed - 1) + 3 <= length script).
Proof.
  induction budget as [| budget IH]; intros script i pubkeys Hpos Hlen; [lia |].
  cbn [P2WSHFakeMultisigDetector.collectPubkeys].
  destruct (Nat.ltb_spec (i + 2) (length script)) as [Hin | Hout].
  2:{ exists []. rewrite app_nil_r. repeat split; [constructor | left; reflexivity]. }
  destruct (itemAt_inside script i) as (opcode & Hread & _); [lia |].
  unfold byteAt. rewrite Hread. cbn [bind].
  assert (Hnext : forall acc,
            exists pushed,
              P2WSHFakeMultisigDetector.collectPubkeys budget script (i + 1) acc
              = Done (acc ++ pushed)
              /\ Forall (fun pubkey => length pubkey = 33) (removelast pushed)
              /\ (pushed = [] \/ i + 34 * (length pushed - 1) + 3 <= length script)).
  { intros acc. destruct (IH script (i + 1) acc) as (pushed & Hrun & Hfull & Hreach);
      try lia.
    exists pushed. repeat split; try assumption.
    destruct Hreach as [-> | Hreach]; [left; reflexivity | right; lia]. }
  destruct (Byte.eqb opcode x21).
  - destruct (IH script (i + 34) (pubkeys ++ [slice script (i + 1) (i + 34)]))
      as (pushed & Hrun & Hfull & Hreach); try lia.
    exists (slice script (i + 1) (i + 34) :: pushed).
    rewrite Hrun, <- app_assoc. split; [reflexivity |].
    destruct pushed as [| next pushed'].
    + split; [constructor | right; cbn [length]; lia].
    + destruct Hreach as [Hnil | Hreach]; [discriminate Hnil |].
      cbn [length] in Hreach |- *. split; [| right; lia].
      change (removelast (slice script (i + 1) (i + 34) :: next :: pushed'))
        with (slice script (i + 1) (i + 34) :: removelast (next :: pushed')).
      constructor; [| exact Hfull].
      apply slice_full. lia.
  - destruct ((0x51 <=? code opcode) && (code opcode <=? 0x60))%N; [apply Hnext |].
    destruct (Byte.eqb opcode xae); [| apply Hnext].
    exists []. rewrite app_nil_r. repeat split; [constructor | left; reflexivity].
Qed.

Lemma candidates_shape (script : Buffer) :
  Forall (fun pubkey => length pubkey = 33) (removelast (candidates script))
  /\ (candidates script = []
      \/ 34 * (length (candidates script) - 1) + 4 <= length script).
Proof.
  unfold candidates. destruct script as [| b rest].
  - cbn. split; [constructor | left; reflexivity].
  - destruct (collectPubkeys_shape (length (b :: rest)) (b :: rest) 1 [])
      as (pushed & Hrun & Hfull & Hreach); [simpl; lia | lia |].
    rewrite Hrun. cbn [app]. split; [exact Hfull |].
    destruct Hreach as [-> | Hreach]; [left; reflexivity | right; lia].
Qed.

(** X6. The walk of [analyzeWitnessScript] finds [k >= 1] candidates only in
    a script of at least [34 (k - 1) + 4] bytes.  So a script under 106
    bytes is never suspicious, and a script under 344 bytes can only be
    suspicious through the fake ratio, not through the more-than-10 rule.  A
    script of exactly 106 bytes can be suspicious. *)
Theorem pubkey_count_bounded_by_script_length (script : Buffer) :
  exists r,
    P2WSHFakeMultisigDetector.analyzeWitnessScript script = Done r
    /\ (pubkeyCount r = 0 \/ 34 * (pubkeyCount r - 1) + 4 <= length script)
    /\ (isSuspicious r = true -> 106 <= length script)
    /\ (isSuspicious r = true -> length script < 344 ->
        3 < pubkeyCount r <= 10 /\ pubkeyCount r < 2 * fakePubkeyCount r)
    /\ exists r106,
        P2WSHFakeMultisigDetector.analyzeWitnessScript shortestSuspiciousScript
        = Done r106
        /\ length shortestSuspiciousScript = 106 /\ isSuspicious r106 = true.
Proof.
  destruct (candidates_shape script) as (_ & Hreach).
  destruct (checkmultisigShaped script) eqn:Hshape.
  - destruct (analyzeWitnessScript_shaped script Hshape) as (pubkeys & Hrun & _ & Hr).
    unfold candidates in Hreach. rewrite Hrun in Hreach.
    eexists. split; [exact Hr |].
    cbn [pubkeyCount fakePubkeyCount isSuspicious]. unfold suspicionRule.
    assert (Hcount : length pubkeys = 0 \/ 34 * (length pubkeys - 1) + 4 <= length script).
    { destruct Hreach as [-> | Hreach]; [left; reflexivity | right; exact Hreach]. }
    split; [exact Hcount |].
    split; [| split].
    + rewrite orb_true_iff, andb_true_iff, !Nat.ltb_lt. lia.
    + rewrite orb_true_iff, andb_true_iff, !Nat.ltb_lt. lia.
    + eexists. split; [vm_compute; reflexivity |]. split; reflexivity.
  - eexists. split; [apply analyzeWitnessScript_unshaped; exact Hshape |].
    cbn [pubkeyCount fakePubkeyCount isSuspicious].
    split; [left; reflexivity |].
    split; [discriminate |]. split; [discriminate |].
    eexists. split; [vm_compute; reflexivity |]. split; reflexivity.
Qed.

(** X7. Of the candidates the walk pushes, every one but the last has
    exactly 33 bytes: the end of the script can cut short one candidate, the
    last, and the walk stops there.  So at least [pubkeyCount - 1] candidates
    are full keys. *)
Theorem only_the_last_candidate_can_be_truncated (script : Buffer) :
  Forall (fun pubkey => length pubkey = 33) (removelast (candidates script))
  /\ Forall (fun pubkey => length pubkey <= 33) (candidates script)
  /\ length (candidates script) - 1
     <= length (filter (fun pubkey => length pubkey =? 33) (candidates script)).
Proof.
  destruct (candidates_shape script) as (Hfull & _).
  split; [exact Hfull |]. split.
  - unfold candidates. destruct script as [| b rest]; [constructor |].
    destruct (collectPubkeys_spec (length (b :: rest)) (b :: rest) 1 [])
      as (pushed & Hrun & Hall); [simpl; lia | lia |].
    rewrite Hrun. cbn [app].
    eapply Forall_impl; [| exact Hall].
    intros pubkey Hk. exact (pushedAt_length _ _ _ Hk).
  - induction (candidates script) as [| lastKey front _] using rev_ind;
      [simpl; lia |].
    rewrite removelast_last in Hfull.
    rewrite filter_app, !length_app. cbn [length].
    unfold Buffer in *.
    match goal with
    | |- _ <= length (filter ?f front) + _ =>
        assert (Hall : length (filter f front) = length front)
    end.
    { clear - Hfull. induction Hfull as [| k ks Hk _ IH]; [reflexivity |].
      cbn [filter]. apply Nat.eqb_eq in Hk. rewrite Hk. cbn [length]. lia. }
    rewrite Hall. lia.
Qed.

Lemma collectPubkeys_skips_first_byte (budget : nat) :
  forall (b b' : byte) (rest : Buffer) (i : nat) (pubkeys : list Buffer),
    1 <= i ->
    P2WSHFakeMultisigDetector.collectPubkeys budget (b :: rest) i pubkeys
    = P2WSHFakeMultisigDetector.collectPubkeys budget (b' :: rest) i pubkeys.
Proof.
  induction budget as [| budget IH]; intros b b' rest i pubkeys Hi; [reflexivity |].
  cbn [P2WSHFakeMultisigDetector.collectPubkeys length].
  destruct (i + 2 <? S (length rest)); [| reflexivity].
  destruct i as [| i']; [lia |].
  unfold byteAt, itemAt, slice. cbn [nth_error Nat.add skipn].
  destruct (nth_error rest i') as [opcode |]; [| reflexivity]. cbn [bind].
  rewrite (IH b b' rest (S i' + 34)) by lia.
  rewrite (IH b b' rest (S i' + 1)) by lia.
  reflexivity.
Qed.

(** X8. The analysis never looks at the first byte of a witness script of
    two bytes or more: the walk starts at index 1, so the opcode in the
    place of the signature count is not checked, and two scripts that differ
    in it alone get the same analysis. *)
Theorem analysis_ignores_the_first_byte (b b' : byte) (rest : Buffer) :
  rest <> [] ->
  P2WSHFakeMultisigDetector.analyzeWitnessScript (b :: rest)
  = P2WSHFakeMultisigDetector.analyzeWitnessScript (b' :: rest).
Proof.
  intros Hrest. unfold P2WSHFakeMultisigDetector.analyzeWitnessScript.
  cbn [length Nat.eqb].
  assert (Hlast : byteAt (b :: rest) (S (length rest) - 1)
                  = byteAt (b' :: rest) (S (length rest) - 1)).
  { destruct rest as [| r rest']; [contradiction |].
    cbn [length Nat.sub]. reflexivity. }
  rewrite Hlast.
  destruct (byteAt (b' :: rest) (S (length rest) - 1)) as [lastByte | f];
    [| reflexivity].
  cbn [bind].
  rewrite (collectPubkeys_skips_first_byte (S (length rest)) b b' rest 1 [])
    by lia.
  reflexivity.
Qed.

(** The theorem at a two-of-three script and the same script with [OP_16]
    in the first place. *)
Lemma analysis_ignores_the_first_byte_witness :
  tl (multisigScript (repeat zeroKey 3)) <> []
  /\ P2WSHFakeMultisigDetector.analyzeWitnessScript
       (x52 :: tl (multisigScript (repeat zeroKey 3)))
     = P2WSHFakeMultisigDetector.analyzeWitnessScript
         (x60 :: tl (multisigScript (repeat zeroKey 3))).
Proof.
  assert (H : tl (multisigScript (repeat zeroKey 3)) <> []) by discriminate.
  split; [exact H |].
  exact (analysis_ignores_the_first_byte x52 x60 _ H).
Defined.

(** ** The pubkey heuristic on patterns of bytes *)

Lemma byte_eqb_refl (b : byte) : Byte.eqb b b = true.
Proof. apply Byte.byte_dec_lb. reflexivity. Qed.

Lemma zeroPrefix_zeros (n : nat) (rest : Buffer) :
  n <= zeroPrefix (repeat x00 n ++ rest).
Proof.
  induction n as [| n IH]; [lia |].
  cbn [repeat app zeroPrefix]. change (Byte.eqb x00 x00) with true. cbn iota. lia.
Qed.

Lemma longestZeroRun_app (before data : Buffer) :
  longestZeroRun data <= longestZeroRun (before ++ data).
Proof.
  induction before as [| b before' IH]; [apply le_n |].
  cbn [app longestZeroRun]. lia.
Qed.

Lemma repeatedRuns_app (before data : Buffer) :
  repeatedRuns data <= repeatedRuns (before ++ data).
Proof.
  induction before as [| b before' IH]; [apply le_n |].
  cbn [app repeatedRuns]. lia.
Qed.

Lemma repeatedRuns_six (b : byte) (rest : Buffer) :
  3 <= repeatedRuns (repeat b 6 ++ rest).
Proof.
  cbn [repeat app repeatedRuns startsUniform4].
  rewrite byte_eqb_refl. cbn [andb]. lia.
Qed.

Lemma zeroBytes_absent (data : Buffer) : ~ In x00 data -> zeroBytes data = 0.
Proof. intros Hno. unfold zeroBytes. apply count_occ_not_In. exact Hno. Qed.

Lemma longestZeroRun_absent (data : Buffer) :
  ~ In x00 data -> longestZeroRun data = 0.
Proof.
  induction data as [| b rest IH]; intros Hno; [reflexivity |].
  cbn [longestZeroRun zeroPrefix].
  destruct (Byte.eqb b x00) eqn:Eb.
  - apply Byte.byte_dec_bl in Eb. subst b. exfalso. apply Hno. left. reflexivity.
  - rewrite IH; [reflexivity |]. intros Hin. apply Hno. right. exact Hin.
Qed.

Lemma repeatedRuns_distinct (data : Buffer) : NoDup data -> repeatedRuns data = 0.
Proof.
  induction 1 as [| a rest Hnotin _ IH]; [reflexivity |].
  cbn [repeatedRuns]. rewrite IH.
  destruct rest as [| b [| c [| d rest']]]; try reflexivity.
  cbn [startsUniform4].
  destruct (Byte.eqb a b) eqn:Eab; [| reflexivity].
  apply Byte.byte_dec_bl in Eab. subst b.
  exfalso. apply Hnotin. left. reflexivity.
Qed.

(** X9. On a 33-byte key with prefix [0x02] or [0x03]: five zero bytes in a
    row anywhere in the 32 data bytes make the key fake, and so do six equal
    bytes in a row (of any value); a key whose data bytes are all different
    and none zero is not fake. *)
Theorem byte_patterns_that_decide_the_heuristic (prefix : byte) (data : Buffer) :
  length data = 32 ->
  prefix = x02 \/ prefix = x03 ->
  ((exists before after, data = before ++ repeat x00 5 ++ after) ->
   P2WSHFakeMultisigDetector.isLikelyFakePubkey (prefix :: data) = Done true)
  /\ ((exists before b after, data = before ++ repeat b 6 ++ after) ->
      P2WSHFakeMultisigDetector.isLikelyFakePubkey (prefix :: data) = Done true)
  /\ (~ In x00 data -> NoDup data ->
      P2WSHFakeMultisigDetector.isLikelyFakePubkey (prefix :: data) = Done false).
Proof.
  intros Hlen Hprefix.
  assert (Hspec : P2WSHFakeMultisigDetector.isLikelyFakePubkey (prefix :: data)
                  = Done (looksFake data)).
  { rewrite isLikelyFakePubkey_spec. unfold countedFake.
    cbn [length tl compressedPrefix]. rewrite Hlen. cbn [Nat.eqb andb].
    destruct Hprefix as [-> | ->]; reflexivity. }
  rewrite Hspec. unfold looksFake. split; [| split].
  - intros (before & after & ->). f_equal.
    pose proof (longestZeroRun_app before (repeat x00 5 ++ after)) as Happ.
    pose proof (zeroPrefix_le_longest (repeat x00 5 ++ after)) as Hrun.
    pose proof (zeroPrefix_zeros 5 after) as Hzeros.
    assert (H4 : (4 <? longestZeroRun (before ++ repeat x00 5 ++ after)) = true)
      by (apply Nat.ltb_lt; lia).
    rewrite H4. reflexivity.
  - intros (before & b & after & ->). f_equal.
    pose proof (repeatedRuns_app before (repeat b 6 ++ after)) as Happ.
    pose proof (repeatedRuns_six b after) as Hsix.
    assert (H2 : (2 <? repeatedRuns (before ++ repeat b 6 ++ after)) = true)
      by (apply Nat.ltb_lt; lia).
    rewrite H2. apply orb_true_r.
  - intros Hnozero Hdistinct.
    rewrite (longestZeroRun_absent data Hnozero), (zeroBytes_absent data Hnozero),
      (repeatedRuns_distinct data Hdistinct).
    reflexivity.
Qed.

(** The theorem at the plain key of the examples: 32 data bytes, all
    different, none zero. *)
Lemma byte_patterns_that_decide_the_heuristic_witness :
  length (tl plainKey) = 32
  /\ (x03 = x02 \/ x03 = x03)
  /\ ~ In x00 (tl plainKey)
  /\ NoDup (tl plainKey)
  /\ P2WSHFakeMultisigDetector.isLikelyFakePubkey (x03 :: tl plainKey) = Done false.
Proof.
  assert (Hnozero : ~ In x00 (tl plainKey)).
  { cbn. intros H. repeat (destruct H as [H | H]; [discriminate H |]). exact H. }
  assert (Hdistinct : NoDup (tl plainKey)).
  { cbn. repeat (constructor;
                 [ cbn; intros H;
                   repeat (destruct H as [H | H]; [discriminate H |]); exact H | ]).
    constructor. }
  split; [reflexivity |]. split; [right; reflexivity |].
  split; [exact Hnozero |]. split; [exact Hdistinct |].
  exact (proj2 (proj2 (byte_patterns_that_decide_the_heuristic
                         x03 (tl plainKey) eq_refl (or_intror eq_refl)))
               Hnozero Hdistinct).
Defined.

(** ** The chained-OP_RETURN detector: its verdicts *)


(** X10. The chained-OP_RETURN detector only ever reports the confidences
    0, 40, 60 and 95, and it reports [detected] exactly when the confidence
    is not 0: no transaction, however many patterns it matches, scores more
    than 95 or anything in between. *)
Theorem opreturn_confidence_is_one_of_four (tx : ParsedTransaction) :
  exists r,
    ChainedOpReturnDetector.detect tx = Done r
    /\ (confidence r = 0%Q \/ confidence r = 40%Q
        \/ confidence r = 60%Q \/ confidence r = 95%Q)
    /\ (detected r = false <-> confidence r = 0%Q)
    /\ (confidence r <= 95)%Q.
Proof.
  destruct (opreturn_detect_verdict tx) as (r & Hr & Hv).
  exists r. split; [exact Hr |].
  unfold opReturnVerdict in Hv.
  repeat match type of Hv with
         | context [if ?c then _ else _] => destruct c
         end;
    injection Hv as -> ->;
    (split; [tauto | split; [| unfold Qle; cbn; lia]]);
    split; intros H; try reflexivity; discriminate H.
Qed.

Lemma filter_permutation {A : Type} (f : A -> bool) (l l' : list A) :
  Permutation l l' -> Permutation (filter f l) (filter f l').
Proof.
  induction 1 as [| x l l' _ IH | x y l | l l' l'' _ IH1 _ IH2].
  - constructor.
  - cbn [filter]. destruct (f x); [constructor |]; exact IH.
  - cbn [filter]. destruct (f x), (f y); try apply Permutation_refl.
    apply perm_swap.
  - exact (Permutation_trans IH1 IH2).
Qed.

Lemma existsb_permutation {A : Type} (f : A -> bool) (l l' : list A) :
  Permutation l l' -> existsb f l = existsb f l'.
Proof.
  induction 1 as [| x l l' _ IH | x y l | l l' l'' _ IH1 _ IH2].
  - reflexivity.
  - cbn [existsb]. rewrite IH. reflexivity.
  - cbn [existsb]. destruct (f x), (f y); reflexivity.
  - congruence.
Qed.

Lemma mathMax_permutation (l l' : list nat) :
  Permutation l l' -> mathMax l = mathMax l'.
Proof.
  unfold mathMax.
  induction 1 as [| x l l' _ IH | x y l | l l' l'' _ IH1 _ IH2].
  - reflexivity.
  - cbn [fold_right]. rewrite IH. reflexivity.
  - cbn [fold_right]. lia.
  - congruence.
Qed.

Lemma payloadsOf_permutation (outs outs' : list TransactionOutput) :
  Permutation outs outs' -> Permutation (payloadsOf outs) (payloadsOf outs').
Proof.
  induction 1 as [| x l l' _ IH | x y l | l l' l'' _ IH1 _ IH2].
  - constructor.
  - cbn [payloadsOf].
    destruct (payloadAfterHeader (scriptPubKey x)); [constructor |]; exact IH.
  - cbn [payloadsOf].
    destruct (payloadAfterHeader (scriptPubKey x)),
             (payloadAfterHeader (scriptPubKey y));
      try apply Permutation_refl.
    apply perm_swap.
  - exact (Permutation_trans IH1 IH2).
Qed.

Lemma opReturnVerdict_permutation (tx tx' : ParsedTransaction) :
  Permutation (outputs tx) (outputs tx') ->
  opReturnVerdict tx = opReturnVerdict tx'.
Proof.
  intros Hperm.
  assert (Hcol : Permutation (collected tx) (collected tx'))
    by (apply filter_permutation; exact Hperm).
  assert (Hpay : Permutation (payloads tx) (payloads tx'))
    by (apply payloadsOf_permutation; exact Hcol).
  unfold opReturnVerdict, hasMagic, continuationPattern, largestPayload.
  rewrite (Permutation_length Hcol), (existsb_permutation _ _ _ Hpay),
    (Permutation_length Hperm), (existsb_permutation _ _ _ Hperm),
    (mathMax_permutation _ _ (Permutation_map (@length byte) Hpay)).
  reflexivity.
Qed.

(** X11. The verdict of the chained-OP_RETURN detector does not depend on
    the order of the outputs: two transactions whose outputs are the same up
    to order get the same [detected] and the same confidence.  (The chunk
    fields in the details follow the last magic payload and may differ.) *)
Theorem opreturn_verdict_ignores_output_order (tx tx' : ParsedTransaction) :
  Permutation (outputs tx) (outputs tx') ->
  exists r r',
    ChainedOpReturnDetector.detect tx = Done r
    /\ ChainedOpReturnDetector.detect tx' = Done r'
    /\ detected r = detected r'
    /\ confidence r = confidence r'.
Proof.
  intros Hperm.
  destruct (opreturn_detect_verdict tx) as (r & Hr & Hv).
  destruct (opreturn_detect_verdict tx') as (r' & Hr' & Hv').
  exists r, r'. split; [exact Hr |]. split; [exact Hr' |].
  rewrite (opReturnVerdict_permutation tx tx' Hperm), <- Hv' in Hv.
  injection Hv as Hd Hc. split; assumption.
Qed.

(** The theorem at the transaction of test 2 and the same outputs in reverse
    order. *)
Lemma opreturn_verdict_ignores_output_order_witness :
  Permutation (outputs chainTx) (rev (outputs chainTx))
  /\ exists r r',
      ChainedOpReturnDetector.detect chainTx = Done r
      /\ ChainedOpReturnDetector.detect
           {| inputs := inputs chainTx; outputs := rev (outputs chainTx) |}
         = Done r'
      /\ detected r = detected r'
      /\ confidence r = confidence r'.
Proof.
  split; [apply Permutation_rev |].
  exact (opreturn_verdict_ignores_output_order
           chainTx
           {| inputs := inputs chainTx; outputs := rev (outputs chainTx) |}
           (Permutation_rev (outputs chainTx))).
Defined.

(** ** The engine: registration, order and bounds *)



Lemma sumScores_nonneg (xs : list number) :
  Forall (fun x => (0 <= x)%Q) xs -> (0 <= sumScores xs)%Q.
Proof.
  unfold sumScores.
  induction 1 as [| x xs Hx _ IH]; cbn [fold_right].
  - discriminate.
  - exact (Qplus_le_compat 0 x 0 _ Hx IH).
Qed.

Lemma flat_map_permutation {A B : Type} (f : A -> list B) (l l' : list A) :
  Permutation l l' -> Permutation (flat_map f l) (flat_map f l').
Proof.
  induction 1 as [| x l l' _ IH | x y l | l l' l'' _ IH1 _ IH2]; cbn [flat_map].
  - constructor.
  - apply Permutation_app_head. exact IH.
  - rewrite !app_assoc. apply Permutation_app_tail. apply Permutation_app_comm.
  - exact (Permutation_trans IH1 IH2).
Qed.

(** The verdict of an engine whose callbacks return. *)
Lemma evaluateTransaction_returns (this : FilterEngine) (tx : ParsedTransaction) :
  callbacksReturn this tx ->
  exists v,
    evaluateTransaction this tx = Done v
    /\ (accept v = true <-> (score v < threshold (config this))%Q)
    /\ (score v == expectedScore this tx)%Q
    /\ detections v = expectedDetections this tx.
Proof.
  intros Hall. destruct (evaluateTransaction_total this tx Hall) as (v & Hv).
  destruct (evaluateTransaction_spec this tx v Hv) as (Ha & Hs & Hd & _).
  exists v. repeat split; try assumption; apply Ha.
Qed.




Lemma addends_permutation (this other : Double.FilterEngine) (tx : ParsedTransaction) :
  Double.config this = Double.config other ->
  Permutation (Double.jsFilters this) (Double.jsFilters other) ->
  Permutation (addends this tx) (addends other tx)
  /\ Permutation (entries this tx) (entries other tx).
Proof.
  intros Hcfg Hperm. unfold addends, entries. rewrite <- Hcfg. split.
  - apply Permutation_app_head. apply Permutation_app_head.
    apply flat_map_permutation. exact Hperm.
  - apply Permutation_app_head. apply Permutation_app_head.
    apply flat_map_permutation. exact Hperm.
Qed.

(** X13. Two engines with the same configuration and the same callbacks
    registered in another order report the same detections up to order and
    add the same scores, but each adds them in its own registration order,
    in double arithmetic, where the sum depends on the order: with the
    callback scores 0.1, 0.2 and 0.3 one order gives a larger total than the
    other, and at a threshold equal to the larger total one engine rejects
    the transaction the other accepts. *)
Theorem callback_order_can_change_the_verdict :
  (forall (this other : Double.FilterEngine) (tx : ParsedTransaction)
          (v : Double.FilterResult),
      Double.config this = Double.config other ->
      Permutation (Double.jsFilters this) (Double.jsFilters other) ->
      Double.evaluateTransaction this tx = Done v ->
      exists v',
        Double.evaluateTransaction other tx = Done v'
        /\ Permutation (Double.detections v) (Double.detections v')
        /\ Double.score v = runningTotal (addends this tx)
        /\ Double.score v' = runningTotal (addends other tx)
        /\ Permutation (addends this tx) (addends other tx))
  /\ exists (cfg : Double.FilterConfig) (tx : ParsedTransaction)
            (v v' : Double.FilterResult),
      let a := rejectingWith (1 / 10)%float in
      let b := rejectingWith (2 / 10)%float in
      let c := rejectingWith (3 / 10)%float in
      Double.evaluateTransaction
        (Double.addJSFilter (Double.addJSFilter (Double.addJSFilter
           (Double.newFilterEngine cfg) a) b) c) tx = Done v
      /\ Double.evaluateTransaction
           (Double.addJSFilter (Double.addJSFilter (Double.addJSFilter
              (Double.newFilterEngine cfg) c) b) a) tx = Done v'
      /\ (Double.score v' <? Double.score v)%float = true
      /\ Double.accept v = false
      /\ Double.accept v' = true.
Proof.
  split.
  - intros this other tx v Hcfg Hperm Hv.
    destruct (double_evaluateTransaction_spec this tx v Hv) as (_ & Hs & Hd & Hall).
    assert (Hall' : doubleCallbacksReturn other tx).
    { intros f Hin. apply Hall. eapply Permutation_in; [| exact Hin].
      apply Permutation_sym. exact Hperm. }
    destruct (double_evaluateTransaction_total other tx Hall') as (v' & Hv').
    destruct (double_evaluateTransaction_spec other tx v' Hv') as (_ & Hs' & Hd' & _).
    destruct (addends_permutation this other tx Hcfg Hperm) as (Hadd & Hent).
    exists v'. split; [exact Hv' |]. split; [rewrite Hd, Hd'; exact Hent |].
    split; [exact Hs |]. split; [exact Hs' | exact Hadd].
  - exists {| Double.threshold := (0 + 1 / 10 + 2 / 10 + 3 / 10)%float;
              Double.enableP2WSHDetection := false;
              Double.enableOpReturnDetection := false |},
           normalTx.
    eexists. eexists. cbv zeta.
    split; [vm_compute; reflexivity |].
    split; [vm_compute; reflexivity |].
    split; [vm_compute; reflexivity |].
    split; reflexivity.
Qed.

Lemma callbackScore_nonneg (this : FilterEngine) (tx : ParsedTransaction) :
  callbacksScoreNonNegative this tx ->
  callbacksReturn this tx
  /\ (0 <= sumScores (map (callbackScore tx) (jsFilters this)))%Q.
Proof.
  intros Hall. split.
  - intros f Hin. destruct (Hall f Hin) as (result & Hcall & _).
    exists result. exact Hcall.
  - apply sumScores_nonneg. apply Forall_forall. intros x Hin.
    apply in_map_iff in Hin. destruct Hin as (f & <- & Hf).
    destruct (Hall f Hf) as (result & Hcall & Hpos).
    unfold callbackScore. rewrite Hcall.
    destruct (accept result); [apply Qle_refl | exact Hpos].
Qed.

Lemma detectorScore_p2wsh_range (enabled : bool) (tx : ParsedTransaction) :
  (0 <= detectorScore enabled (P2WSHFakeMultisigDetector.detect tx) <= 100)%Q.
Proof.
  destruct (p2wsh_detect_range tx) as (r & Hr & Hrange).
  rewrite Hr. unfold detectorScore.
  destruct (enabled && detected r); [exact Hrange | split; discriminate].
Qed.

Lemma detectorScore_opreturn_range (enabled : bool) (tx : ParsedTransaction) :
  (0 <= detectorScore enabled (ChainedOpReturnDetector.detect tx) <= 95)%Q.
Proof.
  destruct (opreturn_detect_verdict tx) as (r & Hr & Hv).
  rewrite Hr. unfold detectorScore.
  destruct (enabled && detected r); [| split; discriminate].
  unfold opReturnVerdict in Hv.
  repeat match type of Hv with
         | context [if ?c then _ else _] => destruct c
         end;
    injection Hv as _ ->; split; discriminate.
Qed.

(** X14. When the callbacks return scores that are not negative, the total
    score is not negative, so an engine whose threshold is 0 or less rejects
    every transaction.  Without callbacks the score is at most 195 (100 from
    the P2WSH detector, 95 from the OP_RETURN detector), so a threshold
    above 195 accepts every transaction. *)
Theorem score_bounds_and_extreme_thresholds
    (this : FilterEngine) (tx : ParsedTransaction) :
  callbacksScoreNonNegative this tx ->
  exists v,
    evaluateTransaction this tx = Done v
    /\ (0 <= score v)%Q
    /\ ((threshold (config this) <= 0)%Q -> accept v = false)
    /\ (jsFilters this = [] ->
        (score v <= 195)%Q
        /\ ((195 < threshold (config this))%Q -> accept v = true)).
Proof.
  intros Hnonneg.
  destruct (callbackScore_nonneg this tx Hnonneg) as (Hall & Hsum).
  destruct (evaluateTransaction_returns this tx Hall) as (v & Hv & Ha & Hs & _).
  pose proof (detectorScore_p2wsh_range (enableP2WSHDetection (config this)) tx)
    as (Hp0 & Hp100).
  pose proof (detectorScore_opreturn_range (enableOpReturnDetection (config this)) tx)
    as (Ho0 & Ho95).
  assert (Hpos : (0 <= score v)%Q).
  { rewrite Hs. unfold expectedScore.
    apply (Qle_trans _ (0 + 0 + 0)); [discriminate |].
    repeat apply Qplus_le_compat; assumption. }
  exists v. split; [exact Hv |]. split; [exact Hpos |]. split.
  - intros Hthr. destruct (accept v) eqn:Eacc; [| reflexivity].
    exfalso. assert (Hlt : (score v < threshold (config this))%Q)
      by (apply Ha; reflexivity).
    apply (Qlt_irrefl 0).
    eapply Qle_lt_trans; [exact Hpos |]. eapply Qlt_le_trans; eassumption.
  - intros Hnone.
    assert (Hmax : (score v <= 195)%Q).
    { rewrite Hs. unfold expectedScore. rewrite Hnone. cbn [map].
      unfold sumScores. cbn [fold_right].
      apply (Qle_trans _ (100 + 95 + 0)); [| discriminate].
      repeat apply Qplus_le_compat; try assumption. apply Qle_refl. }
    split; [exact Hmax |].
    intros Hthr. apply Ha. eapply Qle_lt_trans; eassumption.
Qed.

(** The theorem at the engine with one callback of score 75. *)
Lemma score_bounds_and_extreme_thresholds_witness :
  callbacksScoreNonNegative
    (addJSFilter (newFilterEngine defaultConfig) (rejectingFilter 75)) chainTx
  /\ exists v,
      evaluateTransaction
        (addJSFilter (newFilterEngine defaultConfig) (rejectingFilter 75)) chainTx
      = Done v
      /\ (0 <= score v)%Q.
Proof.
  assert (H : callbacksScoreNonNegative
                (addJSFilter (newFilterEngine defaultConfig) (rejectingFilter 75))
                chainTx).
  { intros f [<- | []]. eexists. split; [reflexivity | discriminate]. }
  split; [exact H |].
  destruct (score_bounds_and_extreme_thresholds _ chainTx H) as (v & Hv & Hpos & _).
  exists v. split; [exact Hv | exact Hpos].
Defined.

(** X15. With OP_RETURN detection enabled, a transaction with a tagged
    output whose payload starts with the magic prefix [01 bc] is rejected by
    every engine whose threshold is 95 or less and whose callbacks return
    scores that are not negative: the score is at least 95, and the
    detections hold one of confidence 95. *)
Theorem magic_prefix_is_rejected_up_to_threshold_95
    (this : FilterEngine) (tx : ParsedTransaction) :
  enableOpReturnDetection (config this) = true ->
  hasMagic tx = true ->
  (threshold (config this) <= 95)%Q ->
  callbacksScoreNonNegative this tx ->
  exists v,
    evaluateTransaction this tx = Done v
    /\ accept v = false
    /\ (95 <= score v)%Q
    /\ exists d, In d (detections v) /\ detected d = true /\ confidence d = 95%Q.
Proof.
  intros Hon Hmagic Hthr Hnonneg.
  destruct (callbackScore_nonneg this tx Hnonneg) as (Hall & Hsum).
  destruct (evaluateTransaction_returns this tx Hall) as (v & Hv & Ha & Hs & Hd).
  pose proof (detectorScore_p2wsh_range (enableP2WSHDetection (config this)) tx)
    as (Hp0 & _).
  assert (Hsome : collected tx <> []).
  { intros Hnone. unfold hasMagic, payloads in Hmagic. rewrite Hnone in Hmagic.
    discriminate Hmagic. }
  destruct (opreturn_detect_some tx Hsome) as (o & Ho & Hcase & _).
  destruct (Hcase Hmagic) as (Hdet & Hconf & _).
  assert (Hscore : (95 <= score v)%Q).
  { rewrite Hs. unfold expectedScore. rewrite Ho, Hon. unfold detectorScore at 2.
    rewrite Hdet, Hconf. cbn [andb].
    apply (Qle_trans _ (0 + 95 + 0)); [discriminate |].
    repeat apply Qplus_le_compat; try assumption. apply Qle_refl. }
  exists v. split; [exact Hv |]. split; [| split; [exact Hscore |]].
  - destruct (accept v) eqn:Eacc; [| reflexivity].
    exfalso. assert (Hlt : (score v < threshold (config this))%Q)
      by (apply Ha; reflexivity).
    apply (Qlt_irrefl 95).
    eapply Qle_lt_trans; [exact Hscore |]. eapply Qlt_le_trans; eassumption.
  - exists o. split; [| split; assumption].
    rewrite Hd. unfold expectedDetections. rewrite Ho, Hon.
    apply in_or_app. right. apply in_or_app. left.
    unfold detectorDetections. rewrite Hdet. left. reflexivity.
Qed.

(** The theorem at the default engine (threshold 80) and the transaction of
    test 2. *)
Lemma magic_prefix_is_rejected_up_to_threshold_95_witness :
  enableOpReturnDetection (config (newFilterEngine defaultConfig)) = true
  /\ hasMagic chainTx = true
  /\ (threshold (config (newFilterEngine defaultConfig)) <= 95)%Q
  /\ exists v,
      evaluateTransaction (newFilterEngine defaultConfig) chainTx = Done v
      /\ accept v = false.
Proof.
  split; [reflexivity |]. split; [reflexivity |]. split; [discriminate |].
  destruct (magic_prefix_is_rejected_up_to_threshold_95
              (newFilterEngine defaultConfig) chainTx eq_refl eq_refl)
    as (v & Hv & Hrej & _).
  - discriminate.
  - intros f [].
  - exists v. split; [exact Hv | exact Hrej].
Defined.

Lemma detectorScore_disabled (r : outcome DetectionResult) :
  detectorScore false r = 0%Q /\ detectorDetections false r = [].
Proof. destruct r; split; reflexivity. Qed.

Lemma reject_iff_threshold_reached (v : FilterResult) (t : number) :
  (accept v = true <-> (score v < t)%Q) ->
  (accept v = false <-> (t <= score v)%Q).
Proof.
  intros Ha. split.
  - intros Hrej. apply Qnot_lt_le. intros Hlt. apply Ha in Hlt. congruence.
  - intros Hle. destruct (accept v) eqn:E; [| reflexivity].
    exfalso. assert (Hlt : (score v < t)%Q) by (apply Ha; reflexivity).
    exact (Qlt_not_le _ _ Hlt Hle).
Qed.

(** ** The example callbacks, alone and inside the engine *)

Lemma count_many_witness (ins : list TransactionInput) :
  forall n,
    fold_left (fun suspiciousInputs input =>
                 if hasManyWitnessItems input
                 then suspiciousInputs + 1
                 else suspiciousInputs) ins n
    = n + length (filter hasManyWitnessItems ins).
Proof.
  induction ins as [| input rest IH]; intros n; cbn [fold_left filter].
  - cbn [length]. lia.
  - rewrite IH. destruct (hasManyWitnessItems input); cbn [length]; lia.
Qed.

Lemma highWitnessFilter_result (tx : ParsedTransaction) :
  exists result,
    highWitnessFilter tx = Done result
    /\ accept result = (manyWitnessInputs tx =? 0)
    /\ score result = (if 0 <? manyWitnessInputs tx then 60%Q else 0%Q).
Proof.
  unfold highWitnessFilter. rewrite count_many_witness. cbn [Nat.add].
  fold (manyWitnessInputs tx). eexists. split; [reflexivity |].
  split; reflexivity.
Qed.

(** X16. [highWitnessFilter] keeps the callback contract the engine relies
    on: it always returns, it accepts exactly when no input has more than 10
    witness items, and its score is 60 when it does not accept and 0 when
    it does.  Registered alone in an engine with both detectors disabled, it
    makes the engine reject exactly when the threshold is at most that
    score: with a threshold in (0, 60], exactly the transactions with such
    an input. *)
Theorem high_witness_filter_alone (t : number) (tx : ParsedTransaction) :
  (exists result,
      highWitnessFilter tx = Done result
      /\ (accept result = true <-> manyWitnessInputs tx = 0)
      /\ (accept result = false -> score result = 60%Q)
      /\ (accept result = true -> score result = 0%Q))
  /\ exists v,
      evaluateTransaction
        (addJSFilter
           (newFilterEngine {| threshold := t; enableP2WSHDetection := false;
                               enableOpReturnDetection := false |})
           highWitnessFilter) tx
      = Done v
      /\ (score v == if 0 <? manyWitnessInputs tx then 60 else 0)%Q
      /\ length (detections v) = (if 0 <? manyWitnessInputs tx then 1 else 0)
      /\ (accept v = false
          <-> (t <= if 0 <? manyWitnessInputs tx then 60 else 0)%Q).
Proof.
  destruct (highWitnessFilter_result tx) as (result & Hcall & Hacc & Hscore).
  split.
  - exists result. split; [exact Hcall |]. rewrite Hacc, Hscore.
    destruct (manyWitnessInputs tx); cbn [Nat.eqb Nat.ltb Nat.leb].
    + repeat split; try reflexivity; discriminate.
    + repeat split; try reflexivity; try discriminate.
  - match goal with
    | |- exists v, evaluateTransaction ?e tx = Done v /\ _ =>
        destruct (evaluateTransaction_returns e tx) as (v & Hv & Ha & Hs & Hd)
    end.
    { intros f [<- | []]. exists result. exact Hcall. }
    cbn [addJSFilter newFilterEngine config jsFilters app threshold] in Ha.
    assert (Hsc : (score v == if 0 <? manyWitnessInputs tx then 60 else 0)%Q).
    { rewrite Hs. unfold expectedScore.
      cbn [addJSFilter newFilterEngine config jsFilters app map
           enableP2WSHDetection enableOpReturnDetection].
      rewrite (proj1 (detectorScore_disabled _)), (proj1 (detectorScore_disabled _)).
      unfold sumScores. cbn [fold_right]. unfold callbackScore.
      rewrite Hcall, Hacc, Hscore.
      destruct (manyWitnessInputs tx); cbn [Nat.eqb Nat.ltb Nat.leb]; ring. }
    exists v. split; [exact Hv |]. split; [exact Hsc |]. split.
    + rewrite Hd. unfold expectedDetections.
      cbn [addJSFilter newFilterEngine config jsFilters app flat_map
           enableP2WSHDetection enableOpReturnDetection].
      rewrite (proj2 (detectorScore_disabled _)), (proj2 (detectorScore_disabled _)).
      unfold callbackDetections. rewrite Hcall, Hacc.
      destruct (manyWitnessInputs tx); reflexivity.
    + rewrite <- Hsc. apply reject_iff_threshold_reached. exact Ha.
Qed.

Lemma dustFilter_result (tx : ParsedTransaction) :
  dustFilter tx
  = Done {| accept := dustOutputCount tx <=? 5;
            score := if 5 <? dustOutputCount tx then 40%Q else 0%Q;
            detections := [];
            message :=
              if 5 <? dustOutputCount tx
              then Literal ("Suspicious: " ++ showNat (dustOutputCount tx)
                            ++ " dust outputs detected")%string
              else Literal "Acceptable output amounts" |}.
Proof. reflexivity. Qed.

(** X17. In the engine of the usage example (threshold 80, both detectors,
    the dust callback), the dust callback cannot reject on its own: a
    transaction with no suspicious input and no tagged OP_RETURN output is
    accepted however many dust outputs it has, with score 40 or 0.  Together
    with the continuation pattern it does reject: more than 5 dust outputs
    and a chained OP_RETURN pattern give a score of at least 100. *)
Theorem dust_callback_in_the_example_engine (tx : ParsedTransaction) :
  exists v,
    evaluateTransaction exampleEngine tx = Done v
    /\ (suspiciousInputCount tx = 0 -> collected tx = [] ->
        accept v = true
        /\ (score v == if 5 <? dustOutputCount tx then 40 else 0)%Q)
    /\ (5 < dustOutputCount tx -> collected tx <> [] ->
        hasMagic tx = true \/ continuationPattern tx = true ->
        accept v = false /\ (100 <= score v)%Q).
Proof.
  destruct (evaluateTransaction_returns exampleEngine tx) as (v & Hv & Ha & Hs & _).
  { intros f [<- | []]. eexists. apply dustFilter_result. }
  cbn [exampleEngine addJSFilter newFilterEngine config threshold] in Ha.
  assert (Hsum : (score v
                  == detectorScore true (P2WSHFakeMultisigDetector.detect tx)
                     + detectorScore true (ChainedOpReturnDetector.detect tx)
                     + (if 5 <? dustOutputCount tx then 40 else 0))%Q).
  { rewrite Hs. unfold expectedScore.
    cbn [exampleEngine addJSFilter newFilterEngine config jsFilters app map
         enableP2WSHDetection enableOpReturnDetection].
    unfold sumScores. cbn [fold_right]. unfold callbackScore.
    rewrite dustFilter_result. cbn [accept score].
    destruct (Nat.ltb_spec 5 (dustOutputCount tx)) as [Hmany | Hfew].
    - assert (E : (dustOutputCount tx <=? 5) = false) by (apply Nat.leb_gt; lia).
      rewrite E. ring.
    - assert (E : (dustOutputCount tx <=? 5) = true) by (apply Nat.leb_le; lia).
      rewrite E. ring. }
  exists v. split; [exact Hv |]. split.
  - intros Hclean Hnone.
    assert (Hp : detectorScore true (P2WSHFakeMultisigDetector.detect tx) = 0%Q).
    { rewrite p2wsh_detect_exact, Hclean. reflexivity. }
    assert (Ho : detectorScore true (ChainedOpReturnDetector.detect tx) = 0%Q).
    { destruct (opreturn_detect_none tx Hnone) as (o & Hrun & Hd & _).
      rewrite Hrun. unfold detectorScore. rewrite Hd. reflexivity. }
    rewrite Hp, Ho in Hsum.
    assert (Hscore : (score v == if 5 <? dustOutputCount tx then 40 else 0)%Q)
      by (rewrite Hsum; ring).
    split; [| exact Hscore].
    apply Ha. rewrite Hscore. destruct (5 <? dustOutputCount tx); reflexivity.
  - intros Hdust Hsome Hpattern.
    pose proof (detectorScore_p2wsh_range true tx) as (Hp0 & _).
    assert (Ho : (60 <= detectorScore true (ChainedOpReturnDetector.detect tx))%Q).
    { destruct (opreturn_detect_verdict tx) as (o & Hrun & Hverdict).
      rewrite Hrun. unfold detectorScore. unfold opReturnVerdict in Hverdict.
      assert (E0 : (length (collected tx) =? 0) = false).
      { destruct (collected tx); [contradiction | reflexivity]. }
      rewrite E0 in Hverdict.
      destruct (hasMagic tx).
      - injection Hverdict as -> ->. discriminate.
      - destruct Hpattern as [Hm | Hc]; [discriminate Hm |].
        rewrite Hc in Hverdict. injection Hverdict as -> ->. discriminate. }
    apply Nat.ltb_lt in Hdust. rewrite Hdust in Hsum.
    assert (Hscore : (100 <= score v)%Q).
    { rewrite Hsum. apply (Qle_trans _ (0 + 60 + 40)); [discriminate |].
      repeat apply Qplus_le_compat; try assumption. apply Qle_refl. }
    split; [| exact Hscore].
    apply (reject_iff_threshold_reached v 80 Ha).
    eapply Qle_trans; [| exact Hscore]. discriminate.
Qed.

Lemma registerAll_from (filters : list FilterFunction) :
  forall this,
    jsFilters (fold_left addJSFilter filters this) = jsFilters this ++ filters
    /\ config (fold_left addJSFilter filters this) = config this.
Proof.
  induction filters as [| f rest IH]; intros this; cbn [fold_left].
  - rewrite app_nil_r. split; reflexivity.
  - destruct (IH (addJSFilter this f)) as (Hf & Hc).
    rewrite Hf, Hc. cbn [addJSFilter jsFilters config].
    rewrite <- app_assoc. split; reflexivity.
Qed.

(** X18. Registration keeps the callbacks in the order of the calls and never
    touches the configuration: after [addJSFilter] has been called with
    [f1 .. fn] on a new engine, the engine holds exactly [f1 .. fn],
    [getStatistics] reports the configuration it was built with and [n]
    callbacks, and the verdict lists the callbacks' detections in that
    order after the detectors'. *)
Theorem registration_keeps_order_and_configuration
    (cfg : FilterConfig) (filters : list FilterFunction) :
  jsFilters (registerAll cfg filters) = filters
  /\ getStatistics (registerAll cfg filters) = (cfg, length filters)
  /\ (forall filter,
         getStatistics (addJSFilter (registerAll cfg filters) filter)
         = (cfg, S (length filters)))
  /\ forall tx v,
       evaluateTransaction (registerAll cfg filters) tx = Done v ->
       exists fromDetectors,
         detections v = fromDetectors ++ flat_map (callbackDetections tx) filters
         /\ length fromDetectors <= 2.
Proof.
  destruct (registerAll_from filters (newFilterEngine cfg)) as (Hf & Hc).
  cbn [newFilterEngine jsFilters config app] in Hf, Hc.
  fold (registerAll cfg filters) in Hf, Hc.
  split; [exact Hf |]. split; [| split].
  - unfold getStatistics. rewrite Hf, Hc. reflexivity.
  - intros filter. unfold getStatistics. cbn [addJSFilter jsFilters config].
    rewrite Hf, Hc, length_app. cbn [length]. f_equal. lia.
  - intros tx v Hv.
    destruct (evaluateTransaction_spec _ tx v Hv) as (_ & _ & Hd & _).
    rewrite Hd. unfold expectedDetections. rewrite Hf, app_assoc.
    eexists. split; [reflexivity |].
    rewrite length_app. unfold detectorDetections.
    destruct (P2WSHFakeMultisigDetector.detect tx) as [p | ?],
             (ChainedOpReturnDetector.detect tx) as [o | ?];
      repeat match goal with
             | |- context [if ?c then _ else _] => destruct c
             end; cbn [length]; lia.
Qed.

(** ** The Lua engine *)

Section LuaEngineProperties.

Variable LuaVM : Type.
Variable LuaState : Type.
Variable openState : LuaVM -> outcome LuaState.
Variable runScript : LuaVM -> LuaState -> string -> ParsedTransaction -> outcome FilterResult.
Variable closeState : LuaVM -> LuaState -> outcome unit.

Lemma loadAll_without_interpreter (codes : list string) :
  forall this : LuaFilterEngine LuaVM,
    lua LuaVM this = None ->
    loadAll LuaVM this codes = (repeat false (length codes), this).
Proof.
  induction codes as [| luaCode rest IH]; intros this Hnull; [reflexivity |].
  cbn [loadAll length repeat]. unfold loadFilter. rewrite Hnull.
  rewrite (IH this Hnull). reflexivity.
Qed.

(** X19. An engine made by [new LuaFilterEngine()] never loads and never
    runs a Lua filter, whatever interpreter is at hand: every [loadFilter]
    answers [false] and leaves the engine as it was, with no filter stored,
    and [evaluateLuaFilter] answers [accept = true] with score 0 and no
    detection for every transaction and every script, also after any number
    of [loadFilter] calls. *)
Theorem lua_filters_are_never_loaded_nor_run
    (codes : list string) (tx : ParsedTransaction) (luaCode : string) :
  loadAll LuaVM (newLuaFilterEngine LuaVM) codes
  = (repeat false (length codes), newLuaFilterEngine LuaVM)
  /\ luaFilters LuaVM (snd (loadAll LuaVM (newLuaFilterEngine LuaVM) codes)) = []
  /\ exists result,
      evaluateLuaFilter LuaVM LuaState openState runScript closeState
        (snd (loadAll LuaVM (newLuaFilterEngine LuaVM) codes)) tx luaCode
      = Done result
      /\ accept result = true /\ score result = 0%Q /\ detections result = [].
Proof.
  rewrite (loadAll_without_interpreter codes (newLuaFilterEngine LuaVM) eq_refl).
  split; [reflexivity |]. split; [reflexivity |].
  eexists. split; [reflexivity |]. repeat split.
Qed.

End LuaEngineProperties.

(** ** From raw scripts to the detector, on a hex-parsed transaction *)


Lemma payload_needs_op_return (script data : Buffer) :
  payloadAfterHeader script = Some data -> hd_error script = Some x6a.
Proof.
  unfold payloadAfterHeader. destruct script as [| b rest]; [discriminate |].
  destruct (Byte.eqb b x6a) eqn:Eb; [| discriminate].
  intros _. apply Byte.byte_dec_bl in Eb. subst b. reflexivity.
Qed.

(** X20. On a transaction that [parseHex] builds, the detector reports the
    magic prefix (confidence 95) exactly when some output's raw script
    starts with [0x6a] and the bytes after its push header start with
    [01 bc]: tagging, extraction and detection compose without losing or
    inventing a match. *)
Theorem hex_parsed_magic_iff_raw_script (decoded : DecodedTransaction) :
  exists r,
    ChainedOpReturnDetector.detect (parseDecoded decoded) = Done r
    /\ (confidence r = 95%Q
        <-> exists value script data,
              In (value, script) (outs decoded)
              /\ payloadAfterHeader script = Some data
              /\ magicPayload data = true).
Proof.
  destruct (opreturn_detect_verdict (parseDecoded decoded)) as (r & Hr & Hv).
  exists r. split; [exact Hr |].
  assert (Hmagic : hasMagic (parseDecoded decoded) = true
                   <-> exists value script data,
                         In (value, script) (outs decoded)
                         /\ payloadAfterHeader script = Some data
                         /\ magicPayload data = true).
  { unfold hasMagic. rewrite existsb_exists. split.
    - intros (data & Hin & Hm). unfold payloads in Hin.
      apply payloadsOf_In in Hin. destruct Hin as (out & Hout & Hdata).
      unfold collected in Hout. apply filter_In in Hout. destruct Hout as [Hout _].
      cbn [parseDecoded outputs] in Hout. apply in_map_iff in Hout.
      destruct Hout as ([value script] & <- & Hraw).
      exists value, script, data. repeat split; assumption.
    - intros (value & script & data & Hraw & Hdata & Hm).
      exists data. split; [| exact Hm].
      unfold payloads. apply payloadsOf_In.
      exists (outputOfHex (value, script)). split; [| exact Hdata].
      unfold collected. apply filter_In. split.
      + cbn [parseDecoded outputs]. apply in_map. exact Hraw.
      + rewrite outputOfHex_tag. unfold sniffedOpReturn, outputOfHex.
        cbn [scriptPubKey snd].
        pose proof (payload_needs_op_return script data Hdata) as Hhd.
        destruct script as [| b rest]; [discriminate Hhd |].
        injection Hhd as ->. reflexivity. }
  rewrite <- Hmagic. unfold opReturnVerdict in Hv.
  destruct (length (collected (parseDecoded decoded)) =? 0) eqn:E0.
  - injection Hv as _ ->. split; [discriminate |].
    intros Hm. unfold hasMagic, payloads in Hm.
    apply Nat.eqb_eq in E0. apply length_zero_iff_nil in E0. rewrite E0 in Hm.
    discriminate Hm.
  - destruct (hasMagic (parseDecoded decoded)).
    + injection Hv as _ ->. split; reflexivity.
    + repeat match type of Hv with
             | context [if ?c then _ else _] => destruct c
             end;
        injection Hv as _ ->; split; discriminate.
Qed.

(** ** The Lua filters beside the TypeScript detectors *)

(** *** The assertions of [test_filters.lua] *)

Example lua_test_clean_transaction :
  policy.p2wsh_spam.validate clean_tx
  = Done {| policy.accept := true; policy.score := 0;
            policy.reason := policy.Fixed "No suspicious P2WSH patterns" |}
  /\ policy.opreturn_spam.validate clean_tx
     = Done {| policy.accept := true; policy.score := 0;
               policy.reason := policy.Fixed "No OP_RETURN outputs" |}
  /\ policy.spam_filter.validate policy.spam_filter.CONFIG clean_tx
     = Done {| policy.accept := true; policy.score := 0;
               policy.reason := policy.Fixed "Transaction passed all spam filters" |}.
Proof. repeat split. Qed.

Example lua_test_twelve_fake_pubkeys :
  policy.p2wsh_spam.validate spam_tx
  = Done {| policy.accept := false; policy.score := 100;
            policy.reason := policy.P2WSHSpam 1 |}
  /\ policy.spam_filter.validate policy.spam_filter.CONFIG spam_tx
     = Done {| policy.accept := false; policy.score := 100;
               policy.reason :=
                 policy.SpamDetected 100 [("P2WSH"%string, policy.P2WSHSpam 1)] |}.
Proof. split; vm_compute; reflexivity. Qed.

Example lua_test_knotwork_magic_prefix :
  exists v,
    policy.opreturn_spam.validate knotwork_tx = Done v
    /\ policy.accept v = false /\ policy.score v = 95%Z.
Proof. eexists. split; [vm_compute; reflexivity | split; reflexivity]. Qed.

Example lua_test_oversized_data :
  policy.opreturn_spam.validate oversized_tx
  = Done {| policy.accept := false; policy.score := 40;
            policy.reason := policy.ExceedsStandardSize 100 |}.
Proof. vm_compute. reflexivity. Qed.

Example lua_test_continuation_pattern :
  exists v,
    policy.opreturn_spam.validate continuation_tx = Done v
    /\ policy.accept v = false /\ policy.score v = 60%Z.
Proof. eexists. split; [vm_compute; reflexivity | split; reflexivity]. Qed.

Example lua_test_normal_opreturn :
  exists v,
    policy.opreturn_spam.validate normal_opreturn_tx = Done v
    /\ policy.accept v = true.
Proof. eexists. split; [vm_compute; reflexivity | reflexivity]. Qed.


Lemma forUpTo_shift {St : Type} (count : nat) :
  forall (start start' : nat) (body body' : nat -> St -> outcome St),
    (forall k s, k < count -> body (start + k) s = body' (start' + k) s) ->
    forall s, forUpTo count start body s = forUpTo count start' body' s.
Proof.
  induction count as [| count IH]; intros start start' body body' Hsame s;
    [reflexivity |].
  cbn [forUpTo].
  pose proof (Hsame 0 s) as H0. rewrite !Nat.add_0_r in H0. rewrite H0 by lia.
  destruct (body' start' s) as [s' | f]; [| reflexivity]. cbn [bind].
  apply IH. intros k s'' Hk.
  replace (S start + k) with (start + S k) by lia.
  replace (S start' + k) with (start' + S k) by lia.
  apply Hsame. lia.
Qed.

Lemma zero_scan_same (p : byte) (data : Buffer) (k : nat) (st : nat * nat * nat) :
  policy.p2wsh_spam.zero_scan (p :: data) (2 + k) st
  = P2WSHFakeMultisigDetector.zeroScan data (0 + k) st.
Proof.
  destruct st as [[zero_count consecutive_zeros] max_consecutive_zeros].
  unfold policy.p2wsh_spam.zero_scan, P2WSHFakeMultisigDetector.zeroScan.
  cbn [Nat.add stringByte]. unfold byteAt, itemAt. cbn [nth_error].
  destruct (nth_error data k) as [b |]; [| reflexivity]. cbn [bind].
  destruct (Byte.eqb b x00); [| reflexivity].
  destruct (Nat.ltb_spec max_consecutive_zeros (consecutive_zeros + 1)).
  - rewrite Nat.max_r by lia. reflexivity.
  - rewrite Nat.max_l by lia. reflexivity.
Qed.

Lemma repeat_scan_same (p : byte) (data : Buffer) (k n : nat) :
  k + 3 < length data ->
  policy.p2wsh_spam.repeat_scan (p :: data) (2 + k) n
  = P2WSHFakeMultisigDetector.repeatScan data (0 + k) n.
Proof.
  intros Hin.
  unfold policy.p2wsh_spam.repeat_scan, P2WSHFakeMultisigDetector.repeatScan.
  cbn [Nat.add]. replace (S (S k) + 1) with (S (S (k + 1))) by lia.
  replace (S (S k) + 2) with (S (S (k + 2))) by lia.
  replace (S (S k) + 3) with (S (S (k + 3))) by lia.
  cbn [stringByte]. unfold byteAt.
  change (itemAt (p :: data) (S ?j)) with (itemAt data j).
  destruct (itemAt_inside data k) as (b1 & -> & _); [lia |].
  destruct (itemAt_inside data (k + 1)) as (b2 & -> & _); [lia |].
  destruct (itemAt_inside data (k + 2)) as (b3 & -> & _); [lia |].
  destruct (itemAt_inside data (k + 3)) as (b4 & -> & _); [lia |].
  cbn [bind andThen].
  destruct (Byte.eqb b1 b2); cbn [andThen bind andb]; [| reflexivity].
  destruct (Byte.eqb b1 b3); cbn [andThen bind andb]; reflexivity.
Qed.

Lemma is_likely_fake_pubkey_same (pubkey : Buffer) :
  policy.p2wsh_spam.is_likely_fake_pubkey pubkey
  = P2WSHFakeMultisigDetector.isLikelyFakePubkey pubkey.
Proof.
  unfold policy.p2wsh_spam.is_likely_fake_pubkey,
    P2WSHFakeMultisigDetector.isLikelyFakePubkey.
  destruct (length pubkey =? 33) eqn:Elen; [| reflexivity]. cbn [negb].
  apply Nat.eqb_eq in Elen.
  destruct pubkey as [| p data]; [discriminate Elen |].
  cbn [stringByte]. unfold byteAt at 1 2, itemAt. cbn [nth_error bind].
  destruct (negb (Byte.eqb p x02) && negb (Byte.eqb p x03)); [reflexivity |].
  unfold sliceFrom. cbn [skipn].
  assert (Hdata : length data = 32) by (cbn [length] in Elen; lia).
  rewrite Hdata.
  rewrite (forUpTo_shift 32 2 0 (policy.p2wsh_spam.zero_scan (p :: data))
             (P2WSHFakeMultisigDetector.zeroScan data))
    by (intros k s _; apply zero_scan_same).
  destruct (forUpTo 32 0 (P2WSHFakeMultisigDetector.zeroScan data) (0, 0, 0))
    as [[[zero_count trailing] max_consecutive_zeros] | f]; cbn [bind];
    [| reflexivity].
  destruct ((4 <? max_consecutive_zeros) || (10 <? zero_count)); [reflexivity |].
  rewrite (forUpTo_shift 29 2 0 (policy.p2wsh_spam.repeat_scan (p :: data))
             (P2WSHFakeMultisigDetector.repeatScan data))
    by (intros k s Hk; apply repeat_scan_same; lia).
  reflexivity.
Qed.

Lemma count_fake_same (pubkey : Buffer) (n : nat) :
  policy.p2wsh_spam.count_fake pubkey n
  = P2WSHFakeMultisigDetector.countFake pubkey n.
Proof.
  unfold policy.p2wsh_spam.count_fake, P2WSHFakeMultisigDetector.countFake.
  rewrite is_likely_fake_pubkey_same. reflexivity.
Qed.

Lemma count_fake_loop (pubkeys : list Buffer) :
  forall n,
    forEach pubkeys policy.p2wsh_spam.count_fake n
    = Done (n + length (filter countedFake pubkeys)).
Proof.
  induction pubkeys as [| pubkey rest IH]; intros n.
  - cbn [forEach filter length]. rewrite Nat.add_0_r. reflexivity.
  - cbn [forEach]. rewrite count_fake_same, countFake_spec. cbn [bind].
    rewrite IH. cbn [filter].
    destruct (countedFake pubkey); cbn [length]; f_equal; lia.
Qed.

Lemma countedFake_full (pubkey : Buffer) :
  countedFake pubkey = true -> fullKey pubkey = true.
Proof.
  unfold countedFake, fullKey. intros H.
  apply andb_true_iff in H. destruct H as [H _].
  apply andb_true_iff in H. destruct H as [H _]. exact H.
Qed.

Lemma filter_countedFake_full (pubkeys : list Buffer) :
  filter countedFake (filter fullKey pubkeys) = filter countedFake pubkeys.
Proof.
  induction pubkeys as [| pubkey rest IH]; [reflexivity |].
  cbn [filter]. destruct (fullKey pubkey) eqn:Efull.
  - cbn [filter]. rewrite IH. reflexivity.
  - destruct (countedFake pubkey) eqn:Efake; [| exact IH].
    apply countedFake_full in Efake. congruence.
Qed.

Lemma stringSub_slice (script : Buffer) (i : nat) :
  stringSub script (i + 2) (i + 1 + 33) = slice script (i + 1) (i + 34).
Proof.
  unfold stringSub, slice.
  replace (i + 1 + 33 + 1 - (i + 2)) with 33 by lia.
  replace (i + 34 - (i + 1)) with 33 by lia.
  replace (i + 2 - 1) with (i + 1) by lia.
  reflexivity.
Qed.

Lemma slice_cut_short (script : Buffer) (i : nat) :
  length script < i + 34 -> fullKey (slice script (i + 1) (i + 34)) = false.
Proof.
  intros Hcut. unfold fullKey, slice. apply Nat.eqb_neq.
  rewrite length_firstn, length_skipn. lia.
Qed.

(** The two walks side by side: the Lua walk, which counts from 1, keeps the
    candidates of the TypeScript walk that have their 33 bytes. *)
Lemma collect_pubkeys_keeps_full (budget : nat) :
  forall (script : Buffer) (i : nat) (pubkeys kept : list Buffer),
    1 <= budget -> length script <= budget + i ->
    exists pushed,
      P2WSHFakeMultisigDetector.collectPubkeys budget script i pubkeys
      = Done (pubkeys ++ pushed)
      /\ policy.p2wsh_spam.collect_pubkeys budget script (i + 1) kept
         = Done (kept ++ filter fullKey pushed).
Proof.
  induction budget as [| budget IH]; intros script i pubkeys kept Hpos Hlen; [lia |].
  cbn [P2WSHFakeMultisigDetector.collectPubkeys policy.p2wsh_spam.collect_pubkeys].
  replace (i + 1 + 1) with (i + 2) by lia.
  destruct (Nat.ltb_spec (i + 2) (length script)) as [Hin | Hout].
  2:{ exists []. cbn [filter]. rewrite !app_nil_r. split; reflexivity. }
  destruct (itemAt_inside script i) as (opcode & Hread & _); [lia |].
  replace (stringByte script (i + 1)) with (byteAt script i)
    by (rewrite Nat.add_1_r; reflexivity).
  unfold byteAt. rewrite Hread. cbn [bind].
  destruct (Byte.eqb opcode x21).
  - destruct (Nat.leb_spec (i + 1 + 33) (length script)) as [Hfull | Hcut].
    + destruct (IH script (i + 34) (pubkeys ++ [slice script (i + 1) (i + 34)])
                  (kept ++ [slice script (i + 1) (i + 34)]))
        as (pushed & Hts & Hlua); try lia.
      exists (slice script (i + 1) (i + 34) :: pushed).
      rewrite Hts, <- app_assoc. split; [reflexivity |].
      rewrite stringSub_slice.
      replace (i + 1 + 34) with (i + 34 + 1) by lia.
      rewrite Hlua, <- app_assoc. cbn [filter app].
      unfold fullKey at 2. rewrite slice_full by lia. reflexivity.
    + exists [slice script (i + 1) (i + 34)].
      cbn [filter]. rewrite slice_cut_short by lia. rewrite app_nil_r.
      split; [| reflexivity].
      destruct budget as [| budget']; [lia |].
      cbn [P2WSHFakeMultisigDetector.collectPubkeys].
      destruct (Nat.ltb_spec (i + 34 + 2) (length script)); [lia | reflexivity].
  - assert (Hnext : exists pushed,
               P2WSHFakeMultisigDetector.collectPubkeys budget script (i + 1) pubkeys
               = Done (pubkeys ++ pushed)
               /\ policy.p2wsh_spam.collect_pubkeys budget script (i + 2) kept
                  = Done (kept ++ filter fullKey pushed)).
    { replace (i + 2) with (i + 1 + 1) by lia. apply IH; lia. }
    destruct ((0x51 <=? code opcode) && (code opcode <=? 0x60))%N;
      [exact Hnext |].
    destruct (Byte.eqb opcode xae); [| exact Hnext].
    exists []. cbn [filter]. rewrite !app_nil_r. split; reflexivity.
Qed.

Lemma collect_pubkeys_full (script : Buffer) :
  script <> [] ->
  policy.p2wsh_spam.collect_pubkeys (length script) script 2 []
  = Done (fullCandidates script).
Proof.
  intros Hne.
  assert (Hpos : 1 <= length script).
  { destruct script; [contradiction | cbn [length]; lia]. }
  destruct (collect_pubkeys_keeps_full (length script) script 1 [] [])
    as (pushed & Hts & Hlua); [exact Hpos | lia |].
  cbn [Nat.add app] in Hts, Hlua.
  unfold fullCandidates, candidates. rewrite Hts. exact Hlua.
Qed.

Lemma analyze_witness_script_spec (script : Buffer) :
  policy.p2wsh_spam.analyze_witness_script script = Done (luaAnalysis script).
Proof.
  unfold policy.p2wsh_spam.analyze_witness_script, luaAnalysis, luaScriptSuspicious,
    checkmultisigShaped.
  destruct (rev script) as [| b front] eqn:Hrev.
  - assert (script = []) as ->.
    { rewrite <- (rev_involutive script), Hrev. reflexivity. }
    reflexivity.
  - rewrite (last_byte_nonempty script b front Hrev).
    assert (Hne : script <> []) by (intros ->; discriminate Hrev).
    assert (Hlast : stringByte script (length script) = Done b).
    { pose proof (last_byte_read script b front Hrev) as Hread.
      destruct script as [| s0 rest]; [contradiction |].
      cbn [length stringByte]. cbn [length] in Hread.
      rewrite Nat.sub_1_r in Hread. exact Hread. }
    rewrite Hlast. cbn [bind].
    destruct (Byte.eqb b xae); cbn [negb andb]; [| reflexivity].
    rewrite (collect_pubkeys_full script Hne). cbn [bind].
    rewrite count_fake_loop. cbn [bind Nat.add].
    assert (Hfake : filter countedFake (fullCandidates script)
                    = filter countedFake (candidates script))
      by apply filter_countedFake_full.
    rewrite Hfake, half_gtb. unfold suspicionRule.
    destruct (10 <? length (fullCandidates script));
      rewrite ?orb_true_r, ?orb_false_r; reflexivity.
Qed.

(** X21. The Lua test for a fake pubkey and the TypeScript one are the same
    function: on every byte string both return, with the same answer. *)
Theorem lua_pubkey_test_agrees_with_typescript (pubkey : Buffer) :
  policy.p2wsh_spam.is_likely_fake_pubkey pubkey
  = P2WSHFakeMultisigDetector.isLikelyFakePubkey pubkey
  /\ policy.p2wsh_spam.is_likely_fake_pubkey pubkey = Done (countedFake pubkey).
Proof.
  split; [apply is_likely_fake_pubkey_same |].
  rewrite is_likely_fake_pubkey_same. apply isLikelyFakePubkey_spec.
Qed.

Lemma full_candidates_count (script : Buffer) :
  length (fullCandidates script) <= length (candidates script)
  /\ length (candidates script) <= length (fullCandidates script) + 1
  /\ (forallb fullKey (candidates script) = true ->
      fullCandidates script = candidates script).
Proof.
  unfold fullCandidates.
  destruct (candidates_shape script) as (Hfull & _).
  split; [apply filter_length_le |]. split.
  - induction (candidates script) as [| lastKey front _] using rev_ind;
      [simpl; lia |].
    rewrite removelast_last in Hfull.
    rewrite filter_app, !length_app. cbn [length].
    assert (Hall : length (filter fullKey front) = length front).
    { clear - Hfull. induction Hfull as [| k ks Hk _ IH]; [reflexivity |].
      cbn [filter]. unfold fullKey at 1. apply Nat.eqb_eq in Hk. rewrite Hk.
      cbn [length]. lia. }
    rewrite Hall. lia.
  - intros Hall. clear Hfull.
    induction (candidates script) as [| k ks IH]; [reflexivity |].
    cbn [forallb] in Hall. apply andb_true_iff in Hall. destruct Hall as [Hk Hks].
    cbn [filter]. rewrite Hk, (IH Hks). reflexivity.
Qed.

(** X22. The Lua walk keeps the candidates of the TypeScript walk that have
    all their 33 bytes: it stops at a push the end of the script cuts short,
    where the TypeScript walk counts what is left as one more pubkey.  The
    two analyses agree on the CHECKMULTISIG flag, the size and the fake
    count, their pubkey counts differ by at most one, and with equal counts
    they give the same verdict.  With a cut-short push either one can be
    suspicious where the other is not. *)
Theorem lua_walk_keeps_only_full_candidates (script : Buffer) :
  (exists a r,
      policy.p2wsh_spam.analyze_witness_script script = Done a
      /\ P2WSHFakeMultisigDetector.analyzeWitnessScript script = Done r
      /\ policy.p2wsh_spam.has_checkmultisig a = hasCheckmultisig r
      /\ policy.p2wsh_spam.script_size a = scriptSize r
      /\ policy.p2wsh_spam.fake_pubkey_count a = fakePubkeyCount r
      /\ policy.p2wsh_spam.pubkey_count a <= pubkeyCount r
         <= policy.p2wsh_spam.pubkey_count a + 1
      /\ (policy.p2wsh_spam.pubkey_count a = pubkeyCount r ->
          policy.p2wsh_spam.is_suspicious a = isSuspicious r)
      /\ (forallb fullKey (candidates script) = true ->
          policy.p2wsh_spam.pubkey_count a = pubkeyCount r))
  /\ (exists a r,
        policy.p2wsh_spam.analyze_witness_script shortestSuspiciousScript = Done a
        /\ P2WSHFakeMultisigDetector.analyzeWitnessScript shortestSuspiciousScript
           = Done r
        /\ policy.p2wsh_spam.is_suspicious a = false /\ isSuspicious r = true)
  /\ (exists a r,
        policy.p2wsh_spam.analyze_witness_script cutShortAfterFiveKeys = Done a
        /\ P2WSHFakeMultisigDetector.analyzeWitnessScript cutShortAfterFiveKeys
           = Done r
        /\ policy.p2wsh_spam.is_suspicious a = true /\ isSuspicious r = false).
Proof.
  split; [| split;
            (eexists; eexists; split; [vm_compute; reflexivity |];
             split; [vm_compute; reflexivity |]; split; reflexivity)].
  pose proof (analyze_witness_script_spec script) as Hlua.
  destruct (full_candidates_count script) as (Hle & Hge & Hsame).
  unfold luaAnalysis, luaScriptSuspicious in Hlua.
  destruct (checkmultisigShaped script) eqn:Hshape; cbn [andb] in Hlua.
  - destruct (analyzeWitnessScript_shaped script Hshape) as (pubkeys & Hrun & _ & Hr).
    assert (Hc : candidates script = pubkeys)
      by (unfold candidates; rewrite Hrun; reflexivity).
    rewrite Hc in *.
    eexists. eexists. split; [exact Hlua |]. split; [exact Hr |].
    cbn [policy.p2wsh_spam.has_checkmultisig policy.p2wsh_spam.script_size
         policy.p2wsh_spam.fake_pubkey_count policy.p2wsh_spam.pubkey_count
         policy.p2wsh_spam.is_suspicious
         hasCheckmultisig scriptSize fakePubkeyCount pubkeyCount isSuspicious].
    repeat split; try lia.
    + intros ->. reflexivity.
    + intros Hall. rewrite (Hsame Hall). reflexivity.
  - eexists. eexists. split; [exact Hlua |].
    split; [apply analyzeWitnessScript_unshaped; exact Hshape |].
    cbn [policy.p2wsh_spam.has_checkmultisig policy.p2wsh_spam.script_size
         policy.p2wsh_spam.fake_pubkey_count policy.p2wsh_spam.pubkey_count
         policy.p2wsh_spam.is_suspicious
         hasCheckmultisig scriptSize fakePubkeyCount pubkeyCount isSuspicious].
    repeat split; lia.
Qed.

(** *** The P2WSH filter *)

Lemma last_item (stack : list Buffer) :
  stack <> [] -> itemAt stack (length stack - 1) = Done (last stack []).
Proof.
  intros Hne. pose proof (hd_rev_last stack [] Hne) as Hlast.
  destruct (rev stack) as [| item front] eqn:Hrev; [discriminate Hlast |].
  cbn [hd_error] in Hlast. injection Hlast as <-.
  exact (last_item_read stack item front Hrev).
Qed.

Lemma luaScriptSuspicious_nonempty (script : Buffer) :
  luaScriptSuspicious script = true -> (0 <? length script) = true.
Proof.
  unfold luaScriptSuspicious. destruct script; [discriminate | reflexivity].
Qed.

Lemma scan_input_spec (input : policy.Input) (suspicious_count total_p2wsh : nat) :
  policy.p2wsh_spam.scan_input input (suspicious_count, total_p2wsh)
  = Done (suspicious_count + countIf (luaSuspiciousInput input),
          total_p2wsh + countIf (luaInPopulation input)).
Proof.
  unfold policy.p2wsh_spam.scan_input, luaSuspiciousInput, luaInPopulation.
  destruct (policy.get_witness input) as [stack |].
  2:{ cbn [countIf]. rewrite !Nat.add_0_r. reflexivity. }
  destruct (3 <=? length stack) eqn:E3; cbn [andb countIf].
  2:{ rewrite !Nat.add_0_r. reflexivity. }
  rewrite last_item by (intros ->; discriminate E3). cbn [bind].
  destruct (0 <? length (last stack [])) eqn:Elen.
  - rewrite analyze_witness_script_spec. cbn [bind].
    assert (Hs : policy.p2wsh_spam.is_suspicious (luaAnalysis (last stack []))
                 = luaScriptSuspicious (last stack [])).
    { unfold luaAnalysis, luaScriptSuspicious.
      destruct (checkmultisigShaped (last stack [])); reflexivity. }
    rewrite Hs.
    destruct (luaScriptSuspicious (last stack [])); cbn [countIf];
      rewrite ?Nat.add_0_r; reflexivity.
  - destruct (luaScriptSuspicious (last stack [])) eqn:Es.
    + apply luaScriptSuspicious_nonempty in Es. congruence.
    + cbn [countIf]. rewrite !Nat.add_0_r. reflexivity.
Qed.

Lemma scan_input_loop (ins : list policy.Input) :
  forall suspicious_count total_p2wsh,
    forEach ins policy.p2wsh_spam.scan_input (suspicious_count, total_p2wsh)
    = Done (suspicious_count + length (filter luaSuspiciousInput ins),
            total_p2wsh + length (filter luaInPopulation ins)).
Proof.
  induction ins as [| input rest IH]; intros s t.
  - cbn [forEach filter length]. rewrite !Nat.add_0_r. reflexivity.
  - cbn [forEach]. rewrite scan_input_spec. cbn [bind]. rewrite IH.
    cbn [filter].
    destruct (luaSuspiciousInput input), (luaInPopulation input);
      cbn [countIf length]; apply f_equal; apply f_equal2; lia.
Qed.

Lemma lua_suspicious_in_population (ins : list policy.Input) :
  length (filter luaSuspiciousInput ins) <= length (filter luaInPopulation ins).
Proof.
  induction ins as [| input rest IH]; [apply le_n |].
  cbn [filter].
  assert (Himp : luaSuspiciousInput input = true -> luaInPopulation input = true).
  { unfold luaSuspiciousInput, luaInPopulation.
    destruct (policy.get_witness input) as [stack |]; [| discriminate].
    intros H. apply andb_true_iff in H. destruct H as [H3 Hs].
    rewrite H3, (luaScriptSuspicious_nonempty _ Hs). reflexivity. }
  destruct (luaSuspiciousInput input), (luaInPopulation input); cbn [length];
    try lia; discriminate (Himp eq_refl).
Qed.

(** The ratio of the P2WSH detectors, rounded down. *)
Lemma floor_ratio (s t : nat) :
  Qfloor ((numberOfNat s / numberOfNat t) * 100)%Q
  = (100 * Z.of_nat s / Z.of_nat t)%Z.
Proof.
  rewrite Zdiv_Qdiv. apply Qfloor_comp.
  unfold numberOfNat. rewrite inject_Z_mult. unfold Qdiv. ring.
Qed.

Lemma validate_p2wsh_spec (tx : policy.Transaction) :
  let s := length (filter luaSuspiciousInput (policy.get_inputs tx)) in
  let t := length (filter luaInPopulation (policy.get_inputs tx)) in
  policy.p2wsh_spam.validate tx
  = Done (if s =? 0
          then {| policy.accept := true; policy.score := 0;
                  policy.reason := policy.Fixed "No suspicious P2WSH patterns" |}
          else {| policy.accept := false;
                  policy.score := (100 * Z.of_nat s / Z.of_nat t)%Z;
                  policy.reason := policy.P2WSHSpam s |}).
Proof.
  intros s t. unfold policy.p2wsh_spam.validate.
  rewrite scan_input_loop. cbn [bind Nat.add]. fold s t.
  pose proof (lua_suspicious_in_population (policy.get_inputs tx)) as Hle.
  fold s t in Hle.
  destruct (s =? 0) eqn:Es; [reflexivity |].
  apply Nat.eqb_neq in Es.
  assert (Ht : (0 <? t) = true) by (apply Nat.ltb_lt; lia).
  rewrite Ht, floor_ratio. reflexivity.
Qed.

(** X23. The Lua P2WSH filter always returns.  It accepts exactly when no
    input with at least three witness items has a last item its analysis
    marks suspicious, and then its score is 0.  A rejection carries a score
    between 0 and 100: 100 when every counted input is suspicious, and
    possibly 0, as for one suspicious input among a hundred innocent ones. *)
Theorem lua_p2wsh_filter_verdict (tx : policy.Transaction) :
  (exists v,
      policy.p2wsh_spam.validate tx = Done v
      /\ (policy.accept v = true
          <-> forall input, In input (policy.get_inputs tx) ->
                            luaSuspiciousInput input = false)
      /\ (policy.accept v = true -> policy.score v = 0%Z)
      /\ (0 <= policy.score v <= 100)%Z
      /\ (policy.accept v = false ->
          (forall input, In input (policy.get_inputs tx) ->
                         luaInPopulation input = true ->
                         luaSuspiciousInput input = true) ->
          policy.score v = 100%Z))
  /\ exists v,
      policy.p2wsh_spam.validate dilutedSpam = Done v
      /\ policy.accept v = false /\ policy.score v = 0%Z.
Proof.
  split; [| eexists; split; [vm_compute; reflexivity | split; reflexivity]].
  eexists. split; [apply validate_p2wsh_spec |].
  pose proof (lua_suspicious_in_population (policy.get_inputs tx)) as Hle.
  set (s := length (filter luaSuspiciousInput (policy.get_inputs tx))) in *.
  set (t := length (filter luaInPopulation (policy.get_inputs tx))) in *.
  assert (Hnone : s = 0 <-> forall input, In input (policy.get_inputs tx) ->
                                          luaSuspiciousInput input = false).
  { unfold s. clear. induction (policy.get_inputs tx) as [| input rest IH].
    - split; [intros _ input [] | reflexivity].
    - cbn [filter]. destruct (luaSuspiciousInput input) eqn:Ei.
      + split; [discriminate |]. intros H.
        specialize (H input (or_introl eq_refl)). congruence.
      + rewrite IH. split.
        * intros H i [<- | Hi]; [exact Ei | exact (H i Hi)].
        * intros H i Hi. apply H. right. exact Hi. }
  destruct (s =? 0) eqn:Es; cbn [policy.accept policy.score].
  - apply Nat.eqb_eq in Es.
    split; [split; [intros _; apply Hnone; exact Es | reflexivity] |].
    split; [reflexivity |]. split; [lia | discriminate].
  - apply Nat.eqb_neq in Es. split; [| split; [discriminate | split]].
    + split; [discriminate |]. intros H. apply Hnone in H. contradiction.
    + split.
      * apply Z.div_pos; lia.
      * apply Z.div_le_upper_bound; lia.
    + intros _ Hall.
      assert (Hst : s = t).
      { unfold s, t. clear - Hall.
        induction (policy.get_inputs tx) as [| input rest IH]; [reflexivity |].
        cbn [filter].
        assert (Hrest : length (filter luaSuspiciousInput rest)
                        = length (filter luaInPopulation rest)).
        { apply IH. intros i Hi. apply Hall. right. exact Hi. }
        pose proof (Hall input (or_introl eq_refl)) as Hin.
        destruct (luaInPopulation input) eqn:Ep.
        - rewrite (Hin eq_refl). cbn [length]. lia.
        - destruct (luaSuspiciousInput input) eqn:Esus; [| exact Hrest].
          exfalso. revert Esus Ep. unfold luaSuspiciousInput, luaInPopulation.
          destruct (policy.get_witness input) as [stack |]; [| discriminate].
          intros H1 H2. apply andb_true_iff in H1. destruct H1 as [H3 Hs].
          rewrite H3, (luaScriptSuspicious_nonempty _ Hs) in H2. discriminate H2. }
      rewrite <- Hst. rewrite Z.div_mul; lia.
Qed.

Lemma filter_map_length {A B : Type} (f : B -> bool) (g : A -> B) (l : list A) :
  length (filter f (map g l)) = length (filter (fun x => f (g x)) l).
Proof.
  induction l as [| x rest IH]; [reflexivity |].
  cbn [map filter]. destruct (f (g x)); cbn [length]; rewrite IH; reflexivity.
Qed.

Lemma filter_same_length {A : Type} (f g : A -> bool) (l : list A) :
  (forall x, In x l -> f x = g x) -> length (filter f l) = length (filter g l).
Proof. intros Hsame. rewrite (filter_ext_in f g l Hsame). reflexivity. Qed.

Lemma luaScriptSuspicious_full (script : Buffer) :
  forallb fullKey (candidates script) = true ->
  luaScriptSuspicious script = scriptSuspicious script.
Proof.
  intros Hall. destruct (full_candidates_count script) as (_ & _ & Hsame).
  unfold luaScriptSuspicious, scriptSuspicious. rewrite (Hsame Hall). reflexivity.
Qed.

Lemma luaSuspiciousInput_host (input : TransactionInput) :
  negb (inPopulation input) || forallb fullKey (candidates (lastWitnessItem input))
  = true ->
  luaSuspiciousInput (hostInput input) = suspiciousInput input.
Proof.
  unfold luaSuspiciousInput, suspiciousInput, inPopulation, lastWitnessItem, hostInput.
  cbn [policy.get_witness].
  destruct (witness input) as [stack |]; [| reflexivity].
  destruct (3 <=? length stack); cbn [negb orb andb]; [| reflexivity].
  apply luaScriptSuspicious_full.
Qed.

Lemma luaInPopulation_host (input : TransactionInput) :
  negb (inPopulation input) || (0 <? length (lastWitnessItem input)) = true ->
  luaInPopulation (hostInput input) = inPopulation input.
Proof.
  unfold luaInPopulation, inPopulation, lastWitnessItem, hostInput.
  cbn [policy.get_witness].
  destruct (witness input) as [stack |]; [| reflexivity].
  destruct (3 <=? length stack); cbn [negb orb andb]; [| reflexivity].
  intros ->. reflexivity.
Qed.

(** X24. Where no counted witness script has a push that the end of the
    script cuts short, the Lua filter and the TypeScript detector decide
    alike: the Lua filter accepts exactly when the TypeScript detector
    detects nothing.  Where besides no counted witness script is empty, the
    Lua score is the TypeScript confidence rounded down. *)
Theorem lua_and_typescript_p2wsh_verdicts_agree (tx : ParsedTransaction) :
  noCutShortCandidate tx = true ->
  exists v r,
    policy.p2wsh_spam.validate (hostTransaction tx) = Done v
    /\ P2WSHFakeMultisigDetector.detect tx = Done r
    /\ policy.accept v = negb (detected r)
    /\ (noEmptyWitnessScript tx = true -> policy.score v = Qfloor (confidence r)).
Proof.
  intros Hfull. unfold noCutShortCandidate in Hfull.
  rewrite forallb_forall in Hfull.
  eexists. eexists. split; [apply validate_p2wsh_spec |].
  split; [apply p2wsh_detect_exact |].
  cbn [hostTransaction policy.get_inputs].
  assert (Hs : length (filter luaSuspiciousInput (map hostInput (inputs tx)))
               = suspiciousInputCount tx).
  { rewrite filter_map_length. apply filter_same_length.
    intros input Hin. apply luaSuspiciousInput_host. apply Hfull. exact Hin. }
  rewrite Hs.
  destruct (suspiciousInputCount tx =? 0) eqn:Es;
    cbn [policy.accept policy.score detected confidence negb].
  - split; [reflexivity |]. intros _. reflexivity.
  - split; [reflexivity |]. intros Hne. unfold noEmptyWitnessScript in Hne.
    rewrite forallb_forall in Hne.
    assert (Ht : length (filter luaInPopulation (map hostInput (inputs tx)))
                 = totalP2WSHInputCount tx).
    { rewrite filter_map_length. apply filter_same_length.
      intros input Hin. apply luaInPopulation_host. apply Hne. exact Hin. }
    rewrite Ht, ratioConfidence_floor. reflexivity.
Qed.

(** The theorem at the spam transaction of the TypeScript tests. *)
Lemma lua_and_typescript_p2wsh_verdicts_agree_witness :
  noCutShortCandidate spamTx = true
  /\ exists v r,
      policy.p2wsh_spam.validate (hostTransaction spamTx) = Done v
      /\ P2WSHFakeMultisigDetector.detect spamTx = Done r
      /\ policy.accept v = negb (detected r)
      /\ (noEmptyWitnessScript spamTx = true -> policy.score v = Qfloor (confidence r)).
Proof.
  assert (H : noCutShortCandidate spamTx = true) by (vm_compute; reflexivity).
  split; [exact H |].
  exact (lua_and_typescript_p2wsh_verdicts_agree spamTx H).
Defined.

(** *** The OP_RETURN filter *)

(** The index the Lua extractor moves to, against the header the TypeScript
    extractor skips. *)
Lemma lua_skip_is_pushHeader (opcode : byte) :
  (if Byte.eqb opcode x4c then Some (2 + 2)
   else if Byte.eqb opcode x4d then Some (2 + 3)
   else if Byte.eqb opcode x4e then Some (2 + 5)
   else if ((0 <? code opcode) && (code opcode <=? 0x4b))%N then Some (2 + 1)
   else None)
  = if 0 <? pushHeader opcode then Some (pushHeader opcode + 2) else None.
Proof. destruct opcode; reflexivity. Qed.

Lemma extract_opreturn_data_spec (script : Buffer) :
  policy.opreturn_spam.extract_opreturn_data script = Done (luaPayload script).
Proof.
  unfold policy.opreturn_spam.extract_opreturn_data, luaPayload, payloadAfterHeader,
    recognisedPush.
  destruct script as [| b [| op rest]]; [reflexivity | |].
  - destruct (Byte.eqb b x6a); reflexivity.
  - change (length (b :: op :: rest) <? 2) with false. cbv iota.
    cbn [stringByte]. unfold byteAt, itemAt. cbn [nth_error bind].
    destruct (Byte.eqb b x6a); cbn [negb]; [| reflexivity].
    rewrite lua_skip_is_pushHeader.
    destruct (Nat.ltb_spec 0 (pushHeader op)) as [Hpush | Hnone].
    + unfold stringSubFrom.
      replace (pushHeader op + 2 - 1) with (S (pushHeader op)) by lia.
      cbn [skipn].
      pose proof (length_skipn (pushHeader op) (op :: rest)) as Hlen.
      destruct (Nat.ltb_spec (length (b :: op :: rest)) (pushHeader op + 2))
        as [Hcut | Hcut]; cbn [length] in Hlen, Hcut.
      * destruct (skipn (pushHeader op) (op :: rest)); [reflexivity |].
        cbn [length] in Hlen. lia.
      * destruct (skipn (pushHeader op) (op :: rest)); [| reflexivity].
        cbn [length] in Hlen. lia.
    + destruct (skipn (pushHeader op) (op :: rest)); reflexivity.
Qed.

Lemma has_magic_prefix_spec (data : Buffer) :
  policy.opreturn_spam.has_magic_prefix (Some data) = Done (magicPayload data).
Proof.
  unfold policy.opreturn_spam.has_magic_prefix, magicPayload.
  destruct data as [| a [| b rest]]; reflexivity.
Qed.

Lemma luaPayload_is_payload (script data : Buffer) :
  luaPayload script = Some data ->
  payloadAfterHeader script = Some data /\ data <> [] /\ recognisedPush script = true.
Proof.
  unfold luaPayload.
  destruct (payloadAfterHeader script) as [[| b rest] |]; try discriminate.
  destruct (recognisedPush script); [| discriminate].
  intros [= <-]. repeat split. discriminate.
Qed.

(** A payload that starts with the magic prefix comes after a recognised
    push: had the opcode not been one, it would be the payload's first byte,
    and [0x01] is a push. *)
Lemma magic_needs_recognised_push (script data : Buffer) :
  payloadAfterHeader script = Some data ->
  magicPayload data = true ->
  luaPayload script = Some data.
Proof.
  unfold luaPayload, recognisedPush. intros Hpay Hmagic. rewrite Hpay.
  destruct data as [| a rest]; [discriminate Hmagic |].
  unfold payloadAfterHeader in Hpay.
  destruct script as [| b [| op after]]; [discriminate Hpay | |].
  - destruct (Byte.eqb b x6a); discriminate Hpay.
  - destruct (Byte.eqb b x6a); [| discriminate Hpay].
    injection Hpay as Hpay.
    destruct (Nat.ltb_spec 0 (pushHeader op)) as [_ | Hnone]; [reflexivity |].
    assert (Hzero : pushHeader op = 0) by lia.
    rewrite Hzero in Hpay. cbn [skipn] in Hpay. injection Hpay as -> _.
    cbn [magicPayload] in Hmagic. destruct rest as [| c rest']; [discriminate |].
    apply andb_true_iff in Hmagic. destruct Hmagic as [Ha _].
    apply Byte.byte_dec_bl in Ha. subst a. discriminate Hzero.
Qed.

(** X25. The Lua extractor returns a payload exactly when the TypeScript
    extractor returns one that is not empty and follows a push opcode
    ([0x01] to [0x4e]), and then both return the same bytes.  Otherwise the
    Lua extractor returns nothing, where the TypeScript one returns an
    empty payload or the bytes from the unknown opcode on.  The magic prefix
    is found by one exactly when it is found by the other. *)
Theorem lua_extractor_against_typescript (script : Buffer) :
  exists found,
    policy.opreturn_spam.extract_opreturn_data script = Done found
    /\ TransactionParser.extractOpReturnData script = Done (payloadAfterHeader script)
    /\ (forall data,
          found = Some data
          <-> payloadAfterHeader script = Some data
              /\ data <> [] /\ recognisedPush script = true)
    /\ policy.opreturn_spam.has_magic_prefix found
       = Done (match payloadAfterHeader script with
               | Some data => magicPayload data
               | None => false
               end).
Proof.
  exists (luaPayload script).
  split; [apply extract_opreturn_data_spec |].
  split; [apply extractOpReturnData_spec |]. split.
  - intros data. split; [apply luaPayload_is_payload |].
    intros (Hpay & Hne & Hpush). unfold luaPayload. rewrite Hpay, Hpush.
    destruct data; [contradiction | reflexivity].
  - destruct (luaPayload script) as [data |] eqn:Hlua.
    + destruct (luaPayload_is_payload _ _ Hlua) as (Hpay & _).
      rewrite Hpay. apply has_magic_prefix_spec.
    + cbn [policy.opreturn_spam.has_magic_prefix]. f_equal.
      destruct (payloadAfterHeader script) as [data |] eqn:Hpay; [| reflexivity].
      destruct (magicPayload data) eqn:Hmagic; [| reflexivity].
      rewrite (magic_needs_recognised_push _ _ Hpay Hmagic) in Hlua.
      discriminate Hlua.
Qed.

Lemma get_chunk_info_total (data : Buffer) :
  exists info, policy.opreturn_spam.get_chunk_info (Some data) = Done info.
Proof.
  unfold policy.opreturn_spam.get_chunk_info.
  destruct data as [| a [| b [| c [| d rest]]]]; eexists; reflexivity.
Qed.

Lemma scan_output_spec (op_out : policy.Output) (largest_opreturn : nat)
    (has_magic : bool) (details : policy.opreturn_spam.Details) :
  exists details',
    policy.opreturn_spam.scan_output op_out (largest_opreturn, has_magic, details)
    = Done (match luaPayload (policy.get_script_pubkey op_out) with
            | Some data =>
                (Nat.max largest_opreturn (length data),
                 has_magic || magicPayload data, details')
            | None => (largest_opreturn, has_magic, details')
            end).
Proof.
  unfold policy.opreturn_spam.scan_output.
  rewrite extract_opreturn_data_spec. cbn [bind].
  destruct (luaPayload (policy.get_script_pubkey op_out)) as [data |];
    [| exists details; reflexivity].
  rewrite has_magic_prefix_spec. cbn [bind].
  assert (Hmax : (if largest_opreturn <? length data
                  then length data else largest_opreturn)
                 = Nat.max largest_opreturn (length data)).
  { destruct (Nat.ltb_spec largest_opreturn (length data)); lia. }
  rewrite Hmax.
  destruct (magicPayload data).
  - destruct (get_chunk_info_total data) as (info & ->). cbn [bind].
    rewrite orb_true_r. destruct info; eexists; reflexivity.
  - rewrite orb_false_r. exists details. reflexivity.
Qed.

Lemma scan_output_loop (outs : list policy.Output) :
  forall (largest_opreturn : nat) (has_magic : bool)
         (details : policy.opreturn_spam.Details),
  exists details',
    forEach outs policy.opreturn_spam.scan_output
      (largest_opreturn, has_magic, details)
    = Done (Nat.max largest_opreturn (mathMax (map (@length byte) (luaPayloadsOf outs))),
            has_magic || existsb magicPayload (luaPayloadsOf outs),
            details').
Proof.
  induction outs as [| out rest IH]; intros largest has_magic details.
  - exists details. cbn [forEach luaPayloadsOf map mathMax fold_right existsb].
    rewrite Nat.max_0_r, orb_false_r. reflexivity.
  - cbn [forEach luaPayloadsOf].
    destruct (scan_output_spec out largest has_magic details) as (d1 & ->).
    cbn [bind].
    destruct (luaPayload (policy.get_script_pubkey out)) as [data |].
    + destruct (IH (Nat.max largest (length data)) (has_magic || magicPayload data) d1)
        as (d2 & ->).
      exists d2. cbn [map existsb]. unfold mathMax. cbn [fold_right].
      rewrite Nat.max_assoc, orb_assoc. reflexivity.
    + destruct (IH largest has_magic d1) as (d2 & ->). exists d2. reflexivity.
Qed.

Lemma validate_opreturn_spec (tx : policy.Transaction) :
  exists v,
    policy.opreturn_spam.validate tx = Done v
    /\ (policy.accept v, policy.score v) = luaOpReturnVerdict tx.
Proof.
  unfold policy.opreturn_spam.validate, luaOpReturnVerdict.
  destruct (length (filter policy.is_op_return (policy.get_outputs tx)) =? 0) eqn:Enone;
    [eexists; split; reflexivity |].
  destruct (scan_output_loop (filter policy.is_op_return (policy.get_outputs tx))
              0 false
              {| policy.opreturn_spam.magic_prefix := false;
                 policy.opreturn_spam.chunk := None;
                 policy.opreturn_spam.has_continuation := false |})
    as (details & ->).
  cbn [bind Nat.max orb].
  assert (Hsome : (0 <? length (filter policy.is_op_return (policy.get_outputs tx)))
                  = true).
  { apply Nat.ltb_lt. apply Nat.eqb_neq in Enone. lia. }
  rewrite Hsome, andb_true_r.
  repeat match goal with
         | |- context [if ?c then _ else _] => destruct c
         end; eexists; split; reflexivity.
Qed.

Lemma filter_of_map {A B : Type} (f : B -> bool) (g : A -> B) (l : list A) :
  filter f (map g l) = map g (filter (fun x => f (g x)) l).
Proof.
  induction l as [| x rest IH]; [reflexivity |].
  cbn [map filter]. destruct (f (g x)); cbn [map]; rewrite IH; reflexivity.
Qed.

Lemma existsb_of_map {A B : Type} (f : B -> bool) (g : A -> B) (l : list A) :
  existsb f (map g l) = existsb (fun x => f (g x)) l.
Proof.
  induction l as [| x rest IH]; [reflexivity |].
  cbn [map existsb]. rewrite IH. reflexivity.
Qed.

(** The payloads the two detectors see in the same outputs. *)
Lemma luaPayloadsOf_host (outs : list TransactionOutput) :
  existsb magicPayload (luaPayloadsOf (map hostOutput outs))
  = existsb magicPayload (payloadsOf outs)
  /\ mathMax (map (@length byte) (luaPayloadsOf (map hostOutput outs)))
     <= mathMax (map (@length byte) (payloadsOf outs)).
Proof.
  induction outs as [| out rest (IHmagic & IHmax)]; [split; [reflexivity | apply le_n] |].
  cbn [map luaPayloadsOf payloadsOf hostOutput policy.get_script_pubkey].
  destruct (luaPayload (scriptPubKey out)) as [data |] eqn:Hlua.
  - destruct (luaPayload_is_payload _ _ Hlua) as (Hpay & _).
    rewrite Hpay. cbn [existsb map]. rewrite IHmagic.
    split; [reflexivity |]. unfold mathMax in *. cbn [fold_right]. lia.
  - destruct (payloadAfterHeader (scriptPubKey out)) as [data |] eqn:Hpay.
    + cbn [existsb map]. split.
      * destruct (magicPayload data) eqn:Hmagic; [| exact IHmagic].
        rewrite (magic_needs_recognised_push _ _ Hpay Hmagic) in Hlua.
        discriminate Hlua.
      * unfold mathMax in *. cbn [fold_right]. lia.
    + split; [exact IHmagic | exact IHmax].
Qed.

(** The two verdicts on the same outputs, case by case. *)
Lemma opreturn_verdicts_compared (tx : ParsedTransaction) :
  exists (none magic small : bool) (luaLargest tsLargest : nat),
    luaLargest <= tsLargest
    /\ (none = false -> 1 <= length (outputs tx))
    /\ luaOpReturnVerdict (hostTransaction tx)
       = (if none then (true, 0%Z)
          else if magic then (false, 95%Z)
          else if small then (false, 60%Z)
          else if 80 <? luaLargest then (false, 40%Z)
          else (true, 0%Z))
    /\ opReturnVerdict tx
       = (if none then (false, 0%Q)
          else if magic then (true, 95%Q)
          else if (2 <=? length (outputs tx)) && small then (true, 60%Q)
          else if 80 <? tsLargest then (true, 40%Q)
          else (false, 0%Q)).
Proof.
  exists (length (collected tx) =? 0), (hasMagic tx), (existsb smallValue (outputs tx)),
    (mathMax (map (@length byte) (luaPayloadsOf (map hostOutput (collected tx))))),
    (largestPayload tx).
  destruct (luaPayloadsOf_host (collected tx)) as (Hmagic & Hmax).
  split; [exact Hmax |]. split.
  - intros Hsome. apply Nat.eqb_neq in Hsome.
    pose proof (filter_length_le ChainedOpReturnDetector.isNulldata (outputs tx)) as Hle.
    unfold collected in Hsome. lia.
  - split; [| reflexivity].
    unfold luaOpReturnVerdict, hostTransaction. cbn [policy.get_outputs].
    rewrite filter_of_map. cbn [hostOutput policy.is_op_return].
    change (filter (fun x => ChainedOpReturnDetector.isNulldata x) (outputs tx))
      with (collected tx).
    rewrite length_map, Hmagic.
    rewrite existsb_of_map. cbn [hostOutput policy.get_value].
    reflexivity.
Qed.

(** X26. On the same outputs, with the host's [is_op_return] answering as
    the tag, the Lua filter and the TypeScript detector find the magic prefix
    together (95).  They differ on the continuation pattern only for a
    transaction whose single output is an OP_RETURN output of small value,
    which the Lua filter scores 60 and the TypeScript detector does not; and
    on the size only where the TypeScript detector reports 40 for bytes the
    Lua extractor does not return.  With two outputs or more the Lua score
    never exceeds the TypeScript confidence. *)
Theorem lua_and_typescript_opreturn_verdicts (tx : ParsedTransaction) :
  exists v r,
    policy.opreturn_spam.validate (hostTransaction tx) = Done v
    /\ ChainedOpReturnDetector.detect tx = Done r
    /\ (policy.accept v = true <-> policy.score v = 0%Z)
    /\ (policy.score v = 95%Z <-> confidence r = 95%Q)
    /\ (confidence r = 60%Q -> policy.score v = 60%Z)
    /\ (policy.score v = 60%Z -> confidence r <> 60%Q -> length (outputs tx) = 1)
    /\ (policy.score v = 40%Z -> confidence r = 40%Q)
    /\ (2 <= length (outputs tx) -> (inject_Z (policy.score v) <= confidence r)%Q).
Proof.
  destruct (validate_opreturn_spec (hostTransaction tx)) as (v & Hv & Hlua).
  destruct (opreturn_detect_verdict tx) as (r & Hr & Hts).
  exists v, r. split; [exact Hv |]. split; [exact Hr |].
  destruct (opreturn_verdicts_compared tx)
    as (none & magic & small & luaLargest & tsLargest & Hle & Hone & Elua & Ets).
  rewrite Elua in Hlua. rewrite Ets in Hts. clear Elua Ets Hv Hr.
  destruct v as [vaccept vscore vreason], r as [rdetected rconfidence rreason rdetails].
  cbn [policy.accept policy.score detected confidence] in *.
  destruct (Nat.leb_spec 2 (length (outputs tx))) as [Htwo | Hfew];
    destruct (Nat.ltb_spec 80 luaLargest) as [Hlua80 | Hlua80];
    destruct (Nat.ltb_spec 80 tsLargest) as [Hts80 | Hts80];
    try lia;
    destruct none, magic, small; cbn [andb] in Hts;
    injection Hlua as -> ->; injection Hts as -> ->;
    repeat split; intros; try reflexivity; try discriminate; try lia;
    try (unfold Qle; cbn; lia); try contradiction;
    try (specialize (Hone eq_refl); lia).
Qed.

(** *** The composite filter *)

Lemma lua_p2wsh_score_range (tx : policy.Transaction) :
  exists v,
    policy.p2wsh_spam.validate tx = Done v /\ (0 <= policy.score v <= 100)%Z.
Proof.
  eexists. split; [apply validate_p2wsh_spec |].
  pose proof (lua_suspicious_in_population (policy.get_inputs tx)) as Hle.
  destruct (length (filter luaSuspiciousInput (policy.get_inputs tx)) =? 0) eqn:Es;
    cbn [policy.score]; [lia |].
  apply Nat.eqb_neq in Es. split.
  - apply Z.div_pos; lia.
  - apply Z.div_le_upper_bound; lia.
Qed.

Lemma lua_opreturn_score_range (tx : policy.Transaction) :
  exists v,
    policy.opreturn_spam.validate tx = Done v /\ (0 <= policy.score v <= 100)%Z.
Proof.
  destruct (validate_opreturn_spec tx) as (v & Hv & Hverdict).
  exists v. split; [exact Hv |].
  unfold luaOpReturnVerdict in Hverdict.
  repeat match type of Hverdict with
         | context [if ?c then _ else _] => destruct c
         end; injection Hverdict as _ ->; lia.
Qed.

(** X27. The composite Lua filter rejects as soon as one enabled detector
    rejects, and reports the larger of the enabled detectors' scores, between
    0 and 100.  [rejection_threshold] and [enable_logging] have no part in
    the verdict: a transaction is rejected also when its score is below the
    threshold, as the oversized OP_RETURN of the tests is, with 40 against a
    threshold of 50. *)
Theorem lua_composite_rejects_on_any_detector
    (CONFIG : policy.spam_filter.Config) (tx : policy.Transaction) :
  (exists p o v,
      policy.p2wsh_spam.validate tx = Done p
      /\ policy.opreturn_spam.validate tx = Done o
      /\ policy.spam_filter.validate CONFIG tx = Done v
      /\ policy.accept v
         = (negb (policy.spam_filter.enable_p2wsh_detection CONFIG) || policy.accept p)
           && (negb (policy.spam_filter.enable_opreturn_detection CONFIG)
               || policy.accept o)
      /\ policy.score v
         = Z.max (if policy.spam_filter.enable_p2wsh_detection CONFIG
                  then policy.score p else 0%Z)
                 (if policy.spam_filter.enable_opreturn_detection CONFIG
                  then policy.score o else 0%Z)
      /\ (0 <= policy.score v <= 100)%Z
      /\ forall threshold logging,
           policy.spam_filter.validate
             {| policy.spam_filter.rejection_threshold := threshold;
                policy.spam_filter.enable_p2wsh_detection :=
                  policy.spam_filter.enable_p2wsh_detection CONFIG;
                policy.spam_filter.enable_opreturn_detection :=
                  policy.spam_filter.enable_opreturn_detection CONFIG;
                policy.spam_filter.enable_logging := logging |} tx
           = Done v)
  /\ exists v,
      policy.spam_filter.validate policy.spam_filter.CONFIG oversized_tx = Done v
      /\ policy.accept v = false
      /\ (policy.score v
          < policy.spam_filter.rejection_threshold policy.spam_filter.CONFIG)%Z.
Proof.
  split; [| eexists; split; [vm_compute; reflexivity | split; reflexivity]].
  destruct (lua_p2wsh_score_range tx) as (p & Hp & Hprange).
  destruct (lua_opreturn_score_range tx) as (o & Ho & Horange).
  exists p, o.
  unfold policy.spam_filter.validate.
  cbn [policy.spam_filter.enable_p2wsh_detection
       policy.spam_filter.enable_opreturn_detection].
  rewrite Hp, Ho. cbn [bind].
  unfold policy.spam_filter.note.
  destruct (policy.spam_filter.enable_p2wsh_detection CONFIG),
           (policy.spam_filter.enable_opreturn_detection CONFIG);
    cbn [bind negb orb andb];
    destruct (policy.accept p), (policy.accept o); cbn [negb bind andb];
    destruct (Z.ltb_spec 0 (policy.score p));
    destruct (Z.ltb_spec 0 (policy.score o));
    repeat match goal with
           | |- context [(?a <? ?b)%Z] => destruct (Z.ltb_spec a b)
           end;
    eexists; (split; [reflexivity |]); (split; [reflexivity |]);
    (split; [reflexivity |]); cbn [policy.accept policy.score];
    (split; [reflexivity |]); (split; [lia |]); (split; [lia |]);
    intros threshold logging; reflexivity.
Qed.
